(** * Radiographics: vision-model batch scripts and result summarizer

    A shallow embedding of the Python scripts of the repository:

    - [1-1-2_GPT4o.py], [1-2_Gemini-1_5-Pro.py], [1-3-1_Claude-3-opus.py]:
      the image encoder [process_and_encode_image], the three request
      clients [analyze_images_with_*_vision] and the main loop that walks
      the case list, skips finished cases, records timings and writes the
      result files;
    - [2_GPT_and_Claude_results_excel_summarizer.py]: the line scanner of
      [process_folder] that splits a result file into six sections.

    Conventions.  Python [str] values are Rocq strings (characters are the
    code points below 256).  Python's binary64 numbers only occur as the
    resize factor and as elapsed times: the factor is the rational that its
    decimal literal denotes, and elapsed times are values of an arbitrary
    type.  Console output ([print]) and the latency statistics printed
    after a successful call do not influence control flow and are left out.
    The external world (the JPEG codec of PIL, base64, the binary64
    arithmetic of the requested sizes, the worksheet of openpyxl, the remote
    provider, the clock) enters as parameters; whatever they answer, the
    control flow below is the one of the scripts. *)

From Stdlib Require Import ZArith QArith Qround Qpower Ascii String DecimalString Lia Lqa.
From stdpp Require Import base option list strings gmap.

Local Open Scope string_scope.
Local Open Scope list_scope.
Local Open Scope nat_scope.

(** ** Python string primitives *)

Module PyStr.

(** [str.isspace] on one character, for code points below 256:
    TAB..CR, FS..US, SPACE, NEL and NBSP. *)
Definition isspace (c : ascii) : bool :=
  let n := nat_of_ascii c in
  (((9 <=? n) && (n <=? 13)) || ((28 <=? n) && (n <=? 32))
   || (n =? 133) || (n =? 160))%nat.

Fixpoint lstrip (s : string) : string :=
  match s with
  | EmptyString => EmptyString
  | String c s' => if isspace c then lstrip s' else s
  end.

Fixpoint rstrip (s : string) : string :=
  match s with
  | EmptyString => EmptyString
  | String c s' =>
      match rstrip s' with
      | EmptyString => if isspace c then EmptyString else String c EmptyString
      | r => String c r
      end
  end.

(** [s.strip()] *)
Definition strip (s : string) : string := rstrip (lstrip s).

(** [s.startswith(p)] *)
Definition startswith (s p : string) : bool := String.prefix p s.

(** [m in s] *)
Fixpoint contains (m s : string) : bool :=
  String.prefix m s ||
  match s with
  | EmptyString => false
  | String _ s' => contains m s'
  end.

(** [str.lower] on one character, for code points below 256: the ASCII
    capitals and the Latin-1 capitals (all of 192..222 but the
    multiplication sign 215) move up by 32. *)
Definition lower_char (c : ascii) : ascii :=
  let n := nat_of_ascii c in
  if (((65 <=? n) && (n <=? 90))
      || ((192 <=? n) && (n <=? 222) && negb (n =? 215)))%nat
  then ascii_of_nat (n + 32) else c.

Fixpoint lower (s : string) : string :=
  match s with
  | EmptyString => EmptyString
  | String c s' => String (lower_char c) (lower s')
  end.

(** [''.join(l)] *)
Definition join (l : list string) : string := foldr String.append "" l.

(** [f'{n}'] for a non-negative integer. *)
Definition str_of_nat (n : nat) : string :=
  NilZero.string_of_uint (Nat.to_uint n).

Definition newline : ascii := ascii_of_nat 10.

(** The line terminator as a string. *)
Definition nl : string := String newline EmptyString.

(** [file.readlines()] on the text of a file opened in text mode: the
    text is cut after every newline, the terminators are kept. *)
Fixpoint readlines (s : string) : list string :=
  match s with
  | EmptyString => []
  | String c s' =>
      if Ascii.eqb c newline then String c EmptyString :: readlines s'
      else match readlines s' with
           | [] => [String c EmptyString]
           | l :: ls => String c l :: ls
           end
  end.

Definition no_space (m : string) : bool :=
  forallb (fun c => negb (isspace c)) (list_ascii_of_string m).

(** [s.endswith('/')] *)
Definition endswith_sep (s : string) : bool :=
  match last (list_ascii_of_string s) with
  | Some c => Ascii.eqb c "/"%char
  | None => false
  end.

(** [os.path.join(a, b)] on POSIX: a second component that starts with
    the separator replaces the first; a separator is put in between unless
    the first component is empty or ends with one. *)
Definition path_join (a b : string) : string :=
  if startswith b "/" then b
  else if String.eqb a "" || endswith_sep a then a +:+ b
  else a +:+ "/" +:+ b.

End PyStr.

(** ** Results of Python computations *)

(** A call returns a value, raises an exception (kept as its message), or
    ends the process with [sys.exit()]. *)
Inductive py (A : Type) : Type :=
| Ret (a : A)
| Exc (msg : string)
| Exit.
Arguments Ret {A} a.
Arguments Exc {A} msg.
Arguments Exit {A}.

(** ** The heuristic section splitter ([process_folder], lines 19-28) *)

Module Summarizer.
Import PyStr.

(** [f'{current_item_index + 2}.'] *)
Definition marker (current_item_index : nat) : string :=
  str_of_nat (current_item_index + 2) +:+ ".".

(** The loop state: [current_item_index] and [items]. *)
Definition split_state : Type := nat * list string.

(** [items = [''] * 6; current_item_index = 0] *)
Definition split_init : split_state := (0, replicate 6 "").

(** The index after the test
    [if current_item_index < 5 and f'{current_item_index + 2}.' in stripped_line]. *)
Definition next_index (current_item_index : nat) (stripped_line : string) : nat :=
  if (current_item_index <? 5) && contains (marker current_item_index) stripped_line
  then current_item_index + 1 else current_item_index.

(** One iteration of [for line in content].  [items[i] += line] is an
    in-place update of slot [i]; the index never leaves [0..5]
    (lemma [split_lines_inv]), so the IndexError of Python cannot occur. *)
Definition split_step (st : split_state) (line : string) : split_state :=
  let '(current_item_index, items) := st in
  let stripped_line := strip line in
  let current_item_index := next_index current_item_index stripped_line in
  (current_item_index, alter (fun s => s +:+ line) current_item_index items).

Definition split_lines (content : list string) : split_state :=
  foldl split_step split_init content.

(** The loop invariant: the index is a valid slot, there are six slots,
    and the slots after the current one are still empty. *)
Definition split_inv (st : split_state) : Prop :=
  st.1 <= 5 /\ length st.2 = 6 /\
  forall j, st.1 < j -> j < 6 -> st.2 !! j = Some "".

(** The six [items] appended to the worksheet row of one file. *)
Definition split_sections (content : list string) : list string :=
  (split_lines content).2.

(** The same, from the text of the file. *)
Definition split_file (text : string) : list string :=
  split_sections (readlines text).

(** [os.path.join(folder_path, f'{i}.png.txt')] *)
Definition file_path (folder_path : string) (i : nat) : string :=
  path_join folder_path (str_of_nat i +:+ ".png.txt").

Section WithSheet.
(** What [openpyxl] does with a text given as the value of a cell: the
    exception it raises, if any (an [IllegalCharacterError] for a text that
    holds a control character). *)
Context (cell_error : string -> option string).

(** [ws.append([i] + items)]: the cells are made from left to right, the
    first text that is refused raises.  The number [i] is never refused. *)
Definition append_error (items : list string) : option string :=
  head (omap cell_error items).

(** [for i in range(1, 402)], over the numbers that are left.  Only
    [FileNotFoundError] is caught: a missing file is skipped, an exception
    of [ws.append] leaves the loop and the function. *)
Fixpoint process_files (fs : gmap string string) (folder_path : string)
    (numbers : list nat) : py (list (nat * list string)) :=
  match numbers with
  | [] => Ret []
  | i :: rest =>
      match fs !! file_path folder_path i with
      | None => process_files fs folder_path rest
      | Some text =>
          let items := split_file text in
          match append_error items with
          | Some msg => Exc msg
          | None =>
              match process_files fs folder_path rest with
              | Ret rows => Ret ((i, items) :: rows)
              | Exc msg => Exc msg
              | Exit => Exit
              end
          end
      end
  end.

(** [process_folder], up to the end of its loop: the rows [[i] + items]
    given to [ws.append] after the header, or the exception that ended the
    function before [wb.save] was reached.  (What the sheet stores of a
    row, and saving the workbook, are not part of the model.) *)
Definition process_folder (fs : gmap string string) (folder_path : string)
  : py (list (nat * list string)) :=
  process_files fs folder_path (seq 1 401).

End WithSheet.

End Summarizer.

(** ** The external world *)

(** What [resize] followed by [save] does: it leaves bytes in the buffer,
    or one of the two raises an exception, kept as its message. *)
Inductive Saved : Type :=
| Bytes (buffered : list Byte.byte)
| Raised (msg : string).

(** What PIL, base64 and binary64 arithmetic do for the scripts. *)
Record Imaging : Type := {
  Image : Type;
  (** [image.size] *)
  size : Image -> Z * Z;
  (** [image.mode == 'RGBA'] *)
  mode_is_rgba : Image -> bool;
  (** [image.convert('RGB')] *)
  convert_rgb : Image -> Image;
  (** [image.resize((w, h), Image.LANCZOS).save(buffered, format="JPEG")]:
      the bytes in [buffered], or the exception raised ([save] raises an
      [OSError] for an image whose mode the JPEG writer does not take,
      such as P or LA: "cannot write mode P as JPEG"; [resize] raises a
      [ValueError] for a size below one pixel) *)
  resize_save_jpeg : Image -> Z -> Z -> Saved;
  (** [base64.b64encode(...).decode("utf-8")] *)
  b64encode : list Byte.byte -> string;
  (** [Image.open(io.BytesIO(base64.b64decode(encoded_image)))] *)
  open_encoded : string -> Image;
  (** [Image.open(image_path)]; [None] when the file cannot be opened *)
  open_path : string -> option Image;
  (** [int(original * (resize_factor ** attempt))] as binary64 arithmetic
      computes it, for the factor written as the given decimal number *)
  scaled : Z -> Q -> nat -> Z;

  (** The texts that the clients decode are JPEGs written by the encoder:
      the decoded image has mode L, RGB or CMYK, never RGBA, and the JPEG
      writer takes it.  Writing it again is taken not to raise at any
      size: the clients ask for sizes from the original one downwards. *)
  open_encoded_mode :
    forall encoded_image, mode_is_rgba (open_encoded encoded_image) = false;
  open_encoded_saves :
    forall encoded_image w h,
      exists buffered,
        resize_save_jpeg (open_encoded encoded_image) w h = Bytes buffered;
  (** Base64 writes four characters for every three bytes or part of
      three bytes. *)
  b64encode_length :
    forall data,
      Z.of_nat (String.length (b64encode data))
      = (4 * ((Z.of_nat (length data) + 2) / 3))%Z;
  (** [resize_factor ** 0] is [1.0], and the product of an image size and
      [1.0] is exact. *)
  scaled_first :
    forall original resize_factor, scaled original resize_factor 0 = original;
  (** For an image size and a factor between 0 and 1 the rounding errors of
      the power and of the product stay far below one, so that the
      truncated product is within one of the integer part of the exact
      product. *)
  scaled_near :
    forall original resize_factor attempt,
      (0 <= original < 2 ^ 31)%Z ->
      (0 <= resize_factor)%Q -> (resize_factor <= 1)%Q ->
      (inject_Z original * resize_factor ^ Z.of_nat attempt - 2
       < inject_Z (scaled original resize_factor attempt))%Q
      /\ (inject_Z (scaled original resize_factor attempt)
          <= inject_Z original * resize_factor ^ Z.of_nat attempt + 1)%Q;
}.

(** The values of the list [temperatures = [0, 0.5, 1]]. *)
Inductive Temperature : Type := T_0 | T_0_5 | T_1.

#[global] Instance Temperature_eq_dec : EqDecision Temperature.
Proof. solve_decision. Defined.

(** What one request to the provider does inside the [try] block: it
    yields a response that can be read, or an exception is raised (by the
    transport, or by reading a response without text), kept as [str(e)]. *)
Inductive Outcome (R : Type) : Type :=
| Response (r : R)
| Failure (e : string).
Arguments Response {R} r.
Arguments Failure {R} e.

(** ** The image encoder ([process_and_encode_image]) *)

Module Encoder.
Section WithImaging.
Context (pil : Imaging).

Definition MAX_SIZE : Z := 20 * 1024 * 1024.

(** What resizing and saving does at a given attempt. *)
Definition attempt_saved (image : Image pil) (original_width original_height : Z)
    (resize_factor : Q) (attempt : nat) : Saved :=
  resize_save_jpeg pil image
    (scaled pil original_width resize_factor attempt)
    (scaled pil original_height resize_factor attempt).

(** The attempt leaves a JPEG that is not below the ceiling. *)
Definition too_large (image : Image pil) (original_width original_height : Z)
    (resize_factor : Q) (attempt : nat) : Prop :=
  exists buffered,
    attempt_saved image original_width original_height resize_factor attempt
    = Bytes buffered
    /\ (MAX_SIZE <= Z.of_nat (length buffered))%Z.

(** [for attempt in range(5)], from [attempt] on with [remaining]
    iterations left.  The first component lists the sizes
    [(new_width, new_height)] of the encodings that were tried, in order.
    Nothing catches an exception of [resize] or [save]. *)
Fixpoint encode_loop (image : Image pil) (original_width original_height : Z)
    (resize_factor : Q) (attempt remaining : nat) : list (Z * Z) * py string :=
  match remaining with
  | 0 => ([], Exc "Unable to reduce image size within 5 attempts")
  | S remaining' =>
      let new_width := scaled pil original_width resize_factor attempt in
      let new_height := scaled pil original_height resize_factor attempt in
      match resize_save_jpeg pil image new_width new_height with
      | Raised msg => ([(new_width, new_height)], Exc msg)
      | Bytes buffered =>
          if (Z.of_nat (length buffered) <? MAX_SIZE)%Z
          then ([(new_width, new_height)], Ret (b64encode pil buffered))
          else
            let '(tried, res) :=
              encode_loop image original_width original_height resize_factor
                (S attempt) remaining' in
            ((new_width, new_height) :: tried, res)
      end
  end.

Definition process_and_encode_image_log (image : Image pil) (resize_factor : Q)
  : list (Z * Z) * py string :=
  let '(original_width, original_height) := size pil image in
  let image := if mode_is_rgba pil image then convert_rgb pil image else image in
  encode_loop image original_width original_height resize_factor 0 5.

Definition process_and_encode_image (image : Image pil) (resize_factor : Q)
  : py string :=
  (process_and_encode_image_log image resize_factor).2.

(** The re-encoding loop of the request clients ([resize_images] in
    the Claude script, written inline in the other two):
    every image is opened again and sent through the encoder; the
    first error ends the loop. *)
Fixpoint resize_images (resize_factor : Q) (encoded_images : list string)
  : py (list string) :=
  match encoded_images with
  | [] => Ret []
  | encoded_image :: rest =>
      match process_and_encode_image (open_encoded pil encoded_image) resize_factor with
      | Ret resized_image =>
          match resize_images resize_factor rest with
          | Ret resized_encoded_images => Ret (resized_image :: resized_encoded_images)
          | Exc msg => Exc msg
          | Exit => Exit
          end
      | Exc msg => Exc msg
      | Exit => Exit
      end
  end.

(** [encode_images_from_paths]: images of at most 150 pixels in one
    direction are left out; an image that cannot be opened raises. *)
Fixpoint encode_images_from_paths (image_paths : list string) : py (list string) :=
  match image_paths with
  | [] => Ret []
  | image_path :: rest =>
      match open_path pil image_path with
      | None => Exc ("No such file or directory: " +:+ image_path)
      | Some img =>
          let '(width, height) := size pil img in
          if ((150 <? width) && (150 <? height))%Z then
            match process_and_encode_image img (9 # 10) with
            | Ret encoded_image =>
                match encode_images_from_paths rest with
                | Ret images => Ret (encoded_image :: images)
                | Exc msg => Exc msg
                | Exit => Exit
                end
            | Exc msg => Exc msg
            | Exit => Exit
            end
          else encode_images_from_paths rest
      end
  end.

End WithImaging.
End Encoder.

(** ** The timing table ([df_execution_times]) *)

Module Recorder.
Section Table.
Context {Time : Type}.

(** One row of the table with columns
    ['number', 'temperature', 'try', 'time'] (the column 'try' is the field
    [try_number]). *)
Record Row : Type := {
  number : nat;
  temperature : Temperature;
  try_number : nat;
  time : Time;
}.

Definition key (r : Row) : nat * Temperature * nat :=
  (number r, temperature r, try_number r).

(** One entry of the boolean mask
    [(df['number'] == n) & (df['temperature'] == t) & (df['try'] == y)]. *)
Definition mask (case_number : nat) (t : Temperature) (try_no : nat) (r : Row) : bool :=
  bool_decide (number r = case_number) && bool_decide (temperature r = t)
  && bool_decide (try_number r = try_no).

(** [df.loc[mask, 'time'] = execution_time] *)
Definition set_time (case_number : nat) (t : Temperature) (try_no : nat)
    (execution_time : Time) (r : Row) : Row :=
  if mask case_number t try_no r
  then {| number := number r; temperature := temperature r;
          try_number := try_number r; time := execution_time |}
  else r.

(** "Update or add execution time to DataFrame" (main loop). *)
Definition upsert (df : list Row) (case_number : nat) (t : Temperature)
    (try_no : nat) (execution_time : Time) : list Row :=
  if existsb (mask case_number t try_no) df
  then map (set_time case_number t try_no execution_time) df
  else df ++ [ {| number := case_number; temperature := t;
                  try_number := try_no; time := execution_time |} ].

(** The rows selected by a key. *)
Definition rows_of (df : list Row) (case_number : nat) (t : Temperature)
    (try_no : nat) : list Row :=
  filter (fun r => mask case_number t try_no r = true) df.

(** A sequence of recorder calls, oldest first. *)
Definition record_all (df : list Row) (calls : list (nat * Temperature * nat * Time))
  : list Row :=
  foldl (fun df c => upsert df c.1.1.1 c.1.1.2 c.1.2 c.2) df calls.

End Table.
Arguments Row : clear implicits.
End Recorder.

(** ** What a run does to the outside *)

Inductive Event (Time : Type) : Type :=
(** a request sent to the provider at the given attempt *)
| Send (attempt : nat) (prompt_text : string) (encoded_images : list string)
       (temperature : Temperature)
(** every image of the list was sent through the encoder again *)
| Resized (resize_factor : Q) (encoded_images resized_encoded_images : list string)
(** [save_execution_times_to_excel(df, time_file_name)] *)
| SavedTimes (df : list (Recorder.Row Time)) (time_file_name : string)
(** the main loop skipped a case *)
| Skipped (case_number : nat) (temperature : Temperature) (try_number : nat).
Arguments Send {Time}.
Arguments Resized {Time}.
Arguments SavedTimes {Time}.
Arguments Skipped {Time}.

Definition is_send {Time} (ev : Event Time) : bool :=
  match ev with Send _ _ _ _ => true | _ => false end.
Definition is_saved {Time} (ev : Event Time) : bool :=
  match ev with SavedTimes _ _ => true | _ => false end.

(** The event, if a request, carries this prompt and temperature. *)
Definition carries {Time} (prompt_text : string) (temperature : Temperature)
    (ev : Event Time) : Prop :=
  match ev with
  | Send _ p _ t => p = prompt_text /\ t = temperature
  | _ => True
  end.

(** Number of requests sent in a trace. *)
Definition sends {Time} (tr : list (Event Time)) : nat :=
  length (filter (fun ev => is_send ev = true) tr).

(** ** The request clients *)

Module Client.
Import PyStr Encoder.

Definition max_attempts : nat := 10.

(** [response.choices[0]] of the OpenAI client; only its
    [message.content] is used. *)
Record Choice : Type := { message_content : string }.

(** [result.content] of the Gemini client: a string or a list of parts. *)
Inductive Content : Type :=
| Text (s : string)
| Parts (l : list string).

(** [isinstance(result.content, str) and len(result.content) < 10] *)
Definition too_short (c : Content) : bool :=
  match c with
  | Text s => String.length s <? 10
  | Parts _ => false
  end.

Section WithWorld.
Context (pil : Imaging) {Time : Type}.

Definition run (A : Type) : Type := (list (Event Time) * py A)%type.

(** Events that happened before the rest of a run. *)
Definition after {A} (evs : list (Event Time)) (r : run A) : run A :=
  (evs ++ r.1, r.2).

(** *** [analyze_images_with_gpt4_vision] *)
Section GPT4o.
Context (provider : nat -> string -> list string -> Temperature -> Outcome Choice).

(** [for attempt in range(max_attempts)], from [attempt] on. *)
Fixpoint gpt4_attempts (prompt_text : string) (temperature : Temperature)
    (attempt remaining : nat) (encoded_images : list string)
  : run (option Choice) :=
  match remaining with
  | 0 => ([], Ret None)
  | S remaining' =>
      let sent := Send attempt prompt_text encoded_images temperature in
      let continue := gpt4_attempts prompt_text temperature (S attempt) remaining' in
      match provider attempt prompt_text encoded_images temperature with
      | Response response_result =>
          if startswith (message_content response_result) "I'm sorry, but"
          then after [sent] (continue encoded_images)
          else ([sent], Ret (Some response_result))
      | Failure e =>
          if contains "image_parse_error" (lower e) && (attempt <? max_attempts - 1)
          then
            match resize_images pil (9 # 10) encoded_images with
            | Ret resized_encoded_images =>
                after [sent; Resized (9 # 10) encoded_images resized_encoded_images]
                  (continue resized_encoded_images)
            | Exc msg => ([sent], Exc msg)
            | Exit => ([sent], Exit)
            end
          else after [sent] (continue encoded_images)
      end
  end.

Definition analyze_images_with_gpt4_vision (prompt_text : string)
    (encoded_images : list string) (temperature : Temperature)
  : run (option Choice) :=
  gpt4_attempts prompt_text temperature 0 max_attempts encoded_images.
End GPT4o.

(** *** [analyze_images_with_gemini_vision] *)
Section Gemini.
Context (provider : nat -> string -> list string -> Temperature -> Outcome Content).

Fixpoint gemini_attempts (prompt_text : string) (temperature : Temperature)
    (attempt remaining : nat) (encoded_images : list string)
  : run (option Content) :=
  match remaining with
  | 0 => ([], Ret None)
  | S remaining' =>
      let sent := Send attempt prompt_text encoded_images temperature in
      let continue := gemini_attempts prompt_text temperature (S attempt) remaining' in
      (** the [except Exception as e] clause *)
      let handler (e : string) : run (option Content) :=
        if contains "SAFETY" (lower e) && (attempt <? max_attempts - 1)
        then
          match resize_images pil (7 # 10) encoded_images with
          | Ret resized_encoded_images =>
              after [sent; Resized (7 # 10) encoded_images resized_encoded_images]
                (continue resized_encoded_images)
          | Exc msg => ([sent], Exc msg)
          | Exit => ([sent], Exit)
          end
        else after [sent] (continue encoded_images) in
      match provider attempt prompt_text encoded_images temperature with
      | Response content =>
          if too_short content
          then
            (** still inside [try]: an error of the encoder is caught *)
            match resize_images pil (9 # 10) encoded_images with
            | Ret resized_encoded_images =>
                after [sent; Resized (9 # 10) encoded_images resized_encoded_images]
                  (continue resized_encoded_images)
            | Exc msg => handler msg
            | Exit => ([sent], Exit)
            end
          else ([sent], Ret (Some content))
      | Failure e => handler e
      end
  end.

Definition analyze_images_with_gemini_vision (prompt_text : string)
    (encoded_images : list string) (temperature : Temperature)
  : run (option Content) :=
  gemini_attempts prompt_text temperature 0 max_attempts encoded_images.
End Gemini.

(** *** [analyze_images_with_claude_vision] *)
Section Claude.
Context (provider : nat -> string -> list string -> Temperature -> Outcome string).
(** the module-level table and file name read by the client *)
Context (df_execution_times : list (Recorder.Row Time)) (time_file_name : string).

Fixpoint claude_attempts (prompt_text : string) (temperature : Temperature)
    (attempt remaining : nat) (encoded_images : list string)
  : run (option string) :=
  match remaining with
  | 0 => ([], Ret None)
  | S remaining' =>
      let sent := Send attempt prompt_text encoded_images temperature in
      let continue := claude_attempts prompt_text temperature (S attempt) remaining' in
      match provider attempt prompt_text encoded_images temperature with
      | Response text =>
          if startswith text "I'm sorry, but"
          then after [sent] (continue encoded_images)
          else ([sent], Ret (Some text))
      | Failure e =>
          if contains "exceeded" (lower e)
          then ([sent; SavedTimes df_execution_times time_file_name], Exit)
          else if contains "image_parse_error" (lower e) && (attempt <? max_attempts - 1)
          then
            match resize_images pil (9 # 10) encoded_images with
            | Ret resized_encoded_images =>
                after [sent; Resized (9 # 10) encoded_images resized_encoded_images]
                  (continue resized_encoded_images)
            | Exc msg => ([sent], Exc msg)
            | Exit => ([sent], Exit)
            end
          else after [sent] (continue encoded_images)
      end
  end.

Definition analyze_images_with_claude_vision (prompt_text : string)
    (encoded_images : list string) (temperature : Temperature)
  : run (option string) :=
  claude_attempts prompt_text temperature 0 max_attempts encoded_images.
End Claude.

End WithWorld.
End Client.

(** ** The images from one request of a call to the next *)

Section Retries.
Context (pil : Imaging) {Time : Type}.
(** When a request is said to be followed by a re-encoding, and when by a
    retry with the same images; both may depend on the attempt and on the
    images that were sent. *)
Context (reencoded kept : nat -> list string -> Prop).


End Retries.

(** ** The main loop of [1-1-2_GPT4o.py] *)

Module Runner.
Import PyStr Encoder Client Recorder.

(** One row of the case spreadsheet; the cells as they print. *)
Record Case : Type := {
  no : string;
  age : string;
  sex : string;
  symptom : string;
}.

(** [str(temperature)], also what the f-strings print. *)
Definition str_temperature (t : Temperature) : string :=
  match t with
  | T_0 => "0"
  | T_0_5 => "0.5"
  | T_1 => "1"
  end.

(** [s.replace('.', '_')] *)
Fixpoint replace_dot (s : string) : string :=
  match s with
  | EmptyString => EmptyString
  | String c s' =>
      String (if Ascii.eqb c "."%char then "_"%char else c) (replace_dot s')
  end.

Definition temperatures : list Temperature := [T_0; T_0_5; T_1].
Definition base_result_folder : string := "gpt4o_result/gpt4o_result".
Definition time_file_name : string := "OpenAI_gpt4o_execution_times.xlsx".

(** [create_result_folder]: the name of the folder (the directory
    itself is not part of the model). *)
Definition create_result_folder (base_folder : string) (temperature : Temperature)
    (try_number : nat) : string :=
  base_folder +:+ "_temp_" +:+ replace_dot (str_temperature temperature)
    +:+ "_try" +:+ str_of_nat try_number.

Definition image_file_name (row : Case) : string := no row +:+ ".png".

(** [os.path.join(directory_path, f"{image_file_name}.txt")] *)
Definition result_file_path (result_folder : string) (row : Case) : string :=
  path_join result_folder (image_file_name row +:+ ".txt").

(** The line printed and logged when a case has no result. *)
Definition no_result_message (case_number : nat) (temperature : Temperature)
    (try_number : nat) : string :=
  "Case " +:+ str_of_nat case_number +:+ " (Temperature: "
    +:+ str_temperature temperature +:+ ", Try: " +:+ str_of_nat try_number
    +:+ "): No results found.".

Section WithWorld.
Context (pil : Imaging) {Time : Type}.
(** the rows of [Radiographics_text_q401_final.xlsx] *)
Context (cases : list Case).
(** the f-string of the prompt, as a function of [history_text] and
    [symptom_text] *)
Context (prompt_template : string -> string -> string).
(** the provider, for the call made for a temperature and a case;
    then as in [Client] *)
Context (provider : Temperature -> nat ->
                    nat -> string -> list string -> Temperature -> Outcome Choice).
(** [end_time - start_time] measured around the call *)
Context (clock : Temperature -> nat -> Time).

(** What the script reads and writes. *)
Record World : Type := {
  (** the text files below the result folders, by path *)
  files : gmap string string;
  df_execution_times : list (Row Time);
  (** the lines appended to [process_log_gpt4o.txt] *)
  log_file : list string;
  (** what happened so far, oldest first *)
  events : list (Event Time);
}.

Definition add_events (evs : list (Event Time)) (w : World) : World :=
  {| files := files w; df_execution_times := df_execution_times w;
     log_file := log_file w; events := events w ++ evs |}.

Definition set_df (df : list (Row Time)) (w : World) : World :=
  {| files := files w; df_execution_times := df;
     log_file := log_file w; events := events w |}.

(** [open(path, "w")] followed by [write(text)] *)
Definition write_file (path text : string) (w : World) : World :=
  {| files := <[path := text]> (files w);
     df_execution_times := df_execution_times w;
     log_file := log_file w; events := events w |}.

Definition log_message (message : string) (w : World) : World :=
  {| files := files w; df_execution_times := df_execution_times w;
     log_file := log_file w ++ [message]; events := events w |}.

(** A [for] loop whose body may raise: the first exception ends it. *)
Fixpoint for_each {A : Type} (body : World -> A -> World * py unit)
    (w : World) (l : list A) : World * py unit :=
  match l with
  | [] => (w, Ret tt)
  | x :: rest =>
      match body w x with
      | (w', Ret _) => for_each body w' rest
      | stopped => stopped
      end
  end.

(** The body of [for index, row in df.iterrows()]. *)
Definition run_case (temperature : Temperature) (try_number : nat)
    (result_folder : string) (w : World) (indexed_row : nat * Case)
  : World * py unit :=
  let '(index, row) := indexed_row in
  let case_number := index + 1 in
  let path := result_file_path result_folder row in
  match files w !! path with
  | Some _ =>
      (** "Skip if result file already exists" *)
      (add_events [Skipped case_number temperature try_number] w, Ret tt)
  | None =>
      let history_text := "age: " +:+ age row +:+ ", sex: " +:+ sex row in
      let symptom_text := "symptom: " +:+ symptom row in
      let prompt_text := prompt_template history_text symptom_text in
      (** [os.path.join(case_folder, image_file_name)], as it is for an
          identifier that does not start with the separator *)
      let image_paths := ["q401_image/" +:+ image_file_name row] in
      match encode_images_from_paths pil image_paths with
      | Ret encoded_images =>
          let '(tr, res) :=
            analyze_images_with_gpt4_vision pil (provider temperature case_number)
              prompt_text encoded_images temperature in
          let w := add_events tr w in
          match res with
          | Ret result =>
              let execution_time := clock temperature case_number in
              let w :=
                set_df (upsert (df_execution_times w) case_number temperature
                          try_number execution_time) w in
              (** [if result:] holds for every [Choice] object *)
              match result with
              | Some choice => (write_file path (message_content choice) w, Ret tt)
              | None =>
                  (log_message (no_result_message case_number temperature try_number) w,
                   Ret tt)
              end
          | Exc msg => (w, Exc msg)
          | Exit => (w, Exit)
          end
      | Exc msg => (w, Exc msg)
      | Exit => (w, Exit)
      end
  end.

(** [df.iterrows()] *)
Definition iterrows (df : list Case) : list (nat * Case) :=
  zip (seq 0 (length df)) df.

Definition run_try (temperature : Temperature) (w : World) (try_number : nat)
  : World * py unit :=
  let result_folder := create_result_folder base_result_folder temperature try_number in
  for_each (run_case temperature try_number result_folder) w (iterrows cases).

Definition run_temperature (w : World) (temperature : Temperature) : World * py unit :=
  for_each (run_try temperature) w (seq 1 1).

(** The whole script after its definitions: the main loop and the
    final [save_execution_times_to_excel]. *)
Definition main (w : World) : World * py unit :=
  match for_each run_temperature w temperatures with
  | (w', Ret _) =>
      (add_events [SavedTimes (df_execution_times w') time_file_name] w', Ret tt)
  | stopped => stopped
  end.

(** The trace of the main loop when it skips every case of every folder. *)
Definition skipped_events : list (Event Time) :=
  flat_map (fun temperature =>
    flat_map (fun try_number =>
      flat_map (fun indexed_row : nat * Case =>
        [Skipped (indexed_row.1 + 1) temperature try_number]) (iterrows cases))
      (seq 1 1))
    temperatures.

End WithWorld.
Arguments World : clear implicits.
End Runner.

(** ** A small world to run the scripts on *)

Module Sample.
Import Client.

Definition byte_of_Z (z : Z) : Byte.byte :=
  match Byte.of_N (Z.to_N z) with
  | Some b => b
  | None => Byte.x00
  end.

Definition Z_of_byte (b : Byte.byte) : Z := Z.of_N (Byte.to_N b).

(** A text of the length of the base64 text of the bytes: the bytes as
    characters, filled up with [=]. *)
Definition b64_text (data : list Byte.byte) : string :=
  string_of_list_byte
    (data ++ replicate (4 * ((length data + 2) / 3) - length data) Byte.x3d).

Definition b64_text_length (data : list Byte.byte) :
  Z.of_nat (String.length (b64_text data))
  = (4 * ((Z.of_nat (length data) + 2) / 3))%Z.
Proof.
  unfold b64_text.
  assert (Hlen : forall l, String.length (string_of_list_byte l) = length l).
  { intros l. unfold string_of_list_byte.
    induction l as [|b l IH]; [reflexivity|]. cbn. now rewrite IH. }
  rewrite Hlen, length_app, length_replicate.
  pose proof (Nat.div_mod_eq (length data + 2) 3) as Hdiv.
  pose proof (Nat.mod_upper_bound (length data + 2) 3 ltac:(lia)) as Hmod.
  replace (length data + (4 * ((length data + 2) / 3) - length data))
    with (4 * ((length data + 2) / 3)) by lia.
  rewrite Nat2Z.inj_mul, Nat2Z.inj_div, Nat2Z.inj_add. reflexivity.
Qed.

(** The image of an encoded text: its first two characters are the width
    and the height. *)
Definition open_text (encoded_image : string) : Z * Z :=
  match list_byte_of_string encoded_image with
  | w :: h :: _ => (Z_of_byte w, Z_of_byte h)
  | _ => (0, 0)%Z
  end.

(** [int(x)] for a rational [x]: truncation towards zero. *)
Definition py_int (x : Q) : Z := Z.quot (Qnum x) (Zpos (Qden x)).

(** [int(original * (resize_factor ** attempt))] without rounding errors. *)
Definition exact_scaled (original : Z) (resize_factor : Q) (attempt : nat) : Z :=
  py_int (inject_Z original * resize_factor ^ Z.of_nat attempt)%Q.

Definition exact_scaled_first (original : Z) (resize_factor : Q) :
  exact_scaled original resize_factor 0 = original.
Proof.
  unfold exact_scaled, py_int. cbn. rewrite Z.mul_1_r. apply Z.quot_1_r.
Qed.

Definition exact_scaled_near (original : Z) (resize_factor : Q) (attempt : nat) :
  (0 <= original < 2 ^ 31)%Z ->
  (0 <= resize_factor)%Q -> (resize_factor <= 1)%Q ->
  (inject_Z original * resize_factor ^ Z.of_nat attempt - 2
   < inject_Z (exact_scaled original resize_factor attempt))%Q
  /\ (inject_Z (exact_scaled original resize_factor attempt)
      <= inject_Z original * resize_factor ^ Z.of_nat attempt + 1)%Q.
Proof.
  intros Hw H0 _. unfold exact_scaled.
  set (x := (inject_Z original * resize_factor ^ Z.of_nat attempt)%Q).
  assert (Hx : (0 <= x)%Q).
  { apply Qmult_le_0_compat; [unfold Qle; cbn; lia|now apply Qpower_0_le]. }
  assert (Hfloor : py_int x = Qfloor x).
  { destruct x as [n d]. unfold Qle in Hx. unfold py_int, Qfloor. cbn in *.
    apply Z.quot_div_nonneg; lia. }
  rewrite Hfloor.
  pose proof (Qfloor_le x) as Hle. pose proof (Qlt_floor x) as Hlt.
  rewrite inject_Z_plus in Hlt. change (inject_Z 1) with 1%Q in Hlt.
  split; lra.
Qed.

(** A codec for images given by their size alone: the "JPEG" of an image
    is its width and height, one byte each; nothing raises. *)
Definition imaging : Imaging := {|
  Image := Z * Z;
  size := fun image => image;
  mode_is_rgba := fun _ => false;
  convert_rgb := fun image => image;
  resize_save_jpeg := fun _ w h => Bytes [byte_of_Z w; byte_of_Z h];
  b64encode := b64_text;
  open_encoded := open_text;
  open_path := fun _ => Some (200, 160)%Z;
  scaled := exact_scaled;
  open_encoded_mode := fun _ => eq_refl;
  open_encoded_saves := fun _ w h => ex_intro _ [byte_of_Z w; byte_of_Z h] eq_refl;
  b64encode_length := b64_text_length;
  scaled_first := exact_scaled_first;
  scaled_near := exact_scaled_near;
|}.





(** The encoded form of a 200 x 160 image. *)
Definition picture : string :=
  b64_text [byte_of_Z 200; byte_of_Z 160].

Definition refusal : string := "I'm sorry, but I cannot assist with that request.".

Definition answer : string := "1. Type of Medical Imaging: CT".

Definition quota_error : string :=
  "Error code: 429 - You exceeded your current quota".


(** Providers that answer every request the same way. *)
Definition gpt4_always (o : Outcome Choice)
  : nat -> string -> list string -> Temperature -> Outcome Choice :=
  fun _ _ _ _ => o.

Definition gemini_always (o : Outcome Content)
  : nat -> string -> list string -> Temperature -> Outcome Content :=
  fun _ _ _ _ => o.

Definition claude_always (o : Outcome string)
  : nat -> string -> list string -> Temperature -> Outcome string :=
  fun _ _ _ _ => o.

(** One case, and a prompt template, for the main loop. *)
Definition case_1 : Runner.Case :=
  {| Runner.no := "1"; Runner.age := "63"; Runner.sex := "M";
     Runner.symptom := "cough" |}.

Definition prompt_template (history_text symptom_text : string) : string :=
  "Patient: " +:+ history_text +:+ "; " +:+ symptom_text.

(** Before the first run: no result file, an empty table, an empty log. *)
Definition fresh : Runner.World Z :=
  {| Runner.files := ∅; Runner.df_execution_times := [];
     Runner.log_file := []; Runner.events := [] |}.

(** After a run that left a result file, one of them empty, for the case
    in each of the three folders. *)
Definition finished : Runner.World Z :=
  {| Runner.files :=
       <["gpt4o_result/gpt4o_result_temp_0_try1/1.png.txt" := ""]>
         (<["gpt4o_result/gpt4o_result_temp_0_5_try1/1.png.txt" := answer]>
            (<["gpt4o_result/gpt4o_result_temp_1_try1/1.png.txt" := refusal]> ∅));
     Runner.df_execution_times := [];
     Runner.log_file := []; Runner.events := [] |}.

(** The provider of the main loop answers every request with an empty
    text, or fails every request. *)
Definition empty_answers
  : Temperature -> nat -> nat -> string -> list string -> Temperature -> Outcome Choice :=
  fun _ _ _ _ _ _ => Response {| message_content := "" |}.

Definition failures
  : Temperature -> nat -> nat -> string -> list string -> Temperature -> Outcome Choice :=
  fun _ _ _ _ _ _ => Failure "Connection error.".

Definition clock : Temperature -> nat -> Z := fun _ _ => 5%Z.

(** A provider for the Claude client that fails nine times and is then
    told that the quota is exceeded. *)
Definition quota_at_last
  : nat -> string -> list string -> Temperature -> Outcome string :=
  fun attempt _ _ _ =>
    if attempt =? 9 then Failure quota_error else Failure "Connection error.".


End Sample.

(** * Further parts of the scripts *)

(** ** Lines of a text *)

(** Whether a text holds a line terminator. *)
Definition has_newline (s : string) : bool :=
  existsb (Ascii.eqb PyStr.newline) (list_ascii_of_string s).

(** ** Images that pass the size filter *)

(** [width > 150 and height > 150] *)
Definition large_enough (pil : Imaging) (img : Image pil) : bool :=
  ((150 <? (size pil img).1) && (150 <? (size pil img).2))%Z.

(** ** Reading a trace *)

(** The attempt numbers of the requests of a trace, in order. *)
Definition send_attempts {Time} (tr : list (Event Time)) : list nat :=
  omap (fun ev => match ev with Send attempt _ _ _ => Some attempt | _ => None end) tr.

(** The event handles lists of [n] images. *)
Definition image_count_is {Time} (n : nat) (ev : Event Time) : Prop :=
  match ev with
  | Send _ _ encoded_images _ => length encoded_images = n
  | Resized _ encoded_images resized_encoded_images =>
      length encoded_images = n /\ length resized_encoded_images = n
  | _ => True
  end.

(** The event, if a re-encoding, used this factor. *)
Definition resized_with {Time} (resize_factor : Q) (ev : Event Time) : Prop :=
  match ev with
  | Resized f _ _ => f = resize_factor
  | _ => True
  end.

(** ** Comparing the world before and after *)

Module Changes.
Import Runner Recorder.
Section WithTime.
Context {Time : Type}.

(** Every file, log line and event of [w] is still there in [w']. *)
Definition only_adds (w w' : World Time) : Prop :=
  (forall path text, files w !! path = Some text -> files w' !! path = Some text)
  /\ log_file w `prefix_of` log_file w'
  /\ events w `prefix_of` events w'.

(** The timing table keeps its keys, and keeps them distinct. *)
Definition table_grows (w w' : World Time) : Prop :=
  (NoDup (map key (df_execution_times w)) -> NoDup (map key (df_execution_times w')))
  /\ (forall k, k ∈ map key (df_execution_times w) ->
                k ∈ map key (df_execution_times w')).

(** Every file of [w'] that [w] has not is at one of the given paths. *)
Definition writes_within (allowed : string -> Prop) (w w' : World Time) : Prop :=
  forall path, files w !! path = None -> is_Some (files w' !! path) -> allowed path.

(** The events added from [w] to [w'] save no timing table. *)
Definition saves_nothing (w w' : World Time) : Prop :=
  exists evs, events w' = events w ++ evs
              /\ Forall (fun ev => is_saved ev = false) evs.

End WithTime.
End Changes.

(** ** The main loop of [1-3-1_Claude-3-opus.py] *)

Module ClaudeScript.
Import PyStr Encoder Client Recorder.

(** One row of the case spreadsheet; the cells as they print. *)
Record Case : Type := {
  random_rank : string;
  age : string;
  sex : string;
  symptom : string;
}.

Definition temperatures : list Temperature := [T_0; T_0_5; T_1].
Definition base_result_folder : string := "Claude_result/Claude_result".
Definition time_file_name : string := "Claude_execution_times.xlsx".

(** The exception raised when [main()] reads its local variable
    [df_execution_times] before an assignment has bound it. *)
Definition unbound_local : string :=
  "cannot access local variable 'df_execution_times' where it is not associated with a value".

Section WithWorld.
Context (pil : Imaging) {Time : Type}.
Context (cases : list Case).
Context (prompt_template : string -> string -> string).
Context (provider : Temperature -> nat ->
                    nat -> string -> list string -> Temperature -> Outcome string).
Context (clock : Temperature -> nat -> Time).

(** The state of [main()]: the world, whose [df_execution_times] is the
    module-level table, and the local variable of the same name.
    [main()] assigns to that name (line 245) and does not declare it
    global, so the name is local in all of [main()]; it is unbound,
    [None], until the assignment is executed. *)
Definition frame : Type := (Runner.World Time * option (list (Row Time)))%type.

(** A [for] loop whose body may raise: the first exception ends it. *)
Fixpoint for_each {A : Type} (body : frame -> A -> frame * py unit)
    (f : frame) (l : list A) : frame * py unit :=
  match l with
  | [] => (f, Ret tt)
  | x :: rest =>
      match body f x with
      | (f', Ret _) => for_each body f' rest
      | stopped => stopped
      end
  end.

(** [if result:] for a text or [None]. *)
Definition truthy (result : option string) : bool :=
  match result with
  | Some text => negb (String.eqb text "")
  | None => false
  end.

(** The body of [for index, row in df.iterrows()]. *)
Definition run_case (temperature : Temperature) (try_number : nat)
    (result_folder : string) (f : frame) (indexed_row : nat * Case)
  : frame * py unit :=
  let '(w, local_df) := f in
  let '(index, row) := indexed_row in
  let case_number := index + 1 in
  let image_file_name := random_rank row +:+ ".png" in
  let path := path_join result_folder (image_file_name +:+ ".txt") in
  match Runner.files w !! path with
  | Some _ =>
      ((Runner.add_events [Skipped case_number temperature try_number] w, local_df),
       Ret tt)
  | None =>
      let history_text := "age: " +:+ age row +:+ ", sex: " +:+ sex row in
      let symptom_text := "symptom: " +:+ symptom row in
      let prompt_text := prompt_template history_text symptom_text in
      let image_paths := ["random_output/" +:+ image_file_name] in
      match encode_images_from_paths pil image_paths with
      | Ret encoded_images =>
          let '(tr, res) :=
            analyze_images_with_claude_vision pil (provider temperature case_number)
              (Runner.df_execution_times w) time_file_name
              prompt_text encoded_images temperature in
          let w := Runner.add_events tr w in
          match res with
          | Ret result =>
              let execution_time := clock temperature case_number in
              (** "Update execution times DataFrame": the test reads the local *)
              match local_df with
              | None => ((w, local_df), Exc unbound_local)
              | Some df =>
                  let local_df :=
                    Some (upsert df case_number temperature try_number execution_time) in
                  if truthy result
                  then ((Runner.write_file path (default "" result) w, local_df), Ret tt)
                  else
                    ((Runner.log_message
                        (Runner.no_result_message case_number temperature try_number) w,
                      local_df), Ret tt)
              end
          | Exc msg => ((w, local_df), Exc msg)
          | Exit => ((w, local_df), Exit)
          end
      | Exc msg => ((w, local_df), Exc msg)
      | Exit => ((w, local_df), Exit)
      end
  end.

Definition run_try (temperature : Temperature) (f : frame) (try_number : nat)
  : frame * py unit :=
  let result_folder :=
    Runner.create_result_folder base_result_folder temperature try_number in
  for_each (run_case temperature try_number result_folder) f
    (zip (seq 0 (length cases)) cases).

Definition run_temperature (f : frame) (temperature : Temperature) : frame * py unit :=
  for_each (run_try temperature) f (seq 1 1).

(** [main()]: it starts with the local unbound, and ends with
    [save_execution_times_to_excel(df_execution_times, time_file_name)],
    which reads the local. *)
Definition main (w : Runner.World Time) : frame * py unit :=
  match for_each run_temperature (w, None) temperatures with
  | ((w', Some df), Ret _) =>
      ((Runner.add_events [SavedTimes df time_file_name] w', Some df), Ret tt)
  | ((w', None), Ret _) => ((w', None), Exc unbound_local)
  | stopped => stopped
  end.

End WithWorld.
End ClaudeScript.

(** What holds after any part of [main()] of the Claude script that
    started with the local unbound in the world [w]: the local is still
    unbound, no file, log line or table row has changed, and the requests
    sent are those of at most one call, which then ended the loop. *)
Definition claude_stuck {Time : Type} (w : Runner.World Time)
    (r : ClaudeScript.frame (Time := Time) * py unit) : Prop :=
  r.1.2 = None
  /\ Runner.files r.1.1 = Runner.files w
  /\ Runner.log_file r.1.1 = Runner.log_file w
  /\ Runner.df_execution_times r.1.1 = Runner.df_execution_times w
  /\ exists evs, Runner.events r.1.1 = Runner.events w ++ evs
       /\ sends evs <= Client.max_attempts
       /\ (r.2 = Ret tt -> sends evs = 0).

(** ** The main loop of [1-2_Gemini-1_5-Pro.py] *)

Module GeminiScript.
Import PyStr Encoder Client Recorder.

Definition temperatures : list Temperature := [T_0; T_0_5; T_1].
Definition base_result_folder : string := "gemini_result/gemini_result".
Definition time_file_name : string := "Gemini_execution_times.xlsx".

(** [if result:] for a content or [None]: a text is true when it is not
    empty, a list when it has an element. *)
Definition truthy (result : option Content) : bool :=
  match result with
  | Some (Text s) => negb (String.eqb s "")
  | Some (Parts l) => negb (bool_decide (l = []))
  | None => false
  end.

(** The exception of [result_file.write(result)] for a list. *)
Definition write_type_error : string := "write() argument must be str, not list".

Section WithWorld.
Context (pil : Imaging) {Time : Type}.
Context (cases : list Runner.Case).
Context (prompt_template : string -> string -> string).
Context (provider : Temperature -> nat ->
                    nat -> string -> list string -> Temperature -> Outcome Content).
Context (clock : Temperature -> nat -> Time).

(** The body of [for index, row in df.iterrows()].  The script has no
    log file: a case without result is only printed. *)
Definition run_case (temperature : Temperature) (try_number : nat)
    (result_folder : string) (w : Runner.World Time) (indexed_row : nat * Runner.Case)
  : Runner.World Time * py unit :=
  let '(index, row) := indexed_row in
  let case_number := index + 1 in
  let path := Runner.result_file_path result_folder row in
  match Runner.files w !! path with
  | Some _ =>
      (Runner.add_events [Skipped case_number temperature try_number] w, Ret tt)
  | None =>
      let history_text := "age: " +:+ Runner.age row +:+ ", sex: " +:+ Runner.sex row in
      let symptom_text := "symptom: " +:+ Runner.symptom row in
      let prompt_text := prompt_template history_text symptom_text in
      let image_paths := ["q401_image/" +:+ Runner.image_file_name row] in
      match encode_images_from_paths pil image_paths with
      | Ret encoded_images =>
          let '(tr, res) :=
            analyze_images_with_gemini_vision pil (provider temperature case_number)
              prompt_text encoded_images temperature in
          let w := Runner.add_events tr w in
          match res with
          | Ret result =>
              let execution_time := clock temperature case_number in
              let w :=
                Runner.set_df (upsert (Runner.df_execution_times w) case_number
                                 temperature try_number execution_time) w in
              if truthy result then
                (** [open(result_file_path, "w")] empties or creates the
                    file, then [write] takes a text only *)
                match result with
                | Some (Text s) => (Runner.write_file path s w, Ret tt)
                | _ => (Runner.write_file path "" w, Exc write_type_error)
                end
              else (w, Ret tt)
          | Exc msg => (w, Exc msg)
          | Exit => (w, Exit)
          end
      | Exc msg => (w, Exc msg)
      | Exit => (w, Exit)
      end
  end.

Definition run_try (temperature : Temperature) (w : Runner.World Time)
    (try_number : nat) : Runner.World Time * py unit :=
  let result_folder :=
    Runner.create_result_folder base_result_folder temperature try_number in
  Runner.for_each (run_case temperature try_number result_folder) w
    (Runner.iterrows cases).

Definition run_temperature (w : Runner.World Time) (temperature : Temperature)
  : Runner.World Time * py unit :=
  Runner.for_each (run_try temperature) w (seq 1 1).

Definition main (w : Runner.World Time) : Runner.World Time * py unit :=
  match Runner.for_each run_temperature w temperatures with
  | (w', Ret _) =>
      (Runner.add_events [SavedTimes (Runner.df_execution_times w') time_file_name] w',
       Ret tt)
  | stopped => stopped
  end.

End WithWorld.
End GeminiScript.

(** ** More of the sample world *)

Module Sample2.

(** The codec of [Sample], on a folder whose images are 120 x 90. *)
Definition small_imaging : Imaging := {|
  Image := Z * Z;
  size := fun image => image;
  mode_is_rgba := fun _ => false;
  convert_rgb := fun image => image;
  resize_save_jpeg := fun _ w h => Bytes [Sample.byte_of_Z w; Sample.byte_of_Z h];
  b64encode := Sample.b64_text;
  open_encoded := Sample.open_text;
  open_path := fun _ => Some (120, 90)%Z;
  scaled := Sample.exact_scaled;
  open_encoded_mode := fun _ => eq_refl;
  open_encoded_saves := fun _ w h =>
    ex_intro _ [Sample.byte_of_Z w; Sample.byte_of_Z h] eq_refl;
  b64encode_length := Sample.b64_text_length;
  scaled_first := Sample.exact_scaled_first;
  scaled_near := Sample.exact_scaled_near;
|}.

(** A worksheet that, like the one of openpyxl, takes no text with a
    control character other than tab, line feed and carriage return. *)
Definition illegal_character (c : ascii) : bool :=
  let n := nat_of_ascii c in
  (n <=? 8) || ((11 <=? n) && (n <=? 12)) || ((14 <=? n) && (n <=? 31)).

Definition cell_error (text : string) : option string :=
  if existsb illegal_character (list_ascii_of_string text)
  then Some (text +:+ " cannot be used in worksheets.")
  else None.




End Sample2.

(** * Properties *)

Import PyStr.

(** ** Strings *)

Section StringFacts.

Lemma append_nil (t : string) : "" +:+ t = t.
Proof. reflexivity. Qed.

Lemma append_cons (c : ascii) (s t : string) : String c s +:+ t = String c (s +:+ t).
Proof. reflexivity. Qed.

Lemma append_empty_r (s : string) : s +:+ "" = s.
Proof.
  induction s as [|c s IH]; [reflexivity|]. now rewrite append_cons, IH.
Qed.

Lemma append_assoc' (a b c : string) : (a +:+ b) +:+ c = a +:+ (b +:+ c).
Proof.
  induction a as [|x a IH]; [reflexivity|]. now rewrite !append_cons, IH.
Qed.

Lemma prefix_trans (p q s : string) :
  String.prefix p q = true -> String.prefix q s = true -> String.prefix p s = true.
Proof.
  revert q s. induction p as [|a p IH]; intros q s Hpq Hqs.
  - destruct s; reflexivity.
  - destruct q as [|b q]; [destruct p; discriminate|].
    destruct s as [|c s]; [discriminate|]. simpl in *.
    destruct (ascii_dec a b) as [->|]; [|discriminate].
    destruct (ascii_dec b c) as [->|]; [|discriminate].
    eauto.
Qed.

(** A marker without white space starts at no white-space character. *)
Lemma prefix_at_space (m : string) (c : ascii) (s : string) :
  m <> "" -> no_space m = true -> isspace c = true ->
  String.prefix m (String c s) = false.
Proof.
  intros Hne Hm Hc. destruct m as [|a m]; [congruence|].
  unfold no_space in Hm. simpl in Hm. apply andb_prop in Hm as [Ha _].
  simpl. destruct (ascii_dec a c) as [->|]; [|reflexivity].
  rewrite Hc in Ha. discriminate.
Qed.

Lemma prefix_rstrip (m t : string) :
  no_space m = true -> String.prefix m (rstrip t) = String.prefix m t.
Proof.
  revert m. induction t as [|c t IH]; intros m Hm; [reflexivity|].
  destruct m as [|a m]; [simpl; now destruct (rstrip t), (isspace c)|].
  assert (Ha : isspace a = false /\ no_space m = true).
  { unfold no_space in *. simpl in Hm. apply andb_prop in Hm as [Ha Hm'].
    split; [now destruct (isspace a)|exact Hm']. }
  destruct Ha as [Ha Hm'].
  specialize (IH m Hm'). simpl.
  destruct (rstrip t) as [|d r] eqn:Hr.
  - destruct (isspace c) eqn:Hc; simpl.
    + destruct (ascii_dec a c) as [->|]; [congruence|reflexivity].
    + destruct (ascii_dec a c); [|reflexivity]. exact IH.
  - simpl. destruct (ascii_dec a c); [|reflexivity]. exact IH.
Qed.

Lemma contains_empty (m : string) : m <> "" -> contains m "" = false.
Proof. destruct m; [congruence|reflexivity]. Qed.

Lemma contains_lstrip (m s : string) :
  m <> "" -> no_space m = true -> contains m (lstrip s) = contains m s.
Proof.
  intros Hne Hm. induction s as [|c s IH]; [reflexivity|].
  cbn [lstrip]. destruct (isspace c) eqn:Hc; [|reflexivity].
  rewrite IH. cbn [contains]. now rewrite prefix_at_space.
Qed.

Lemma contains_rstrip (m s : string) :
  m <> "" -> no_space m = true -> contains m (rstrip s) = contains m s.
Proof.
  intros Hne Hm. induction s as [|c s IH]; [reflexivity|].
  cbn [contains]. rewrite <- IH, <- (prefix_rstrip m (String c s) Hm).
  cbn [rstrip]. destruct (rstrip s) as [|d r] eqn:Hr.
  - destruct (isspace c) eqn:Hc; [|reflexivity].
    destruct m; [congruence|reflexivity].
  - reflexivity.
Qed.

(** Stripping a line does not change whether it holds a marker. *)
Lemma contains_strip (m s : string) :
  m <> "" -> no_space m = true -> contains m (strip s) = contains m s.
Proof.
  intros Hne Hm. unfold strip.
  now rewrite contains_rstrip, contains_lstrip.
Qed.

Lemma join_cons (x : string) (l : list string) : join (x :: l) = x +:+ join l.
Proof. reflexivity. Qed.

Lemma join_app (l1 l2 : list string) : join (l1 ++ l2) = join l1 +:+ join l2.
Proof.
  induction l1 as [|x l1 IH]; [reflexivity|].
  rewrite <- app_comm_cons, !join_cons, IH. now rewrite append_assoc'.
Qed.

Lemma join_readlines (s : string) : join (readlines s) = s.
Proof.
  induction s as [|c s IH]; [reflexivity|].
  cbn [readlines]. destruct (Ascii.eqb c newline).
  - rewrite join_cons, IH. reflexivity.
  - destruct (readlines s) as [|l ls].
    + cbn in IH. subst s. reflexivity.
    + rewrite join_cons in *. now rewrite append_cons, IH.
Qed.

(** A text that contains a marker contains the first character of it. *)
Lemma contains_head (a : ascii) (m s : string) :
  contains (String a m) s = true -> In a (list_ascii_of_string s).
Proof.
  induction s as [|c s IH]; [discriminate|].
  cbn [contains String.prefix list_ascii_of_string]. intros H.
  apply orb_prop in H as [H|H].
  - destruct (ascii_dec a c) as [->|]; [now left|discriminate].
  - right. now apply IH.
Qed.

Lemma lower_char_not_capital_S (c : ascii) : lower_char c <> "S"%char.
Proof.
  destruct c as [[] [] [] [] [] [] [] []]; vm_compute; discriminate.
Qed.

(** A lower-cased text holds no capital S, hence not the word SAFETY. *)
Lemma contains_SAFETY_lower (e : string) : contains "SAFETY" (lower e) = false.
Proof.
  destruct (contains "SAFETY" (lower e)) eqn:H; [|reflexivity].
  apply contains_head in H. exfalso.
  induction e as [|c e IH]; [exact H|].
  cbn [lower list_ascii_of_string] in H. destruct H as [H|H].
  - now apply lower_char_not_capital_S in H.
  - now apply IH.
Qed.

End StringFacts.


(** ** The heuristic splitter *)

Section SplitterFacts.
Import Summarizer.

Lemma marker_no_space (idx : nat) :
  idx < 5 -> marker idx <> "" /\ no_space (marker idx) = true.
Proof.
  intros H.
  do 5 (destruct idx as [|idx]; [split; [discriminate|reflexivity]|]).
  lia.
Qed.

(** The test of the loop may as well look at the line itself. *)
Lemma next_index_unstripped (idx : nat) (line : string) :
  next_index idx (strip line) = next_index idx line.
Proof.
  unfold next_index. destruct (idx <? 5) eqn:Hlt; [|reflexivity].
  apply Nat.ltb_lt in Hlt. destruct (marker_no_space idx Hlt) as [Hne Hm].
  cbn [andb]. now rewrite contains_strip.
Qed.

Lemma next_index_bounds (idx : nat) (line : string) :
  idx <= 5 -> idx <= next_index idx line <= 5.
Proof.
  intros H. unfold next_index.
  destruct (idx <? 5) eqn:Hlt; cbn [andb]; [|lia].
  apply Nat.ltb_lt in Hlt. destruct (contains _ _); lia.
Qed.

Lemma split_init_inv : split_inv split_init.
Proof.
  repeat split; cbn; [lia|].
  intros j _ Hj. do 6 (destruct j as [|j]; [reflexivity|]). lia.
Qed.

Lemma split_step_inv (st : split_state) (line : string) :
  split_inv st -> split_inv (split_step st line).
Proof.
  destruct st as [idx items]. intros (Hidx & Hlen & Hempty).
  pose proof (next_index_bounds idx (strip line) Hidx) as Hb.
  unfold split_inv, split_step in *. cbn [fst snd] in *.
  repeat split; [lia|now rewrite length_alter|].
  intros j Hj Hj6. rewrite list_lookup_alter_ne by lia. apply Hempty; lia.
Qed.

Lemma join_all_empty (l : list string) :
  (forall j, j < length l -> l !! j = Some "") -> join l = "".
Proof.
  induction l as [|x l IH]; intros H; [reflexivity|].
  rewrite join_cons. assert (x = "") as ->.
  { specialize (H 0 ltac:(cbn; lia)). now injection H. }
  rewrite append_nil. apply IH. intros j Hj. apply (H (S j)). cbn. lia.
Qed.

(** Appending to the last non-empty slot appends to the concatenation. *)
Lemma join_alter_last (items : list string) (i : nat) (line : string) :
  i < length items ->
  (forall j, i < j -> j < length items -> items !! j = Some "") ->
  join (alter (fun s => s +:+ line) i items) = join items +:+ line.
Proof.
  revert i. induction items as [|x items IH]; intros i Hi Hempty; [cbn in Hi; lia|].
  destruct i as [|i]; cbn [alter list_alter].
  - rewrite !join_cons. assert (join items = "") as ->.
    { apply join_all_empty. intros j Hj. apply (Hempty (S j)); cbn; lia. }
    now rewrite !append_empty_r.
  - rewrite !join_cons, append_assoc'. f_equal. apply IH.
    + cbn in Hi. lia.
    + intros j Hj Hj'. apply (Hempty (S j)); cbn; lia.
Qed.

Lemma split_step_join (st : split_state) (line : string) :
  split_inv st -> join (split_step st line).2 = join st.2 +:+ line.
Proof.
  destruct st as [idx items]. intros (Hidx & Hlen & Hempty).
  pose proof (next_index_bounds idx (strip line) Hidx) as Hb.
  unfold split_step. cbn [fst snd] in *.
  apply join_alter_last; [lia|].
  intros j Hj Hj'. apply Hempty; lia.
Qed.

Lemma split_fold_inv (content : list string) (st : split_state) :
  split_inv st ->
  split_inv (foldl split_step st content) /\
  join (foldl split_step st content).2 = join st.2 +:+ join content.
Proof.
  revert st. induction content as [|line content IH]; intros st Hinv.
  - split; [exact Hinv|]. cbn. now rewrite append_empty_r.
  - cbn [foldl]. destruct (IH _ (split_step_inv st line Hinv)) as [Hinv' Hjoin].
    split; [exact Hinv'|].
    rewrite Hjoin, split_step_join by exact Hinv.
    now rewrite join_cons, append_assoc'.
Qed.

Lemma split_lines_inv (content : list string) : split_inv (split_lines content).
Proof. apply split_fold_inv, split_init_inv. Qed.


(** C9: the six sections of a file, put together in order, are the text
    of the file: the scan puts every line into exactly one section. *)
Theorem C9_sections_concatenate :
  (forall text : string, join (split_file text) = text)
  /\ (forall content : list string,
        join (split_sections content) = join content
        /\ length (split_sections content) = 6).
Proof.
  assert (H : forall content, join (split_sections content) = join content).
  { intros content. unfold split_sections, split_lines.
    destruct (split_fold_inv content split_init split_init_inv) as [_ ->].
    reflexivity. }
  split.
  - intros text. unfold split_file. rewrite H. apply join_readlines.
  - intros content. split; [apply H|].
    now destruct (split_lines_inv content) as (_ & ? & _).
Qed.

End SplitterFacts.

(** ** The image encoder *)

Import Encoder.

Section EncoderFacts.
Context (pil : Imaging).

(** One iteration of the loop of the encoder, in its three cases. *)
Lemma encode_loop_raised (image : Image pil) (w h : Z) (r : Q)
    (attempt n : nat) (msg : string) :
  attempt_saved pil image w h r attempt = Raised msg ->
  encode_loop pil image w h r attempt (S n)
  = ([(scaled pil w r attempt, scaled pil h r attempt)], Exc msg).
Proof.
  intros Hsaved. unfold attempt_saved in Hsaved.
  cbn [encode_loop]. now rewrite Hsaved.
Qed.

Lemma encode_loop_fits (image : Image pil) (w h : Z) (r : Q) (attempt n : nat)
    (buffered : list Byte.byte) :
  attempt_saved pil image w h r attempt = Bytes buffered ->
  (Z.of_nat (length buffered) < MAX_SIZE)%Z ->
  encode_loop pil image w h r attempt (S n)
  = ([(scaled pil w r attempt, scaled pil h r attempt)],
     Ret (b64encode pil buffered)).
Proof.
  intros Hsaved Hfit. unfold attempt_saved in Hsaved.
  cbn [encode_loop]. rewrite Hsaved.
  apply Z.ltb_lt in Hfit. now rewrite Hfit.
Qed.

Lemma encode_loop_too_large (image : Image pil) (w h : Z) (r : Q) (attempt n : nat) :
  too_large pil image w h r attempt ->
  encode_loop pil image w h r attempt (S n)
  = ((scaled pil w r attempt, scaled pil h r attempt)
       :: (encode_loop pil image w h r (S attempt) n).1,
     (encode_loop pil image w h r (S attempt) n).2).
Proof.
  intros (buffered & Hsaved & Hbig). unfold attempt_saved in Hsaved.
  cbn [encode_loop]. rewrite Hsaved.
  apply Z.ltb_ge in Hbig. rewrite Hbig.
  now destruct (encode_loop pil image w h r (S attempt) n).
Qed.

Lemma encode_loop_spec (image : Image pil) (w h : Z) (r : Q) (remaining attempt : nat) :
  let tried := (encode_loop pil image w h r attempt remaining).1 in
  let res := (encode_loop pil image w h r attempt remaining).2 in
  length tried <= remaining
  /\ (0 < remaining -> 0 < length tried)
  /\ tried = map (fun k => (scaled pil w r k, scaled pil h r k))
               (seq attempt (length tried))
  /\ (forall k, S k < length tried -> too_large pil image w h r (attempt + k))
  /\ match res with
     | Ret encoded =>
         exists k buffered,
           length tried = S k
           /\ attempt_saved pil image w h r (attempt + k) = Bytes buffered
           /\ (Z.of_nat (length buffered) < MAX_SIZE)%Z
           /\ encoded = b64encode pil buffered
     | Exc msg =>
         (exists k, length tried = S k
            /\ attempt_saved pil image w h r (attempt + k) = Raised msg)
         \/ (msg = "Unable to reduce image size within 5 attempts"
             /\ length tried = remaining
             /\ forall k, k < remaining -> too_large pil image w h r (attempt + k))
     | Exit => False
     end.
Proof.
  revert attempt. induction remaining as [|remaining IH]; intros attempt.
  - cbn. split; [lia|]. split; [lia|]. split; [reflexivity|].
    split; [intros; lia|]. right. repeat split; intros; lia.
  - destruct (attempt_saved pil image w h r attempt) as [buffered|refusal] eqn:Hsaved.
    2:{ rewrite (encode_loop_raised _ _ _ _ _ _ _ Hsaved). cbn [fst snd length seq map].
        split; [lia|]. split; [lia|]. split; [reflexivity|].
        split; [intros; lia|]. left. exists 0. now rewrite Nat.add_0_r. }
    destruct (Z_lt_le_dec (Z.of_nat (length buffered)) MAX_SIZE) as [Hfit|Hfit].
    + rewrite (encode_loop_fits _ _ _ _ _ _ _ Hsaved Hfit). cbn [fst snd length seq map].
      split; [lia|]. split; [lia|]. split; [reflexivity|]. split; [intros k Hk; lia|].
      exists 0, buffered. now rewrite Nat.add_0_r.
    + assert (Hbig0 : too_large pil image w h r attempt) by now exists buffered.
      rewrite (encode_loop_too_large _ _ _ _ _ _ Hbig0).
      specialize (IH (S attempt)).
      destruct (encode_loop pil image w h r (S attempt) remaining) as [tried res].
      cbn [fst snd] in *. destruct IH as (Hlen & _ & Htried & Hbig & Hres).
      split; [cbn; lia|]. split; [cbn; lia|].
      split; [cbn; f_equal; exact Htried|]. split.
      * intros [|k] Hk; [rewrite Nat.add_0_r; exact Hbig0|].
        replace (attempt + S k) with (S attempt + k) by lia.
        apply Hbig. cbn in Hk. lia.
      * destruct res as [encoded|msg|]; [| |exact Hres].
        -- destruct Hres as (k & bytes & Hk & Hs & Hsz & Henc). exists (S k), bytes.
           replace (attempt + S k) with (S attempt + k) by lia.
           cbn. repeat split; [lia|exact Hs|exact Hsz|exact Henc].
        -- destruct Hres as [(k & Hk & Hs)|(Hmsg & Hk & Hall)].
           ++ left. exists (S k). replace (attempt + S k) with (S attempt + k) by lia.
              split; [cbn; lia|exact Hs].
           ++ right. repeat split; [exact Hmsg|cbn; lia|].
              intros [|k] Hlt; [rewrite Nat.add_0_r; exact Hbig0|].
              replace (attempt + S k) with (S attempt + k) by lia.
              apply Hall. lia.
Qed.

(** What the encoder does, before the loop is looked into. *)
Lemma process_and_encode_image_log_eq (image : Image pil) (resize_factor : Q) :
  process_and_encode_image_log pil image resize_factor
  = encode_loop pil
      (if mode_is_rgba pil image then convert_rgb pil image else image)
      (size pil image).1 (size pil image).2 resize_factor 0 5.
Proof.
  unfold process_and_encode_image_log. now destruct (size pil image).
Qed.


End EncoderFacts.






(** ** The timing table *)

Import Recorder.

Section RecorderFacts.
Context {Time : Type}.
Implicit Types (df : list (Row Time)) (r : Row Time) (t : Temperature).

Lemma mask_key n t y r : mask n t y r = true <-> key r = (n, t, y).
Proof.
  unfold mask, key. rewrite !andb_true_iff, !bool_decide_eq_true.
  split; [intros [[-> ->] ->]; reflexivity|].
  intros H. injection H as -> -> ->. auto.
Qed.

Lemma key_set_time n t y (x : Time) r : key (set_time n t y x r) = key r.
Proof. unfold set_time. now destruct (mask n t y r). Qed.

Lemma keys_set_time n t y (x : Time) df :
  map key (map (set_time n t y x) df) = map key df.
Proof.
  rewrite map_map. apply map_ext. intros r. apply key_set_time.
Qed.

Lemma existsb_mask_keys n t y df :
  existsb (mask n t y) df = true <-> (n, t, y) ∈ map key df.
Proof.
  rewrite existsb_exists, list_elem_of_In, in_map_iff.
  split; intros (r & H1 & H2); exists r.
  - apply mask_key in H2. auto.
  - split; [exact H2|]. now apply mask_key.
Qed.

Lemma rows_of_absent n t y df : (n, t, y) ∉ map key df -> rows_of df n t y = [].
Proof.
  unfold rows_of. induction df as [|r df IH]; intros Hnot; [reflexivity|].
  cbn [map] in Hnot. rewrite not_elem_of_cons in Hnot. destruct Hnot as [Hr Hdf].
  rewrite filter_cons_False; [now apply IH|].
  rewrite mask_key. congruence.
Qed.

Lemma set_time_absent n t y (x : Time) df :
  (n, t, y) ∉ map key df -> map (set_time n t y x) df = df.
Proof.
  induction df as [|r df IH]; intros Hnot; [reflexivity|].
  cbn [map] in *. rewrite not_elem_of_cons in Hnot. destruct Hnot as [Hr Hdf].
  rewrite IH by exact Hdf. f_equal. unfold set_time.
  destruct (mask n t y r) eqn:Hm; [|reflexivity].
  apply mask_key in Hm. congruence.
Qed.

(** Updating or appending keeps the keys of the table distinct. *)
Lemma upsert_NoDup df n t y (x : Time) :
  NoDup (map key df) -> NoDup (map key (upsert df n t y x)).
Proof.
  intros Hnd. unfold upsert.
  destruct (existsb (mask n t y) df) eqn:Hex.
  - now rewrite keys_set_time.
  - rewrite map_app. apply NoDup_app. split; [exact Hnd|]. split.
    + intros k Hk Hin. apply list_elem_of_singleton in Hin.
      unfold key in Hin at 1. cbn in Hin. subst k.
      apply existsb_mask_keys in Hk. congruence.
    + cbn. apply NoDup_singleton.
Qed.

Lemma record_all_NoDup (calls : list (nat * Temperature * nat * Time)) df :
  NoDup (map key df) -> NoDup (map key (record_all df calls)).
Proof.
  revert df. induction calls as [|c calls IH]; intros df Hnd; [exact Hnd|].
  cbn [record_all foldl]. apply IH. now apply upsert_NoDup.
Qed.

(** After a call the table has exactly one row for the key of the call,
    with the time of the call. *)
Lemma rows_of_upsert df n t y (x : Time) :
  NoDup (map key df) ->
  rows_of (upsert df n t y x) n t y
  = [ {| number := n; temperature := t; try_number := y; time := x |} ].
Proof.
  intros Hnd. unfold upsert.
  destruct (existsb (mask n t y) df) eqn:Hex.
  - unfold rows_of. induction df as [|r df IH]; [discriminate|].
    cbn [map] in Hnd. apply NoDup_cons in Hnd as [Hr Hnd].
    cbn [map]. destruct (mask n t y r) eqn:Hm.
    + assert (Hk : key r = (n, t, y)) by now apply mask_key.
      rewrite Hk in Hr. rewrite (set_time_absent _ _ _ _ _ Hr).
      rewrite filter_cons_True by (rewrite mask_key, key_set_time; exact Hk).
      fold (rows_of df n t y). rewrite (rows_of_absent _ _ _ _ Hr).
      unfold set_time. rewrite Hm. unfold key in Hk. injection Hk as -> -> ->.
      reflexivity.
    + cbn [existsb] in Hex. rewrite Hm in Hex. cbn [orb] in Hex.
      rewrite filter_cons_False.
      * now apply IH.
      * rewrite mask_key, key_set_time, <- mask_key. congruence.
  - unfold rows_of. rewrite filter_app.
    assert (Hnot : (n, t, y) ∉ map key df).
    { intros Hin. apply existsb_mask_keys in Hin. congruence. }
    fold (rows_of df n t y). rewrite (rows_of_absent _ _ _ _ Hnot).
    rewrite filter_cons_True by (apply mask_key; reflexivity).
    reflexivity.
Qed.

(** C8: in a table whose keys are distinct (the empty table and every
    table the recorder built from it are), a call for a key and then,
    after any further calls, another call for the same key leave exactly
    one row for that key, holding the time of the latest call; a call
    whose key matches no row appends a row and changes no other; the keys
    stay distinct, so each (number, temperature, try) occurs at most once. *)
Theorem C8_timing_upsert (df : list (Row Time)) (n : nat) (t : Temperature) (y : nat) :
  NoDup (map key df) ->
  (forall (time1 time2 : Time) (others : list (nat * Temperature * nat * Time)),
      rows_of (upsert (record_all (upsert df n t y time1) others) n t y time2) n t y
      = [ {| number := n; temperature := t; try_number := y; time := time2 |} ])
  /\ (forall time1 : Time,
        rows_of df n t y = [] ->
        upsert df n t y time1
        = df ++ [ {| number := n; temperature := t; try_number := y; time := time1 |} ])
  /\ (forall time1 : Time, NoDup (map key (upsert df n t y time1)))
  /\ (forall calls : list (nat * Temperature * nat * Time),
        NoDup (map key (record_all df calls))
        /\ NoDup (map key (record_all (@nil (Row Time)) calls))).
Proof.
  intros Hnd. split; [|split; [|split]].
  - intros time1 time2 others. apply rows_of_upsert.
    apply record_all_NoDup. now apply upsert_NoDup.
  - intros time1 Hrows. unfold upsert.
    destruct (existsb (mask n t y) df) eqn:Hex; [|reflexivity].
    apply existsb_exists in Hex as (r & Hin & Hm).
    assert (Hr : r ∈ rows_of df n t y).
    { unfold rows_of. apply list_elem_of_filter. split; [exact Hm|].
      now apply list_elem_of_In. }
    rewrite Hrows in Hr. now apply not_elem_of_nil in Hr.
  - intros time1. now apply upsert_NoDup.
  - intros calls. split; apply record_all_NoDup; [exact Hnd|]. constructor.
Qed.

End RecorderFacts.

(** Two calls for case 1 at temperature 0.5 on the empty table. *)
Lemma C8_timing_upsert_witness :
  NoDup (map key (@nil (Row Z)))
  /\ rows_of (upsert (upsert [] 1 T_0_5 1 12%Z) 1 T_0_5 1 34%Z) 1 T_0_5 1
     = [ {| number := 1; temperature := T_0_5; try_number := 1; time := 34%Z |} ]
  /\ upsert [] 1 T_0_5 1 12%Z
     = [ {| number := 1; temperature := T_0_5; try_number := 1; time := 12%Z |} ].
Proof.
  assert (Hnd : NoDup (map key (@nil (Row Z)))) by constructor.
  split; [exact Hnd|].
  destruct (C8_timing_upsert (@nil (Row Z)) 1 T_0_5 1 Hnd) as (H1 & H2 & _).
  split; [exact (H1 12%Z 34%Z [])|].
  apply (H2 12%Z). reflexivity.
Defined.

(** ** The request clients *)

Import Client.

Section ClientFacts.
Context (pil : Imaging) {Time : Type}.

Lemma sends_app (tr1 tr2 : list (Event Time)) :
  sends (tr1 ++ tr2) = sends tr1 + sends tr2.
Proof. unfold sends. now rewrite filter_app, length_app. Qed.

Lemma after_fst {A} (evs : list (Event Time)) (r : run A) :
  (after evs r).1 = evs ++ r.1.
Proof. reflexivity. Qed.

Lemma after_snd {A} (evs : list (Event Time)) (r : run A) :
  (after evs r).2 = r.2.
Proof. reflexivity. Qed.

(** The encoder returns or raises; it never ends the process. *)
Lemma process_and_encode_image_no_exit (image : Image pil) (r : Q) :
  process_and_encode_image pil image r <> Exit.
Proof.
  unfold process_and_encode_image. rewrite process_and_encode_image_log_eq.
  set (image' := if mode_is_rgba pil image then convert_rgb pil image else image).
  pose proof (encode_loop_spec pil image' (size pil image).1 (size pil image).2 r 5 0)
    as (_ & _ & _ & _ & H).
  cbn zeta in H. intros Heq. now rewrite Heq in H.
Qed.

Lemma resize_images_no_exit (r : Q) (encoded_images : list string) :
  resize_images pil r encoded_images <> Exit.
Proof.
  induction encoded_images as [|e rest IH]; [discriminate|].
  cbn [resize_images].
  destruct (process_and_encode_image pil (open_encoded pil e) r) eqn:He;
    [|discriminate|now apply process_and_encode_image_no_exit in He].
  destruct (resize_images pil r rest); [discriminate|discriminate|congruence].
Qed.


(** Re-encoding raises only the error of the encoder itself. *)
Lemma reencode_error (encoded_image : string) (r : Q) (msg : string) :
  process_and_encode_image pil (open_encoded pil encoded_image) r = Exc msg ->
  msg = "Unable to reduce image size within 5 attempts".
Proof.
  unfold process_and_encode_image. rewrite process_and_encode_image_log_eq.
  rewrite open_encoded_mode.
  set (image := open_encoded pil encoded_image).
  pose proof (encode_loop_spec pil image (size pil image).1 (size pil image).2 r 5 0)
    as (_ & _ & _ & _ & H).
  cbn zeta in H. intros Heq. rewrite Heq in H.
  destruct H as [(k & _ & Hraised)|[Hmsg _]]; [|exact Hmsg].
  unfold attempt_saved in Hraised.
  destruct (open_encoded_saves pil encoded_image
              (scaled pil (size pil image).1 r (0 + k))
              (scaled pil (size pil image).2 r (0 + k))) as [buffered Hsaved].
  fold image in Hsaved. congruence.
Qed.

(** *** Chains of requests *)

Section RetriesFacts.
Context (reencoded kept : nat -> list string -> Prop).





End RetriesFacts.

(** *** The GPT-4o client *)

(** The facts about the events added in front of the rest of a run. *)
Ltac head_events Hc Hn :=
  rewrite after_fst, after_snd, sends_app;
  (split; [apply Forall_app; split; [repeat constructor|exact Hc]|]);
  (split; [apply Forall_app; split; [repeat constructor|exact Hn]|]).

Ltac last_events :=
  cbn [fst snd];
  (split; [repeat constructor|]);
  (split; [repeat constructor|]).

Section GPT4oFacts.
Context (provider : nat -> string -> list string -> Temperature -> Outcome Choice).
Context (prompt_text : string) (temperature : Temperature).

Lemma gpt4_step_refusal (attempt remaining : nat) (encoded_images : list string)
    (choice : Choice) :
  provider attempt prompt_text encoded_images temperature = Response choice ->
  startswith (message_content choice) "I'm sorry, but" = true ->
  gpt4_attempts pil (Time := Time) provider prompt_text temperature
    attempt (S remaining) encoded_images
  = after [Send attempt prompt_text encoded_images temperature]
      (gpt4_attempts pil provider prompt_text temperature
         (S attempt) remaining encoded_images).
Proof. intros Hp Hs. cbn [gpt4_attempts]. now rewrite Hp, Hs. Qed.

Lemma gpt4_step_accept (attempt remaining : nat) (encoded_images : list string)
    (choice : Choice) :
  provider attempt prompt_text encoded_images temperature = Response choice ->
  startswith (message_content choice) "I'm sorry, but" = false ->
  gpt4_attempts pil (Time := Time) provider prompt_text temperature
    attempt (S remaining) encoded_images
  = ([Send attempt prompt_text encoded_images temperature], Ret (Some choice)).
Proof. intros Hp Hs. cbn [gpt4_attempts]. now rewrite Hp, Hs. Qed.





(** How a run can end, counted in requests. *)
Lemma gpt4_attempts_outcome (remaining attempt : nat) (encoded_images : list string) :
  attempt + remaining = max_attempts ->
  let r := gpt4_attempts pil (Time := Time) provider prompt_text temperature
             attempt remaining encoded_images in
  Forall (carries prompt_text temperature) r.1
  /\ Forall (fun ev => is_saved ev = false) r.1
  /\ match r.2 with
     | Ret None => sends r.1 = remaining
     | Ret (Some choice) =>
         1 <= sends r.1 <= remaining
         /\ startswith (message_content choice) "I'm sorry, but" = false
     | Exc _ => 1 <= sends r.1 < remaining
     | Exit => False
     end.
Proof.
  revert attempt encoded_images.
  induction remaining as [|remaining IH]; intros attempt encoded_images Hsum.
  - cbn. repeat split; constructor.
  - assert (Hnext : S attempt + remaining = max_attempts) by lia.
    cbn zeta in *. cbn [gpt4_attempts].
    destruct (provider attempt prompt_text encoded_images temperature)
      as [choice|e] eqn:Hp.
    + destruct (startswith (message_content choice) "I'm sorry, but") eqn:Hs.
      * destruct (IH (S attempt) encoded_images Hnext) as (Hc & Hn & Hres).
        head_events Hc Hn.
        change (sends [Send attempt prompt_text encoded_images temperature]) with 1.
        destruct (_ : py (option Choice)) as [[c|]|msg|];
          [split; [lia|tauto]|lia|lia|exact Hres].
      * last_events.
        change (sends [Send attempt prompt_text encoded_images temperature]) with 1.
        split; [lia|exact Hs].
    + destruct (contains "image_parse_error" (lower e) && (attempt <? max_attempts - 1))
        eqn:He.
      * apply andb_prop in He as [_ Ha]. apply Nat.ltb_lt in Ha.
        destruct (resize_images pil (9 # 10) encoded_images) as [resized|msg|] eqn:Hr.
        -- destruct (IH (S attempt) resized Hnext) as (Hc & Hn & Hres).
           head_events Hc Hn.
           change (sends [Send attempt prompt_text encoded_images temperature;
                          Resized (9 # 10) encoded_images resized]) with 1.
           destruct (_ : py (option Choice)) as [[c|]|msg|];
             [split; [lia|tauto]|lia|lia|exact Hres].
        -- last_events.
           change (sends [Send attempt prompt_text encoded_images temperature]) with 1.
           unfold max_attempts in *. lia.
        -- now apply resize_images_no_exit in Hr.
      * destruct (IH (S attempt) encoded_images Hnext) as (Hc & Hn & Hres).
        head_events Hc Hn.
        change (sends [Send attempt prompt_text encoded_images temperature]) with 1.
        destruct (_ : py (option Choice)) as [[c|]|msg|];
          [split; [lia|tauto]|lia|lia|exact Hres].
Qed.

End GPT4oFacts.

(** *** The Gemini client *)

Section GeminiFacts.
Context (provider : nat -> string -> list string -> Temperature -> Outcome Content).
Context (prompt_text : string) (temperature : Temperature).






Lemma gemini_attempts_outcome (remaining attempt : nat) (encoded_images : list string) :
  attempt + remaining = max_attempts ->
  let r := gemini_attempts pil (Time := Time) provider prompt_text temperature
             attempt remaining encoded_images in
  Forall (carries prompt_text temperature) r.1
  /\ Forall (fun ev => is_saved ev = false) r.1
  /\ match r.2 with
     | Ret None => sends r.1 = remaining
     | Ret (Some content) => 1 <= sends r.1 <= remaining /\ too_short content = false
     | Exc _ => 1 <= sends r.1 < remaining
     | Exit => False
     end.
Proof.
  revert attempt encoded_images.
  induction remaining as [|remaining IH]; intros attempt encoded_images Hsum.
  - cbn. repeat split; constructor.
  - assert (Hnext : S attempt + remaining = max_attempts) by lia.
    cbn zeta in *. cbn [gemini_attempts].
    assert (Hcontinue :
      let r := after [Send attempt prompt_text encoded_images temperature]
                 (gemini_attempts pil (Time := Time) provider prompt_text temperature
                    (S attempt) remaining encoded_images) in
      Forall (carries prompt_text temperature) r.1
      /\ Forall (fun ev => is_saved ev = false) r.1
      /\ match r.2 with
         | Ret None => sends r.1 = S remaining
         | Ret (Some content) =>
             1 <= sends r.1 <= S remaining /\ too_short content = false
         | Exc _ => 1 <= sends r.1 < S remaining
         | Exit => False
         end).
    { cbn zeta. destruct (IH (S attempt) encoded_images Hnext) as (Hc & Hn & Hres).
      head_events Hc Hn.
      change (sends [Send attempt prompt_text encoded_images temperature]) with 1.
      destruct (_ : py (option Content)) as [[c|]|msg|];
        [split; [lia|tauto]|lia|lia|exact Hres]. }
    destruct (provider attempt prompt_text encoded_images temperature)
      as [content|e] eqn:Hp; [|rewrite contains_SAFETY_lower; exact Hcontinue].
    destruct (too_short content) eqn:Hs.
    + destruct (resize_images pil (9 # 10) encoded_images) as [resized|msg|] eqn:Hr.
      * destruct (IH (S attempt) resized Hnext) as (Hc & Hn & Hres).
        head_events Hc Hn.
        change (sends [Send attempt prompt_text encoded_images temperature;
                       Resized (9 # 10) encoded_images resized]) with 1.
        destruct (_ : py (option Content)) as [[c|]|msg|];
          [split; [lia|tauto]|lia|lia|exact Hres].
      * rewrite contains_SAFETY_lower. exact Hcontinue.
      * now apply resize_images_no_exit in Hr.
    + last_events.
      change (sends [Send attempt prompt_text encoded_images temperature]) with 1.
      split; [lia|exact Hs].
Qed.

End GeminiFacts.

(** *** The Claude client *)

Section ClaudeFacts.
Context (provider : nat -> string -> list string -> Temperature -> Outcome string).
Context (df : list (Row Time)) (file : string).
Context (prompt_text : string) (temperature : Temperature).

Lemma claude_step_refusal (attempt remaining : nat) (encoded_images : list string)
    (text : string) :
  provider attempt prompt_text encoded_images temperature = Response text ->
  startswith text "I'm sorry, but" = true ->
  claude_attempts pil provider df file prompt_text temperature
    attempt (S remaining) encoded_images
  = after [Send attempt prompt_text encoded_images temperature]
      (claude_attempts pil provider df file prompt_text temperature
         (S attempt) remaining encoded_images).
Proof. intros Hp Hs. cbn [claude_attempts]. now rewrite Hp, Hs. Qed.

Lemma claude_step_exceeded (attempt remaining : nat) (encoded_images : list string)
    (e : string) :
  provider attempt prompt_text encoded_images temperature = Failure e ->
  contains "exceeded" (lower e) = true ->
  claude_attempts pil provider df file prompt_text temperature
    attempt (S remaining) encoded_images
  = ([Send attempt prompt_text encoded_images temperature; SavedTimes df file], Exit).
Proof. intros Hp He. cbn [claude_attempts]. now rewrite Hp, He. Qed.






Lemma claude_attempts_outcome (remaining attempt : nat) (encoded_images : list string) :
  attempt + remaining = max_attempts ->
  let r := claude_attempts pil provider df file prompt_text temperature
             attempt remaining encoded_images in
  Forall (carries prompt_text temperature) r.1
  /\ match r.2 with
     | Ret None => sends r.1 = remaining /\ Forall (fun ev => is_saved ev = false) r.1
     | Ret (Some text) =>
         1 <= sends r.1 <= remaining /\ startswith text "I'm sorry, but" = false
         /\ Forall (fun ev => is_saved ev = false) r.1
     | Exc _ => 1 <= sends r.1 < remaining /\ Forall (fun ev => is_saved ev = false) r.1
     | Exit =>
         exists tr, r.1 = tr ++ [SavedTimes df file]
           /\ Forall (fun ev => is_saved ev = false) tr
           /\ 1 <= sends tr <= remaining
     end.
Proof.
  revert attempt encoded_images.
  induction remaining as [|remaining IH]; intros attempt encoded_images Hsum.
  - cbn. repeat split; constructor.
  - assert (Hnext : S attempt + remaining = max_attempts) by lia.
    cbn zeta in *.
    assert (Hcontinue : forall evs images,
      sends evs = 1 -> Forall (carries prompt_text temperature) evs ->
      Forall (fun ev => is_saved ev = false) evs ->
      let r := after evs
                 (claude_attempts pil provider df file prompt_text temperature
                    (S attempt) remaining images) in
      Forall (carries prompt_text temperature) r.1
      /\ match r.2 with
         | Ret None =>
             sends r.1 = S remaining /\ Forall (fun ev => is_saved ev = false) r.1
         | Ret (Some text) =>
             1 <= sends r.1 <= S remaining /\ startswith text "I'm sorry, but" = false
             /\ Forall (fun ev => is_saved ev = false) r.1
         | Exc _ =>
             1 <= sends r.1 < S remaining /\ Forall (fun ev => is_saved ev = false) r.1
         | Exit =>
             exists tr, r.1 = tr ++ [SavedTimes df file]
               /\ Forall (fun ev => is_saved ev = false) tr
               /\ 1 <= sends tr <= S remaining
         end).
    { intros evs images Hone Hcar Hsav. cbn zeta.
      destruct (IH (S attempt) images Hnext) as (Hc & Hres).
      rewrite after_fst, after_snd, sends_app, Hone.
      split; [apply Forall_app; split; assumption|].
      destruct (_ : py (option string)) as [[c|]|msg|].
      - destruct Hres as (H1 & H2 & H3).
        split; [lia|]. split; [exact H2|]. apply Forall_app; split; assumption.
      - destruct Hres as (H1 & H3). split; [lia|]. apply Forall_app; split; assumption.
      - destruct Hres as (H1 & H3). split; [lia|]. apply Forall_app; split; assumption.
      - destruct Hres as (tr & -> & H3 & H4). exists (evs ++ tr).
        split; [now rewrite app_assoc|].
        split; [apply Forall_app; split; assumption|].
        rewrite sends_app, Hone. lia. }
    cbn [claude_attempts].
    destruct (provider attempt prompt_text encoded_images temperature)
      as [text|e] eqn:Hp.
    + destruct (startswith text "I'm sorry, but") eqn:Hs.
      * apply Hcontinue; [reflexivity|repeat constructor..].
      * cbn [fst snd]. split; [repeat constructor|].
        change (sends [Send attempt prompt_text encoded_images temperature]) with 1.
        split; [lia|]. split; [exact Hs|repeat constructor].
    + destruct (contains "exceeded" (lower e)) eqn:Hx.
      * cbn [fst snd]. split; [repeat constructor|].
        exists [Send attempt prompt_text encoded_images temperature].
        split; [reflexivity|]. split; [repeat constructor|].
        change (sends [Send attempt prompt_text encoded_images temperature]) with 1.
        lia.
      * destruct (contains "image_parse_error" (lower e) && (attempt <? max_attempts - 1))
          eqn:He.
        -- apply andb_prop in He as [_ Ha]. apply Nat.ltb_lt in Ha.
           destruct (resize_images pil (9 # 10) encoded_images)
             as [resized|msg|] eqn:Hr.
           ++ apply Hcontinue; [reflexivity|repeat constructor..].
           ++ cbn [fst snd]. split; [repeat constructor|].
              change (sends [Send attempt prompt_text encoded_images temperature]) with 1.
              split; [unfold max_attempts in *; lia|repeat constructor].
           ++ now apply resize_images_no_exit in Hr.
        -- apply Hcontinue; [reflexivity|repeat constructor..].
Qed.

End ClaudeFacts.

Lemma not_refusal_prefix (text : string) :
  startswith text "I'm sorry, but" = false ->
  startswith text "I'm sorry, but I cannot" = false.
Proof.
  unfold startswith. intros H.
  destruct (String.prefix "I'm sorry, but I cannot" text) eqn:Hp; [|reflexivity].
  rewrite (prefix_trans "I'm sorry, but" "I'm sorry, but I cannot" text) in H;
    [discriminate|reflexivity|exact Hp].
Qed.

(** A provider that refuses every time is asked [remaining] times, with
    the same images, and the call returns nothing. *)
Lemma gpt4_all_refused provider prompt_text temperature encoded_images
    (remaining attempt : nat) :
  (forall a, exists choice,
      provider a prompt_text encoded_images temperature = Response choice
      /\ startswith (message_content choice) "I'm sorry, but" = true) ->
  gpt4_attempts pil (Time := Time) provider prompt_text temperature
    attempt remaining encoded_images
  = (map (fun a => Send a prompt_text encoded_images temperature) (seq attempt remaining),
     Ret None).
Proof.
  intros Hall. revert attempt.
  induction remaining as [|remaining IH]; intros attempt; [reflexivity|].
  destruct (Hall attempt) as (choice & Hp & Hs).
  rewrite (gpt4_step_refusal _ _ _ _ _ _ _ Hp Hs), IH. reflexivity.
Qed.

Lemma claude_all_refused provider (df : list (Row Time)) (file : string)
    prompt_text temperature encoded_images (remaining attempt : nat) :
  (forall a, exists text,
      provider a prompt_text encoded_images temperature = Response text
      /\ startswith text "I'm sorry, but" = true) ->
  claude_attempts pil provider df file prompt_text temperature
    attempt remaining encoded_images
  = (map (fun a => Send a prompt_text encoded_images temperature) (seq attempt remaining),
     Ret None).
Proof.
  intros Hall. revert attempt.
  induction remaining as [|remaining IH]; intros attempt; [reflexivity|].
  destruct (Hall attempt) as (text & Hp & Hs).
  rewrite (claude_step_refusal _ _ _ _ _ _ _ _ _ Hp Hs), IH. reflexivity.
Qed.

(** *** The claims about the clients *)

(** C4, as the code has it: the GPT-4o and the Claude client never return
    a text that starts with "I'm sorry, but" (hence none that starts with
    "I'm sorry, but I cannot"): such a response makes the loop go on to
    the next attempt, and when every attempt is refused the call returns
    nothing after ten requests.  (The Gemini client has no such test.) *)
Theorem C4_refusal_not_returned :
  (forall provider prompt_text encoded_images temperature,
      match (analyze_images_with_gpt4_vision pil (Time := Time) provider
               prompt_text encoded_images temperature).2 with
      | Ret (Some choice) =>
          startswith (message_content choice) "I'm sorry, but" = false
          /\ startswith (message_content choice) "I'm sorry, but I cannot" = false
      | _ => True
      end)
  /\ (forall provider (df : list (Row Time)) file prompt_text encoded_images temperature,
        match (analyze_images_with_claude_vision pil provider df file
                 prompt_text encoded_images temperature).2 with
        | Ret (Some text) =>
            startswith text "I'm sorry, but" = false
            /\ startswith text "I'm sorry, but I cannot" = false
        | _ => True
        end)
  /\ (forall provider prompt_text encoded_images temperature attempt remaining choice,
        provider attempt prompt_text encoded_images temperature = Response choice ->
        startswith (message_content choice) "I'm sorry, but I cannot" = true ->
        gpt4_attempts pil (Time := Time) provider prompt_text temperature
          attempt (S remaining) encoded_images
        = after [Send attempt prompt_text encoded_images temperature]
            (gpt4_attempts pil provider prompt_text temperature
               (S attempt) remaining encoded_images))
  /\ (forall provider (df : list (Row Time)) file prompt_text encoded_images temperature
             attempt remaining text,
        provider attempt prompt_text encoded_images temperature = Response text ->
        startswith text "I'm sorry, but I cannot" = true ->
        claude_attempts pil provider df file prompt_text temperature
          attempt (S remaining) encoded_images
        = after [Send attempt prompt_text encoded_images temperature]
            (claude_attempts pil provider df file prompt_text temperature
               (S attempt) remaining encoded_images))
  /\ (forall provider prompt_text encoded_images temperature,
        (forall a, exists choice,
            provider a prompt_text encoded_images temperature = Response choice
            /\ startswith (message_content choice) "I'm sorry, but" = true) ->
        analyze_images_with_gpt4_vision pil (Time := Time) provider
          prompt_text encoded_images temperature
        = (map (fun a => Send a prompt_text encoded_images temperature) (seq 0 10),
           Ret None))
  /\ (forall provider (df : list (Row Time)) file prompt_text encoded_images temperature,
        (forall a, exists text,
            provider a prompt_text encoded_images temperature = Response text
            /\ startswith text "I'm sorry, but" = true) ->
        analyze_images_with_claude_vision pil provider df file
          prompt_text encoded_images temperature
        = (map (fun a => Send a prompt_text encoded_images temperature) (seq 0 10),
           Ret None)).
Proof.
  assert (Hshort : forall text, startswith text "I'm sorry, but I cannot" = true ->
                                startswith text "I'm sorry, but" = true).
  { intros text H. destruct (startswith text "I'm sorry, but") eqn:Hs; [reflexivity|].
    apply not_refusal_prefix in Hs. congruence. }
  split; [|split; [|split; [|split; [|split]]]].
  - intros provider prompt_text encoded_images temperature.
    pose proof (gpt4_attempts_outcome provider prompt_text temperature
                  max_attempts 0 encoded_images eq_refl) as (_ & _ & H).
    cbn zeta in H. unfold analyze_images_with_gpt4_vision.
    destruct (_ : py (option Choice)) as [[c|]|msg|]; try exact I.
    destruct H as [_ H]. split; [exact H|now apply not_refusal_prefix].
  - intros provider df file prompt_text encoded_images temperature.
    pose proof (claude_attempts_outcome provider df file prompt_text temperature
                  max_attempts 0 encoded_images eq_refl) as (_ & H).
    cbn zeta in H. unfold analyze_images_with_claude_vision.
    destruct (_ : py (option string)) as [[c|]|msg|]; try exact I.
    destruct H as (_ & H & _). split; [exact H|now apply not_refusal_prefix].
  - intros provider prompt_text encoded_images temperature attempt remaining choice Hp Hs.
    apply (gpt4_step_refusal _ _ _ _ _ _ _ Hp (Hshort _ Hs)).
  - intros provider df file prompt_text encoded_images temperature attempt remaining
           text Hp Hs.
    apply (claude_step_refusal _ _ _ _ _ _ _ _ _ Hp (Hshort _ Hs)).
  - intros provider prompt_text encoded_images temperature Hall.
    now apply gpt4_all_refused.
  - intros provider df file prompt_text encoded_images temperature Hall.
    now apply claude_all_refused.
Qed.

(** C5, as the code has it: a call of the GPT-4o or of the Gemini client
    that has sent its ten requests and got no response it accepts returns
    [None];
    it does not raise and does not end the process.  A call of the Claude
    client that has sent its ten requests and got no response it accepts
    does not raise either; it returns [None], unless the quota test ended
    the process at the tenth request, after saving the timing table.  In
    all three clients [None] is returned only after ten requests. *)
Theorem C5_exhausted_returns_none :
  (forall provider prompt_text encoded_images temperature,
      let r := analyze_images_with_gpt4_vision pil (Time := Time) provider
                 prompt_text encoded_images temperature in
      (sends r.1 = max_attempts -> (forall choice, r.2 <> Ret (Some choice)) ->
       r.2 = Ret None)
      /\ (r.2 = Ret None -> sends r.1 = max_attempts))
  /\ (forall provider prompt_text encoded_images temperature,
        let r := analyze_images_with_gemini_vision pil (Time := Time) provider
                   prompt_text encoded_images temperature in
        (sends r.1 = max_attempts -> (forall content, r.2 <> Ret (Some content)) ->
         r.2 = Ret None)
        /\ (r.2 = Ret None -> sends r.1 = max_attempts))
  /\ (forall provider (df : list (Row Time)) file prompt_text encoded_images temperature,
        let r := analyze_images_with_claude_vision pil provider df file
                   prompt_text encoded_images temperature in
        (sends r.1 = max_attempts -> (forall text, r.2 <> Ret (Some text)) ->
         r.2 = Ret None
         \/ (r.2 = Exit
             /\ exists tr, r.1 = tr ++ [SavedTimes df file]
                  /\ sends tr = max_attempts
                  /\ Forall (fun ev => is_saved ev = false) tr))
        /\ (r.2 = Ret None -> sends r.1 = max_attempts)).
Proof.
  split; [|split].
  - intros provider prompt_text encoded_images temperature.
    pose proof (gpt4_attempts_outcome provider prompt_text temperature
                  max_attempts 0 encoded_images eq_refl) as (_ & _ & H).
    cbn zeta in *. unfold analyze_images_with_gpt4_vision.
    destruct (gpt4_attempts _ _ _ _ _ _ _) as [tr [[c|]|msg|]]; cbn [fst snd] in *.
    + split; [intros _ Hno; now destruct (Hno c)|discriminate].
    + split; [reflexivity|intros _; exact H].
    + split; [lia|discriminate].
    + destruct H.
  - intros provider prompt_text encoded_images temperature.
    pose proof (gemini_attempts_outcome provider prompt_text temperature
                  max_attempts 0 encoded_images eq_refl) as (_ & _ & H).
    cbn zeta in *. unfold analyze_images_with_gemini_vision.
    destruct (gemini_attempts _ _ _ _ _ _ _) as [tr [[c|]|msg|]]; cbn [fst snd] in *.
    + split; [intros _ Hno; now destruct (Hno c)|discriminate].
    + split; [reflexivity|intros _; exact H].
    + split; [lia|discriminate].
    + destruct H.
  - intros provider df file prompt_text encoded_images temperature.
    pose proof (claude_attempts_outcome provider df file prompt_text temperature
                  max_attempts 0 encoded_images eq_refl) as (_ & H).
    cbn zeta in *. unfold analyze_images_with_claude_vision.
    destruct (claude_attempts _ _ _ _ _ _ _ _ _) as [tr [[c|]|msg|]];
      cbn [fst snd] in *.
    + split; [intros _ Hno; now destruct (Hno c)|discriminate].
    + split; [now left|intros _; tauto].
    + split; [lia|discriminate].
    + split; [|discriminate]. intros Hsends _. right. split; [reflexivity|].
      destruct H as (tr' & -> & Hsaved & _). exists tr'.
      split; [reflexivity|]. split; [|exact Hsaved].
      rewrite sends_app in Hsends.
      change (sends [SavedTimes df file]) with 0 in Hsends. lia.
Qed.

(** C6, as the code has it: in the Claude client an exception whose
    lower-cased text contains "exceeded" makes the call save the
    module-level timing table to the timing file and end the process at
    once, without another request; the process is ended in no other way,
    and the table is saved only then.  The GPT-4o and the Gemini client
    never save the table and never end the process. *)
Theorem C6_quota_exit :
  (forall provider (df : list (Row Time)) file prompt_text temperature
          attempt remaining encoded_images e,
      provider attempt prompt_text encoded_images temperature = Failure e ->
      contains "exceeded" (lower e) = true ->
      claude_attempts pil provider df file prompt_text temperature
        attempt (S remaining) encoded_images
      = ([Send attempt prompt_text encoded_images temperature; SavedTimes df file],
         Exit))
  /\ (forall provider (df : list (Row Time)) file prompt_text encoded_images temperature,
        let r := analyze_images_with_claude_vision pil provider df file
                   prompt_text encoded_images temperature in
        match r.2 with
        | Exit => exists tr, r.1 = tr ++ [SavedTimes df file]
                    /\ Forall (fun ev => is_saved ev = false) tr
        | _ => Forall (fun ev => is_saved ev = false) r.1
        end)
  /\ (forall provider prompt_text encoded_images temperature,
        let r := analyze_images_with_gpt4_vision pil (Time := Time) provider
                   prompt_text encoded_images temperature in
        r.2 <> Exit /\ Forall (fun ev => is_saved ev = false) r.1)
  /\ (forall provider prompt_text encoded_images temperature,
        let r := analyze_images_with_gemini_vision pil (Time := Time) provider
                   prompt_text encoded_images temperature in
        r.2 <> Exit /\ Forall (fun ev => is_saved ev = false) r.1).
Proof.
  split; [|split; [|split]].
  - intros provider df file prompt_text temperature attempt remaining encoded_images e.
    apply claude_step_exceeded.
  - intros provider df file prompt_text encoded_images temperature.
    pose proof (claude_attempts_outcome provider df file prompt_text temperature
                  max_attempts 0 encoded_images eq_refl) as (_ & H).
    cbn zeta in *. unfold analyze_images_with_claude_vision.
    destruct (claude_attempts _ _ _ _ _ _ _ _ _) as [tr [[c|]|msg|]];
      cbn [fst snd] in *; try tauto.
    destruct H as (tr' & H1 & H2 & _). exists tr'. tauto.
  - intros provider prompt_text encoded_images temperature.
    pose proof (gpt4_attempts_outcome provider prompt_text temperature
                  max_attempts 0 encoded_images eq_refl) as (_ & Hn & H).
    cbn zeta in *. unfold analyze_images_with_gpt4_vision.
    split; [|exact Hn]. intros Heq. now rewrite Heq in H.
  - intros provider prompt_text encoded_images temperature.
    pose proof (gemini_attempts_outcome provider prompt_text temperature
                  max_attempts 0 encoded_images eq_refl) as (_ & Hn & H).
    cbn zeta in *. unfold analyze_images_with_gemini_vision.
    split; [|exact Hn]. intros Heq. now rewrite Heq in H.
Qed.


End ClientFacts.

(** *** Runs on the sample world *)



(** C4 fails as stated: the Gemini client returns a refusal text. *)
Lemma C4_counterexample :
  startswith Sample.refusal "I'm sorry, but I cannot" = true
  /\ analyze_images_with_gemini_vision Sample.imaging (Time := Z)
       (Sample.gemini_always (Response (Text Sample.refusal)))
       "prompt" [Sample.picture] T_0
     = ([Send 0 "prompt" [Sample.picture] T_0], Ret (Some (Text Sample.refusal))).
Proof. split; vm_compute; reflexivity. Qed.

Lemma C4_refusal_not_returned_witness :
  (forall a : nat, exists choice,
      Sample.gpt4_always (Response {| message_content := Sample.refusal |})
        a "prompt" [Sample.picture] T_0 = Response choice
      /\ startswith (message_content choice) "I'm sorry, but" = true)
  /\ analyze_images_with_gpt4_vision Sample.imaging (Time := Z)
       (Sample.gpt4_always (Response {| message_content := Sample.refusal |}))
       "prompt" [Sample.picture] T_0
     = (map (fun a => Send a "prompt" [Sample.picture] T_0) (seq 0 10), Ret None).
Proof.
  assert (H : forall a : nat, exists choice,
             Sample.gpt4_always (Response {| message_content := Sample.refusal |})
               a "prompt" [Sample.picture] T_0 = Response choice
             /\ startswith (message_content choice) "I'm sorry, but" = true).
  { intros a. exists {| message_content := Sample.refusal |}.
    split; [reflexivity|vm_compute; reflexivity]. }
  split; [exact H|].
  destruct (C4_refusal_not_returned Sample.imaging (Time := Z))
    as (_ & _ & _ & _ & Hall & _).
  exact (Hall _ "prompt" [Sample.picture] T_0 H).
Defined.

Lemma C5_exhausted_returns_none_witness :
  sends (analyze_images_with_gemini_vision Sample.imaging (Time := Z)
           (Sample.gemini_always (Response (Text "OK")))
           "prompt" [Sample.picture] T_0).1 = max_attempts
  /\ (analyze_images_with_gemini_vision Sample.imaging (Time := Z)
        (Sample.gemini_always (Response (Text "OK")))
        "prompt" [Sample.picture] T_0).2 = Ret None.
Proof.
  assert (H : sends (analyze_images_with_gemini_vision Sample.imaging (Time := Z)
                       (Sample.gemini_always (Response (Text "OK")))
                       "prompt" [Sample.picture] T_0).1 = max_attempts)
    by (vm_compute; reflexivity).
  split; [exact H|].
  destruct (C5_exhausted_returns_none Sample.imaging (Time := Z)) as (_ & Hg & _).
  apply (Hg (Sample.gemini_always (Response (Text "OK"))) "prompt"
            [Sample.picture] T_0); [exact H|].
  intros content. vm_compute. discriminate.
Defined.

(** C5 fails as stated: the Claude client, after nine requests that
    failed and a tenth that is told that the quota is exceeded, has reached
    the ceiling without a response; it does not return but saves the table
    and ends the process. *)
Lemma C5_counterexample :
  contains "exceeded" (lower Sample.quota_error) = true
  /\ analyze_images_with_claude_vision Sample.imaging Sample.quota_at_last
       (@nil (Row Z)) "Claude_execution_times.xlsx" "prompt" [Sample.picture] T_0
     = (map (fun a => Send a "prompt" [Sample.picture] T_0) (seq 0 10)
          ++ [SavedTimes [] "Claude_execution_times.xlsx"], Exit)
  /\ sends (analyze_images_with_claude_vision Sample.imaging Sample.quota_at_last
              (@nil (Row Z)) "Claude_execution_times.xlsx" "prompt"
              [Sample.picture] T_0).1 = max_attempts.
Proof. repeat split; vm_compute; reflexivity. Qed.

(** C6 fails as stated: the GPT-4o client, told ten times that the quota
    is exceeded, asks ten times, saves nothing and returns [None]. *)
Lemma C6_counterexample :
  contains "exceeded" (lower Sample.quota_error) = true
  /\ analyze_images_with_gpt4_vision Sample.imaging (Time := Z)
       (Sample.gpt4_always (Failure Sample.quota_error))
       "prompt" [Sample.picture] T_0
     = (map (fun a => Send a "prompt" [Sample.picture] T_0) (seq 0 10), Ret None).
Proof. split; vm_compute; reflexivity. Qed.

Lemma C6_quota_exit_witness :
  Sample.claude_always (Failure Sample.quota_error) 3 "prompt" [Sample.picture] T_1
  = Failure Sample.quota_error
  /\ contains "exceeded" (lower Sample.quota_error) = true
  /\ claude_attempts Sample.imaging
       (Sample.claude_always (Failure Sample.quota_error))
       (@nil (Row Z)) "Claude_execution_times.xlsx" "prompt" T_1
       3 7 [Sample.picture]
     = ([Send 3 "prompt" [Sample.picture] T_1;
         SavedTimes [] "Claude_execution_times.xlsx"], Exit).
Proof.
  assert (H1 : Sample.claude_always (Failure Sample.quota_error) 3 "prompt"
                 [Sample.picture] T_1 = Failure Sample.quota_error) by reflexivity.
  assert (H2 : contains "exceeded" (lower Sample.quota_error) = true)
    by (vm_compute; reflexivity).
  split; [exact H1|]. split; [exact H2|].
  destruct (C6_quota_exit Sample.imaging (Time := Z)) as [H _].
  exact (H _ [] "Claude_execution_times.xlsx" "prompt" T_1 3 6 [Sample.picture] _ H1 H2).
Defined.

(** ** The main loop *)

Import Runner.

Section RunnerFacts.
Context (pil : Imaging) {Time : Type}.
Context (cases : list Case).
Context (prompt_template : string -> string -> string).
Context (provider : Temperature -> nat ->
                    nat -> string -> list string -> Temperature -> Outcome Choice).
Context (clock : Temperature -> nat -> Time).

Lemma add_events_nil (w : World Time) : add_events [] w = w.
Proof. destruct w. unfold add_events. cbn. now rewrite app_nil_r. Qed.

Lemma add_events_add_events (evs1 evs2 : list (Event Time)) (w : World Time) :
  add_events evs2 (add_events evs1 w) = add_events (evs1 ++ evs2) w.
Proof. unfold add_events. cbn. now rewrite app_assoc. Qed.

(** A loop whose body only adds events, none of them a request, on every
    element: the loop adds the events of all elements, in order. *)
Lemma for_each_events {A : Type} (body : World Time -> A -> World Time * py unit)
    (evs : A -> list (Event Time)) (l : list A) (w : World Time) :
  (forall x more, x ∈ l -> body (add_events more w) x
                          = (add_events (evs x) (add_events more w), Ret tt)) ->
  for_each body w l = (add_events (flat_map evs l) w, Ret tt).
Proof.
  revert w. induction l as [|x l IH]; intros w Hbody.
  - cbn. now rewrite add_events_nil.
  - cbn [for_each flat_map].
    pose proof (Hbody x [] ltac:(left)) as Hx. rewrite add_events_nil in Hx.
    rewrite Hx, IH.
    + now rewrite add_events_add_events.
    + intros y more Hy. rewrite (add_events_add_events (evs x) more w).
      apply Hbody. now right.
Qed.

Lemma run_case_skip (temperature : Temperature) (try_number : nat)
    (result_folder : string) (w : World Time) (index : nat) (row : Case) :
  is_Some (files w !! result_file_path result_folder row) ->
  run_case pil prompt_template provider clock temperature try_number result_folder
    w (index, row)
  = (add_events [Skipped (index + 1) temperature try_number] w, Ret tt).
Proof. intros [text Hfile]. unfold run_case. now rewrite Hfile. Qed.

Lemma in_iterrows (index : nat) (row : Case) (df : list Case) :
  (index, row) ∈ iterrows df -> row ∈ df.
Proof.
  unfold iterrows. intros H. apply list_elem_of_lookup in H as [i Hi].
  apply lookup_zip_with_Some in Hi as (a & b & Heq & _ & Hb).
  injection Heq as -> ->. apply list_elem_of_lookup. eauto.
Qed.

Lemma sends_none (evs : list (Event Time)) :
  Forall (fun ev => is_send ev = false) evs -> sends evs = 0.
Proof.
  unfold sends. induction 1 as [|ev evs Hev _ IH]; [reflexivity|].
  rewrite filter_cons_False by congruence. exact IH.
Qed.

Lemma skipped_events_no_send :
  Forall (fun ev : Event Time => is_send ev = false) (skipped_events cases).
Proof.
  unfold skipped_events. apply Forall_forall. intros ev Hev.
  apply list_elem_of_In, in_flat_map in Hev as (t & _ & Hev).
  apply in_flat_map in Hev as (y & _ & Hev).
  apply in_flat_map in Hev as (ir & _ & Hev).
  destruct Hev as [<-|[]]. reflexivity.
Qed.

(** C7: a case whose result file exists is skipped: the step changes
    nothing but the trace, whatever the file holds.  Hence a run over
    folders in which every case has its result file sends no request,
    leaves every file (and the table and the log) as it was, and ends
    with the saving of the unchanged table. *)
Theorem C7_skip_existing :
  (forall temperature try_number result_folder (w : World Time) index row,
      is_Some (files w !! result_file_path result_folder row) ->
      run_case pil prompt_template provider clock temperature try_number
        result_folder w (index, row)
      = (add_events [Skipped (index + 1) temperature try_number] w, Ret tt))
  /\ (forall w : World Time,
        (forall temperature row,
            temperature ∈ temperatures -> row ∈ cases ->
            is_Some (files w !! result_file_path
                       (create_result_folder base_result_folder temperature 1) row)) ->
        let done := main pil cases prompt_template provider clock w in
        done = (add_events (skipped_events cases
                              ++ [SavedTimes (df_execution_times w) time_file_name]) w,
                Ret tt)
        /\ files done.1 = files w
        /\ df_execution_times done.1 = df_execution_times w
        /\ log_file done.1 = log_file w
        /\ sends (skipped_events cases
                    ++ [SavedTimes (df_execution_times w) time_file_name]) = 0).
Proof.
  split; [intros; now apply run_case_skip|].
  intros w Hall.
  assert (Hloop :
    for_each (run_temperature pil cases prompt_template provider clock) w temperatures
    = (add_events (skipped_events cases) w, Ret tt)).
  { unfold skipped_events. apply for_each_events.
    intros temperature more1 Ht. unfold run_temperature.
    apply for_each_events. intros try_number more2 Hy.
    assert (try_number = 1) as ->.
    { cbn in Hy. now apply list_elem_of_singleton in Hy. }
    unfold run_try. apply for_each_events.
    intros [index row] more3 Hrow. apply run_case_skip. cbn [add_events files].
    apply Hall; [exact Ht|]. now apply in_iterrows in Hrow. }
  cbn zeta. unfold main. rewrite Hloop.
  split; [now rewrite add_events_add_events|].
  split; [reflexivity|]. split; [reflexivity|]. split; [reflexivity|].
  apply sends_none, Forall_app. split; [apply skipped_events_no_send|].
  repeat constructor.
Qed.

(** C10, as the code has it: for a case that is not skipped and whose
    call returns, the result file is written exactly when the client
    returned a response object; its text is written as it is, also when
    it is empty.  When the client returned [None] no file is written and
    the failure is logged.  The timing row is recorded in both cases. *)
Theorem C10_result_written (temperature : Temperature) (try_number : nat)
    (result_folder : string) (w : World Time) (index : nat) (row : Case)
    (encoded_images : list string) (tr : list (Event Time)) (result : option Choice) :
  let path := result_file_path result_folder row in
  let prompt_text :=
    prompt_template ("age: " +:+ age row +:+ ", sex: " +:+ sex row)
      ("symptom: " +:+ symptom row) in
  files w !! path = None ->
  encode_images_from_paths pil ["q401_image/" +:+ image_file_name row]
  = Ret encoded_images ->
  analyze_images_with_gpt4_vision pil (provider temperature (index + 1))
    prompt_text encoded_images temperature = (tr, Ret result) ->
  let done := run_case pil prompt_template provider clock temperature try_number
                result_folder w (index, row) in
  done.2 = Ret tt
  /\ files done.1 = match result with
                    | Some choice => <[path := message_content choice]> (files w)
                    | None => files w
                    end
  /\ (is_Some (files done.1 !! path) <-> is_Some result)
  /\ log_file done.1 = match result with
                       | Some _ => log_file w
                       | None => log_file w
                                 ++ [no_result_message (index + 1) temperature try_number]
                       end
  /\ df_execution_times done.1
     = upsert (df_execution_times w) (index + 1) temperature try_number
         (clock temperature (index + 1))
  /\ events done.1 = events w ++ tr.
Proof.
  intros path prompt_text Hfile Himages Hcall done. subst done.
  unfold run_case. fold path. rewrite Hfile, Himages. fold prompt_text.
  rewrite Hcall. destruct result as [choice|]; cbn.
  - repeat split; try reflexivity.
    + intros _. eauto.
    + intros _. rewrite lookup_insert_eq. eauto.
  - repeat split; try reflexivity.
    + rewrite Hfile. intros [? ?]. discriminate.
    + intros [? ?]. discriminate.
Qed.

End RunnerFacts.

(** *** Runs of the main loop on the sample world *)

Lemma C7_skip_existing_witness :
  (forall temperature row,
      temperature ∈ temperatures -> row ∈ [Sample.case_1] ->
      is_Some (files Sample.finished
                 !! result_file_path
                      (create_result_folder base_result_folder temperature 1) row))
  /\ main Sample.imaging [Sample.case_1] Sample.prompt_template
       Sample.empty_answers Sample.clock Sample.finished
     = (add_events [Skipped 1 T_0 1; Skipped 1 T_0_5 1; Skipped 1 T_1 1;
                    SavedTimes [] time_file_name] Sample.finished,
        Ret tt).
Proof.
  assert (H : forall temperature row,
             temperature ∈ temperatures -> row ∈ [Sample.case_1] ->
             is_Some (files Sample.finished
                        !! result_file_path
                             (create_result_folder base_result_folder temperature 1) row)).
  { intros temperature row _ Hrow. apply list_elem_of_singleton in Hrow. subst row.
    destruct temperature; vm_compute; eauto. }
  split; [exact H|].
  destruct (C7_skip_existing Sample.imaging [Sample.case_1] Sample.prompt_template
              Sample.empty_answers Sample.clock) as [_ Hrun].
  destruct (Hrun Sample.finished H) as [Hmain _]. exact Hmain.
Defined.

(** C10 fails as stated: a response with an empty text is written to the
    result file, and nothing is logged. *)
Lemma C10_counterexample :
  let path := "gpt4o_result/gpt4o_result_temp_0_try1/1.png.txt" in
  let done := run_case Sample.imaging Sample.prompt_template Sample.empty_answers
                Sample.clock T_0 1 (create_result_folder base_result_folder T_0 1)
                Sample.fresh (0, Sample.case_1) in
  (analyze_images_with_gpt4_vision Sample.imaging (Time := Z)
     (Sample.empty_answers T_0 1)
     (Sample.prompt_template "age: 63, sex: M" "symptom: cough")
     [Sample.picture] T_0).2
  = Ret (Some {| message_content := "" |})
  /\ files Sample.fresh !! path = None
  /\ files done.1 !! path = Some ""
  /\ log_file done.1 = []
  /\ done.2 = Ret tt.
Proof.
  cbn zeta. split; [vm_compute; reflexivity|].
  split; [vm_compute; reflexivity|].
  split; [vm_compute; reflexivity|].
  split; vm_compute; reflexivity.
Qed.

Lemma C10_result_written_witness :
  let path := result_file_path (create_result_folder base_result_folder T_1 1)
                Sample.case_1 in
  let done := run_case Sample.imaging Sample.prompt_template Sample.failures
                Sample.clock T_1 1 (create_result_folder base_result_folder T_1 1)
                Sample.fresh (0, Sample.case_1) in
  files Sample.fresh !! path = None
  /\ encode_images_from_paths Sample.imaging
       ["q401_image/" +:+ image_file_name Sample.case_1] = Ret [Sample.picture]
  /\ done.2 = Ret tt
  /\ files done.1 = files Sample.fresh
  /\ log_file done.1 = ["Case 1 (Temperature: 1, Try: 1): No results found."].
Proof.
  cbn zeta.
  assert (H1 : files Sample.fresh
               !! result_file_path (create_result_folder base_result_folder T_1 1)
                    Sample.case_1 = None) by (vm_compute; reflexivity).
  assert (H2 : encode_images_from_paths Sample.imaging
                 ["q401_image/" +:+ image_file_name Sample.case_1]
               = Ret [Sample.picture]) by (vm_compute; reflexivity).
  split; [exact H1|]. split; [exact H2|].
  destruct (C10_result_written Sample.imaging Sample.prompt_template Sample.failures
              Sample.clock T_1 1 (create_result_folder base_result_folder T_1 1)
              Sample.fresh 0 Sample.case_1 [Sample.picture]
              (map (fun a => Send a
                      (Sample.prompt_template "age: 63, sex: M" "symptom: cough")
                      [Sample.picture] T_1) (seq 0 10))
              None H1 H2)
    as (Hres & Hfiles & _ & Hlog & _).
  - vm_compute. reflexivity.
  - split; [exact Hres|]. split; [exact Hfiles|]. exact Hlog.
Defined.

(** * Further properties *)

(** ** Lines and sections *)

Section MoreSplitterFacts.
Import Summarizer.

Lemma has_newline_cons (c : ascii) (s : string) :
  has_newline (String c s) = Ascii.eqb newline c || has_newline s.
Proof. reflexivity. Qed.

(** [readlines] loses nothing and cuts exactly after the terminators:
    the lines put together are the text, no line is empty, and every line
    is a body without terminator followed by one terminator, which only
    the last line may lack. *)
Theorem readlines_lines (s : string) :
  join (readlines s) = s
  /\ Forall (fun l => l <> "") (readlines s)
  /\ (forall i l, readlines s !! i = Some l ->
        exists body, has_newline body = false
          /\ (l = body +:+ nl \/ (l = body /\ S i = length (readlines s)))).
Proof.
  induction s as [|c s (IHjoin & IHne & IHbody)].
  - split; [reflexivity|]. split; [constructor|]. intros i l H. destruct i; discriminate.
  - cbn [readlines]. destruct (Ascii.eqb c newline) eqn:Hc.
    + apply Ascii.eqb_eq in Hc. subst c.
      split; [now rewrite join_cons, IHjoin|].
      split; [constructor; [discriminate|exact IHne]|].
      intros [|i] l H.
      * injection H as <-. exists "". split; [reflexivity|now left].
      * cbn in H. destruct (IHbody i l H) as (body & Hb & [->|[-> Hlast]]);
          exists body; (split; [exact Hb|]); [now left|right].
        split; [reflexivity|]. cbn [length]. now rewrite Hlast.
    + assert (Hc' : Ascii.eqb newline c = false).
      { rewrite Ascii.eqb_sym. exact Hc. }
      destruct (readlines s) as [|l0 ls] eqn:Hr.
      * cbn in IHjoin. subst s.
        split; [reflexivity|]. split; [repeat constructor; discriminate|].
        intros [|i] l H; [|destruct i; discriminate].
        injection H as <-. exists (String c ""). split.
        -- rewrite has_newline_cons, Hc'. reflexivity.
        -- right. split; reflexivity.
      * split; [rewrite join_cons in IHjoin; now rewrite join_cons, append_cons, IHjoin|].
        split.
        { apply Forall_cons in IHne as [_ Hls]. constructor; [discriminate|exact Hls]. }
        intros [|i] l H.
        -- injection H as <-.
           destruct (IHbody 0 l0 eq_refl) as (body & Hb & [->|[-> Hlast]]);
             exists (String c body);
             (split; [now rewrite has_newline_cons, Hc', Hb|]).
           ++ left. reflexivity.
           ++ right. split; [reflexivity|exact Hlast].
        -- apply (IHbody (S i) l H).
Qed.

(** A section that the scan has left is never changed again. *)
Lemma split_fold_frozen (content : list string) (st : split_state) (j : nat) :
  j < st.1 ->
  (foldl split_step st content).2 !! j = st.2 !! j
  /\ st.1 <= (foldl split_step st content).1.
Proof.
  revert st. induction content as [|line content IH]; intros [idx items] Hj.
  - split; [reflexivity|cbn; lia].
  - cbn [foldl]. cbn [fst snd] in Hj.
    assert (Hmono : idx <= next_index idx (strip line)).
    { unfold next_index. destruct (_ && _); lia. }
    destruct (IH (split_step (idx, items) line)) as [Hslot Hidx].
    + cbn. lia.
    + rewrite Hslot. cbn [split_step fst snd] in *. split; [|lia].
      apply list_lookup_alter_ne. lia.
Qed.

(** While no line holds the text "2.", every line goes to section 1. *)
Lemma split_fold_first (pre : list string) (items : list string) :
  (forall x, x ∈ pre -> contains "2." x = false) ->
  foldl split_step (0, items) pre
  = (0, alter (fun s => s +:+ join pre) 0 items).
Proof.
  revert items. induction pre as [|x pre IH]; intros items Hpre.
  - cbn. destruct items as [|a items]; [reflexivity|].
    cbn. now rewrite append_empty_r.
  - cbn [foldl].
    assert (Hx : next_index 0 (strip x) = 0).
    { rewrite next_index_unstripped. unfold next_index.
      change (marker 0) with "2.". rewrite (Hpre x) by now left. reflexivity. }
    cbn [split_step]. rewrite Hx, IH by (intros y Hy; apply Hpre; now right).
    f_equal. destruct items as [|a items]; [reflexivity|].
    cbn [alter list_alter]. now rewrite join_cons, append_assoc'.
Qed.

(** Once the scan is in section 2, that section keeps what it holds as
    a prefix. *)
Lemma split_fold_second (content : list string) (st : split_state) (s : string) :
  split_inv st -> 1 <= st.1 -> st.2 !! 1 = Some s ->
  exists tail, (foldl split_step st content).2 !! 1 = Some (s +:+ tail).
Proof.
  revert st s. induction content as [|x content IH]; intros [idx items] s Hinv Hidx Hs.
  - exists "". cbn in *. now rewrite append_empty_r.
  - cbn [foldl]. pose proof (split_step_inv _ x Hinv) as Hinv'.
    destruct Hinv as (Hle & Hlen & _). cbn [fst snd] in *.
    pose proof (next_index_bounds idx (strip x) Hle) as Hb.
    destruct (decide (next_index idx (strip x) = 1)) as [H1|H1].
    + destruct (IH (split_step (idx, items) x) (s +:+ x) Hinv') as [tail Htail].
      * cbn. lia.
      * cbn [split_step snd]. rewrite H1.
        rewrite list_lookup_alter_eq, Hs. reflexivity.
      * exists (x +:+ tail). now rewrite <- append_assoc'.
    + destruct (IH (split_step (idx, items) x) s Hinv') as [tail Htail].
      * cbn. lia.
      * cbn [split_step snd]. rewrite list_lookup_alter_ne by lia. exact Hs.
      * exists tail. exact Htail.
Qed.

(** Section 1 is the text before the first line that holds "2.": a file
    without such a line goes to section 1 as a whole and leaves the other
    five sections empty, whatever other numbers its lines hold; otherwise
    section 1 is exactly the lines before that line, and section 2 starts
    with that line. *)
Theorem split_first_section :
  (forall content : list string,
      (forall x, x ∈ content -> contains "2." x = false) ->
      split_sections content = [join content; ""; ""; ""; ""; ""])
  /\ (forall (pre : list string) (line : string) (rest : list string),
        (forall x, x ∈ pre -> contains "2." x = false) ->
        contains "2." line = true ->
        split_sections (pre ++ line :: rest) !! 0 = Some (join pre)
        /\ exists tail, split_sections (pre ++ line :: rest) !! 1 = Some (line +:+ tail)).
Proof.
  split.
  - intros content Hall. unfold split_sections, split_lines, split_init.
    now rewrite split_fold_first.
  - intros pre line rest Hpre Hline.
    unfold split_sections, split_lines, split_init.
    rewrite foldl_app, split_fold_first by exact Hpre. cbn [foldl].
    assert (Hx : next_index 0 (strip line) = 1).
    { rewrite next_index_unstripped. unfold next_index.
      change (marker 0) with "2.". now rewrite Hline. }
    cbn [split_step]. rewrite Hx.
    set (st := (1, _)).
    destruct (split_fold_frozen rest st 0 ltac:(cbn; lia)) as [H0 _].
    split; [rewrite H0; reflexivity|].
    apply split_fold_second; [|cbn; lia|reflexivity].
    repeat split; cbn; [lia|].
    intros j Hj Hj6. do 6 (destruct j as [|j]; [try lia; reflexivity|]). lia.
Qed.

Lemma split_first_section_witness :
  (forall x, x ∈ ["Findings: 3. none" +:+ nl] -> contains "2." x = false)
  /\ contains "2." ("2. CT" +:+ nl) = true
  /\ split_sections (["Findings: 3. none" +:+ nl] ++ ("2. CT" +:+ nl) :: ["3. no" +:+ nl])
       !! 0 = Some (join ["Findings: 3. none" +:+ nl]).
Proof.
  assert (H1 : forall x, x ∈ ["Findings: 3. none" +:+ nl] -> contains "2." x = false).
  { intros x Hx. apply list_elem_of_singleton in Hx. subst x. vm_compute. reflexivity. }
  assert (H2 : contains "2." ("2. CT" +:+ nl) = true) by (vm_compute; reflexivity).
  split; [exact H1|]. split; [exact H2|].
  destruct split_first_section as [_ H].
  destruct (H ["Findings: 3. none" +:+ nl] ("2. CT" +:+ nl) ["3. no" +:+ nl] H1 H2)
    as [H0 _].
  exact H0.
Defined.

Section SheetFacts.
Context (cell_error : string -> option string).



(** The loop over the numbers [start, start + 1, ...]. *)
Lemma process_files_spec (fs : gmap string string) (folder_path : string)
    (len start : nat) :
  match process_files cell_error fs folder_path (seq start len) with
  | Ret rows =>
      map fst rows
      = filter (fun i => is_Some (fs !! file_path folder_path i)) (seq start len)
      /\ length rows <= len
      /\ (forall i items, (i, items) ∈ rows ->
            start <= i < start + len
            /\ exists text, fs !! file_path folder_path i = Some text
                 /\ items = split_file text
                 /\ append_error cell_error items = None)
  | Exc msg =>
      exists i text,
        start <= i < start + len
        /\ fs !! file_path folder_path i = Some text
        /\ append_error cell_error (split_file text) = Some msg
        /\ forall j text', start <= j < i ->
             fs !! file_path folder_path j = Some text' ->
             append_error cell_error (split_file text') = None
  | Exit => False
  end.
Proof.
  revert start. induction len as [|len IH]; intros start.
  - cbn. split; [reflexivity|]. split; [lia|]. intros i items Hin. inversion Hin.
  - cbn [seq process_files]. specialize (IH (S start)).
    destruct (fs !! file_path folder_path start) as [text|] eqn:Hf.
    + rewrite filter_cons_True by (rewrite Hf; eauto).
      destruct (append_error cell_error (split_file text)) as [msg|] eqn:Herr.
      * exists start, text. split; [lia|]. split; [exact Hf|]. split; [exact Herr|].
        intros j text' Hj. lia.
      * destruct (process_files cell_error fs folder_path (seq (S start) len))
          as [rows|msg|]; [| |exact IH].
        -- destruct IH as (Hfst & Hlen & Hrows).
           split; [cbn; now rewrite Hfst|]. split; [cbn; lia|].
           intros i items Hin. apply elem_of_cons in Hin as [Heq|Hin].
           ++ injection Heq as -> ->. split; [lia|]. now exists text.
           ++ destruct (Hrows i items Hin) as [Hi Hrow]. split; [lia|exact Hrow].
        -- destruct IH as (i & text' & Hi & Hfile & Herr' & Hfirst).
           exists i, text'. split; [lia|]. split; [exact Hfile|].
           split; [exact Herr'|]. intros j text'' Hj Hjf.
           destruct (decide (j = start)) as [->|Hne].
           ++ rewrite Hf in Hjf. injection Hjf as <-. exact Herr.
           ++ apply (Hfirst j text''); [lia|exact Hjf].
    + rewrite filter_cons_False by (rewrite Hf; intros [? ?]; discriminate).
      destruct (process_files cell_error fs folder_path (seq (S start) len))
        as [rows|msg|]; [| |exact IH].
      * destruct IH as (Hfst & Hlen & Hrows).
        split; [exact Hfst|]. split; [lia|].
        intros i items Hin. destruct (Hrows i items Hin) as [Hi Hrow].
        split; [lia|exact Hrow].
      * destruct IH as (i & text' & Hi & Hfile & Herr' & Hfirst).
        exists i, text'. split; [lia|]. split; [exact Hfile|].
        split; [exact Herr'|]. intros j text'' Hj Hjf.
        destruct (decide (j = start)) as [->|Hne]; [congruence|].
        apply (Hfirst j text''); [lia|exact Hjf].
Qed.



(** A file that exists has its row when the loop runs to its end. *)
Lemma process_folder_row (fs : gmap string string) (folder_path : string)
    (rows : list (nat * list string)) (i : nat) (text : string) :
  process_folder cell_error fs folder_path = Ret rows ->
  1 <= i <= 401 -> fs !! file_path folder_path i = Some text ->
  (i, split_file text) ∈ rows.
Proof.
  unfold process_folder. intros Hrows Hi Hfile.
  pose proof (process_files_spec fs folder_path 401 1) as H.
  rewrite Hrows in H. destruct H as (Hfst & _ & Hall).
  assert (Hin : i ∈ map fst rows).
  { rewrite Hfst. apply list_elem_of_filter. split; [rewrite Hfile; eauto|].
    apply elem_of_seq. lia. }
  change (map fst rows) with (fst <$> rows) in Hin.
  apply list_elem_of_fmap in Hin as ([i' items] & Heq & Hin). cbn in Heq. subst i'.
  destruct (Hall i items Hin) as (_ & text' & Hfile' & -> & _).
  rewrite Hfile in Hfile'. now injection Hfile' as <-.
Qed.

End SheetFacts.

End MoreSplitterFacts.

(** ** Encoding the images of a call *)

Section MoreEncoderFacts.
Context (pil : Imaging).

Lemma resize_images_length (r : Q) (encoded_images resized : list string) :
  resize_images pil r encoded_images = Ret resized ->
  length resized = length encoded_images.
Proof.
  revert resized. induction encoded_images as [|e rest IH]; intros resized.
  - cbn. intros H. now injection H as <-.
  - cbn [resize_images].
    destruct (process_and_encode_image pil (open_encoded pil e) r); try discriminate.
    destruct (resize_images pil r rest) as [xs| |]; try discriminate.
    intros H. injection H as <-. cbn. now rewrite (IH xs).
Qed.

Lemma resize_images_error (r : Q) (encoded_images : list string) (msg : string) :
  resize_images pil r encoded_images = Exc msg ->
  msg = "Unable to reduce image size within 5 attempts".
Proof.
  induction encoded_images as [|e rest IH]; [discriminate|].
  cbn [resize_images].
  destruct (process_and_encode_image pil (open_encoded pil e) r) as [x|m|] eqn:He.
  - destruct (resize_images pil r rest) as [xs|m|]; try discriminate.
    intros H. injection H as <-. now apply IH.
  - intros H. injection H as <-. now apply reencode_error in He.
  - discriminate.
Qed.

(** Re-encoding is one for one and all or nothing: it succeeds exactly
    when the encoder succeeds on every image, and then returns the new
    texts in the order of the old ones, as many as there were; when it
    fails, it fails with the error of the encoder. *)
Theorem resize_images_all (r : Q) (encoded_images : list string) :
  (forall resized : list string,
      resize_images pil r encoded_images = Ret resized
      <-> Forall2 (fun old new =>
                     process_and_encode_image pil (open_encoded pil old) r = Ret new)
            encoded_images resized)
  /\ (forall resized : list string,
        resize_images pil r encoded_images = Ret resized ->
        length resized = length encoded_images)
  /\ (forall msg : string,
        resize_images pil r encoded_images = Exc msg ->
        msg = "Unable to reduce image size within 5 attempts"
        /\ exists old, old ∈ encoded_images
             /\ process_and_encode_image pil (open_encoded pil old) r = Exc msg).
Proof.
  assert (Hiff : forall resized,
            resize_images pil r encoded_images = Ret resized
            <-> Forall2 (fun old new =>
                  process_and_encode_image pil (open_encoded pil old) r = Ret new)
                  encoded_images resized).
  { induction encoded_images as [|e rest IH]; intros resized.
    - cbn. split.
      + intros H. injection H as <-. constructor.
      + intros H. now inversion H.
    - cbn [resize_images].
      destruct (process_and_encode_image pil (open_encoded pil e) r) as [x|m|] eqn:He.
      + destruct (resize_images pil r rest) as [xs|m|] eqn:Hrest.
        * split.
          -- intros H. injection H as <-. constructor; [exact He|]. now apply IH.
          -- intros H. inversion H as [|? y ? ys Hy Hys]; subst.
             rewrite He in Hy. injection Hy as <-.
             apply IH in Hys. now injection Hys as <-.
        * split; [discriminate|].
          intros H. inversion H as [|? y ? ys Hy Hys]; subst.
          apply IH in Hys. discriminate.
        * split; [discriminate|].
          intros H. inversion H as [|? y ? ys Hy Hys]; subst.
          apply IH in Hys. discriminate.
      + split; [discriminate|].
        intros H. inversion H as [|? y ? ys Hy Hys]; subst. congruence.
      + split; [discriminate|].
        intros H. inversion H as [|? y ? ys Hy Hys]; subst. congruence. }
  split; [exact Hiff|]. split.
  - intros resized H. apply Hiff in H. symmetry. exact (Forall2_length _ _ _ H).
  - clear Hiff. induction encoded_images as [|e rest IH]; intros msg; [discriminate|].
    cbn [resize_images].
    destruct (process_and_encode_image pil (open_encoded pil e) r) as [x|m|] eqn:He.
    + destruct (resize_images pil r rest) as [xs|m|] eqn:Hrest; try discriminate.
      intros H. injection H as <-.
      destruct (IH m eq_refl) as (Hm & old & Hold & Hfail).
      split; [exact Hm|]. exists old. split; [now right|exact Hfail].
    + intros H. injection H as <-. split.
      * now apply reencode_error in He.
      * exists e. split; [now left|exact He].
    + discriminate.
Qed.

(** [encode_images_from_paths] returns exactly when every path opens
    and the encoder succeeds on every image that is more than 150 pixels
    wide and more than 150 pixels high; it then returns the encodings of
    these images, at factor 0.9, in the order of the paths.  The other
    images are left out without an error, so there are at most as many
    texts as paths. *)
Theorem encode_images_from_paths_filter (image_paths images : list string) :
  (encode_images_from_paths pil image_paths = Ret images
   <-> exists imgs : list (Image pil),
         Forall2 (fun image_path img => open_path pil image_path = Some img)
           image_paths imgs
         /\ Forall2 (fun img encoded_image =>
                       process_and_encode_image pil img (9 # 10) = Ret encoded_image)
              (filter (fun img => large_enough pil img = true) imgs) images)
  /\ (encode_images_from_paths pil image_paths = Ret images ->
      length images <= length image_paths).
Proof.
  assert (Hiff : forall images,
    encode_images_from_paths pil image_paths = Ret images
    <-> exists imgs : list (Image pil),
          Forall2 (fun image_path img => open_path pil image_path = Some img)
            image_paths imgs
          /\ Forall2 (fun img encoded_image =>
                        process_and_encode_image pil img (9 # 10) = Ret encoded_image)
               (filter (fun img => large_enough pil img = true) imgs) images).
  { clear images. induction image_paths as [|p rest IH]; intros images.
    - cbn. split.
      + intros H. injection H as <-. exists []. split; constructor.
      + intros (imgs & Hopen & Henc). inversion Hopen; subst.
        rewrite filter_nil in Henc. now inversion Henc.
    - cbn [encode_images_from_paths].
      destruct (open_path pil p) as [img|] eqn:Hp.
      2:{ split; [discriminate|]. intros (imgs & Hopen & _).
          inversion Hopen; subst. congruence. }
      assert (Hlarge : ((150 <? (size pil img).1) && (150 <? (size pil img).2))%Z
                       = large_enough pil img) by reflexivity.
      destruct (size pil img) as [width height] eqn:Hsize. cbn [fst snd] in Hlarge.
      rewrite Hlarge. destruct (large_enough pil img) eqn:Hl.
      + destruct (process_and_encode_image pil img (9 # 10)) as [x|m|] eqn:He.
        * destruct (encode_images_from_paths pil rest) as [xs|m|] eqn:Hrest.
          -- split.
             ++ intros H. injection H as <-.
                destruct (proj1 (IH xs) eq_refl) as (imgs & Hopen & Henc).
                exists (img :: imgs). split; [now constructor|].
                rewrite filter_cons_True by exact Hl. now constructor.
             ++ intros (imgs & Hopen & Henc).
                inversion Hopen as [|? img' ? imgs' Hp' Hopen']; subst.
                rewrite Hp in Hp'. injection Hp' as <-.
                rewrite filter_cons_True in Henc by exact Hl.
                inversion Henc as [|? y ? ys Hy Hys]; subst.
                rewrite He in Hy. injection Hy as <-.
                assert (Hxs : Ret xs = Ret ys) by (apply IH; eauto).
                now injection Hxs as <-.
          -- split; [discriminate|]. intros (imgs & Hopen & Henc).
             inversion Hopen as [|? img' ? imgs' Hp' Hopen']; subst.
             rewrite Hp in Hp'. injection Hp' as <-.
             rewrite filter_cons_True in Henc by exact Hl.
             inversion Henc as [|? y ? ys Hy Hys]; subst.
             assert (Hxs : Exc m = Ret ys) by (apply IH; eauto). discriminate.
          -- split; [discriminate|]. intros (imgs & Hopen & Henc).
             inversion Hopen as [|? img' ? imgs' Hp' Hopen']; subst.
             rewrite Hp in Hp'. injection Hp' as <-.
             rewrite filter_cons_True in Henc by exact Hl.
             inversion Henc as [|? y ? ys Hy Hys]; subst.
             assert (Hxs : Exit = Ret ys) by (apply IH; eauto). discriminate.
        * split; [discriminate|]. intros (imgs & Hopen & Henc).
          inversion Hopen as [|? img' ? imgs' Hp' Hopen']; subst.
          rewrite Hp in Hp'. injection Hp' as <-.
          rewrite filter_cons_True in Henc by exact Hl.
          inversion Henc as [|? y ? ys Hy Hys]; subst. congruence.
        * split; [discriminate|]. intros (imgs & Hopen & Henc).
          inversion Hopen as [|? img' ? imgs' Hp' Hopen']; subst.
          rewrite Hp in Hp'. injection Hp' as <-.
          rewrite filter_cons_True in Henc by exact Hl.
          inversion Henc as [|? y ? ys Hy Hys]; subst. congruence.
      + rewrite IH. split.
        * intros (imgs & Hopen & Henc). exists (img :: imgs).
          split; [now constructor|].
          rewrite filter_cons_False by congruence. exact Henc.
        * intros (imgs & Hopen & Henc).
          inversion Hopen as [|? img' ? imgs' Hp' Hopen']; subst.
          rewrite Hp in Hp'. injection Hp' as <-.
          rewrite filter_cons_False in Henc by congruence. eauto. }
  split; [apply Hiff|].
  intros H. apply Hiff in H as (imgs & Hopen & Henc).
  rewrite <- (Forall2_length _ _ _ Henc), (Forall2_length _ _ _ Hopen).
  apply length_filter.
Qed.

End MoreEncoderFacts.

Lemma resize_images_all_witness :
  resize_images Sample.imaging (7 # 10) [Sample.picture; Sample.picture]
  = Ret [Sample.picture; Sample.picture]
  /\ length [Sample.picture; Sample.picture] = 2.
Proof.
  assert (H : resize_images Sample.imaging (7 # 10) [Sample.picture; Sample.picture]
              = Ret [Sample.picture; Sample.picture]) by (vm_compute; reflexivity).
  split; [exact H|].
  destruct (resize_images_all Sample.imaging (7 # 10) [Sample.picture; Sample.picture])
    as (_ & Hlen & _).
  exact (Hlen _ H).
Defined.

Lemma encode_images_from_paths_filter_witness :
  encode_images_from_paths Sample.imaging ["q401_image/1.png"] = Ret [Sample.picture]
  /\ length [Sample.picture] <= length ["q401_image/1.png"].
Proof.
  assert (H : encode_images_from_paths Sample.imaging ["q401_image/1.png"]
              = Ret [Sample.picture]) by (vm_compute; reflexivity).
  split; [exact H|].
  destruct (encode_images_from_paths_filter Sample.imaging ["q401_image/1.png"]
              [Sample.picture]) as [_ Hlen].
  exact (Hlen H).
Defined.

(** ** The requests of a call *)

Section MoreClientFacts.
Context (pil : Imaging) {Time : Type}.

Lemma send_attempts_app (tr1 tr2 : list (Event Time)) :
  send_attempts (tr1 ++ tr2) = send_attempts tr1 ++ send_attempts tr2.
Proof. unfold send_attempts. apply omap_app. Qed.

(** The facts kept about a trace that starts at a given attempt. *)
Lemma trace_after (evs tr : list (Event Time)) (attempt n : nat) :
  send_attempts evs = [attempt] -> sends evs = 1 ->
  Forall (image_count_is n) evs -> Forall (resized_with (9 # 10)) evs ->
  send_attempts tr = seq (S attempt) (sends tr)
  /\ Forall (image_count_is n) tr /\ Forall (resized_with (9 # 10)) tr ->
  send_attempts (evs ++ tr) = seq attempt (sends (evs ++ tr))
  /\ Forall (image_count_is n) (evs ++ tr)
  /\ Forall (resized_with (9 # 10)) (evs ++ tr).
Proof.
  intros Ha Hone Hn Hf (Hseq & Hn' & Hf').
  rewrite send_attempts_app, sends_app, Ha, Hone, Hseq.
  split; [reflexivity|]. split; apply Forall_app; split; assumption.
Qed.

Lemma trace_last (attempt n : nat) (prompt_text : string)
    (encoded_images : list string) (temperature : Temperature) :
  length encoded_images = n ->
  let tr : list (Event Time) := [Send attempt prompt_text encoded_images temperature] in
  send_attempts tr = seq attempt (sends tr)
  /\ Forall (image_count_is n) tr /\ Forall (resized_with (9 # 10)) tr.
Proof.
  intros Hn. cbn zeta. split; [reflexivity|].
  split; repeat constructor. exact Hn.
Qed.

(** One more request in front of a trace that has the facts. *)
Ltac trace_step Htr :=
  rewrite after_fst;
  apply trace_after;
  [reflexivity | reflexivity
  | repeat constructor; cbn; congruence
  | repeat constructor
  | exact Htr ].

Lemma gpt4_attempts_trace provider prompt_text temperature
    (remaining attempt n : nat) (encoded_images : list string) :
  length encoded_images = n ->
  let r := gpt4_attempts pil (Time := Time) provider prompt_text temperature
             attempt remaining encoded_images in
  (send_attempts r.1 = seq attempt (sends r.1)
   /\ Forall (image_count_is n) r.1 /\ Forall (resized_with (9 # 10)) r.1)
  /\ forall msg, r.2 = Exc msg -> msg = "Unable to reduce image size within 5 attempts".
Proof.
  revert attempt encoded_images.
  induction remaining as [|remaining IH]; intros attempt encoded_images Hn.
  - cbn. split; [repeat split; constructor|discriminate].
  - cbn zeta in *. cbn [gpt4_attempts].
    destruct (provider attempt prompt_text encoded_images temperature)
      as [choice|e] eqn:Hp.
    + destruct (startswith (message_content choice) "I'm sorry, but").
      * destruct (IH (S attempt) encoded_images Hn) as [Htr Hexc].
        split; [trace_step Htr|exact Hexc].
      * split; [now apply trace_last|discriminate].
    + destruct (contains "image_parse_error" (lower e) && (attempt <? max_attempts - 1)).
      * destruct (resize_images pil (9 # 10) encoded_images) as [resized|msg|] eqn:Hr.
        -- pose proof (resize_images_length pil _ _ _ Hr) as Hlen.
           destruct (IH (S attempt) resized ltac:(congruence)) as [Htr Hexc].
           split; [trace_step Htr|exact Hexc].
        -- split; [now apply trace_last|].
           intros m H. injection H as <-. now apply resize_images_error in Hr.
        -- split; [now apply trace_last|discriminate].
      * destruct (IH (S attempt) encoded_images Hn) as [Htr Hexc].
        split; [trace_step Htr|exact Hexc].
Qed.

Lemma gemini_attempts_trace provider prompt_text temperature
    (remaining attempt n : nat) (encoded_images : list string) :
  length encoded_images = n ->
  let r := gemini_attempts pil (Time := Time) provider prompt_text temperature
             attempt remaining encoded_images in
  (send_attempts r.1 = seq attempt (sends r.1)
   /\ Forall (image_count_is n) r.1 /\ Forall (resized_with (9 # 10)) r.1)
  /\ exists result, r.2 = Ret result.
Proof.
  revert attempt encoded_images.
  induction remaining as [|remaining IH]; intros attempt encoded_images Hn.
  - cbn. split; [repeat split; constructor|eauto].
  - cbn zeta in *. cbn [gemini_attempts].
    destruct (provider attempt prompt_text encoded_images temperature)
      as [content|e] eqn:Hp.
    + destruct (too_short content).
      * destruct (resize_images pil (9 # 10) encoded_images) as [resized|msg|] eqn:Hr.
        -- pose proof (resize_images_length pil _ _ _ Hr) as Hlen.
           destruct (IH (S attempt) resized ltac:(congruence)) as [Htr Hret].
           split; [trace_step Htr|exact Hret].
        -- rewrite contains_SAFETY_lower. cbn [andb].
           destruct (IH (S attempt) encoded_images Hn) as [Htr Hret].
           split; [trace_step Htr|exact Hret].
        -- now apply resize_images_no_exit in Hr.
      * split; [now apply trace_last|eauto].
    + rewrite contains_SAFETY_lower. cbn [andb].
      destruct (IH (S attempt) encoded_images Hn) as [Htr Hret].
      split; [trace_step Htr|exact Hret].
Qed.

Lemma claude_attempts_trace provider (df : list (Row Time)) (file : string)
    prompt_text temperature (remaining attempt n : nat) (encoded_images : list string) :
  length encoded_images = n ->
  let r := claude_attempts pil provider df file prompt_text temperature
             attempt remaining encoded_images in
  (send_attempts r.1 = seq attempt (sends r.1)
   /\ Forall (image_count_is n) r.1 /\ Forall (resized_with (9 # 10)) r.1)
  /\ forall msg, r.2 = Exc msg -> msg = "Unable to reduce image size within 5 attempts".
Proof.
  revert attempt encoded_images.
  induction remaining as [|remaining IH]; intros attempt encoded_images Hn.
  - cbn. split; [repeat split; constructor|discriminate].
  - cbn zeta in *. cbn [claude_attempts].
    destruct (provider attempt prompt_text encoded_images temperature)
      as [text|e] eqn:Hp.
    + destruct (startswith text "I'm sorry, but").
      * destruct (IH (S attempt) encoded_images Hn) as [Htr Hexc].
        split; [trace_step Htr|exact Hexc].
      * split; [now apply trace_last|discriminate].
    + destruct (contains "exceeded" (lower e)).
      * cbn [fst snd]. split; [|discriminate].
        split; [reflexivity|]. split; repeat constructor. exact Hn.
      * destruct (contains "image_parse_error" (lower e) && (attempt <? max_attempts - 1)).
        -- destruct (resize_images pil (9 # 10) encoded_images)
             as [resized|msg|] eqn:Hr.
           ++ pose proof (resize_images_length pil _ _ _ Hr) as Hlen.
              destruct (IH (S attempt) resized ltac:(congruence)) as [Htr Hexc].
              split; [trace_step Htr|exact Hexc].
           ++ split; [now apply trace_last|].
              intros m H. injection H as <-. now apply resize_images_error in Hr.
           ++ split; [now apply trace_last|discriminate].
        -- destruct (IH (S attempt) encoded_images Hn) as [Htr Hexc].
           split; [trace_step Htr|exact Hexc].
Qed.

Lemma sends_saved (tr : list (Event Time)) (df : list (Row Time)) (file : string) :
  sends (tr ++ [SavedTimes df file]) = sends tr.
Proof. rewrite sends_app. change (sends [SavedTimes df file]) with 0. lia. Qed.

(** The requests of a call are numbered 0, 1, 2, ... without a gap; there
    is at least one and there are at most ten; and every request, and
    every re-encoding, handles as many images as the call was given. *)
Theorem client_requests_numbered :
  (forall provider prompt_text encoded_images temperature,
      let r := analyze_images_with_gpt4_vision pil (Time := Time) provider
                 prompt_text encoded_images temperature in
      send_attempts r.1 = seq 0 (sends r.1)
      /\ 1 <= sends r.1 <= max_attempts
      /\ Forall (image_count_is (length encoded_images)) r.1)
  /\ (forall provider prompt_text encoded_images temperature,
        let r := analyze_images_with_gemini_vision pil (Time := Time) provider
                   prompt_text encoded_images temperature in
        send_attempts r.1 = seq 0 (sends r.1)
        /\ 1 <= sends r.1 <= max_attempts
        /\ Forall (image_count_is (length encoded_images)) r.1)
  /\ (forall provider (df : list (Row Time)) file prompt_text encoded_images temperature,
        let r := analyze_images_with_claude_vision pil provider df file
                   prompt_text encoded_images temperature in
        send_attempts r.1 = seq 0 (sends r.1)
        /\ 1 <= sends r.1 <= max_attempts
        /\ Forall (image_count_is (length encoded_images)) r.1).
Proof.
  split; [|split].
  - intros provider prompt_text encoded_images temperature. cbn zeta.
    unfold analyze_images_with_gpt4_vision.
    pose proof (gpt4_attempts_trace provider prompt_text temperature max_attempts 0
                  _ encoded_images eq_refl) as [(H1 & H2 & _) _].
    pose proof (gpt4_attempts_outcome pil (Time := Time) provider prompt_text temperature
                  max_attempts 0 encoded_images eq_refl) as (_ & _ & H).
    cbn zeta in *. split; [exact H1|]. split; [|exact H2].
    destruct (gpt4_attempts _ _ _ _ _ _ _) as [tr [[c|]|msg|]]; cbn [fst snd] in *;
      unfold max_attempts in *; lia.
  - intros provider prompt_text encoded_images temperature. cbn zeta.
    unfold analyze_images_with_gemini_vision.
    pose proof (gemini_attempts_trace provider prompt_text temperature max_attempts 0
                  _ encoded_images eq_refl) as [(H1 & H2 & _) _].
    pose proof (gemini_attempts_outcome pil (Time := Time) provider prompt_text temperature
                  max_attempts 0 encoded_images eq_refl) as (_ & _ & H).
    cbn zeta in *. split; [exact H1|]. split; [|exact H2].
    destruct (gemini_attempts _ _ _ _ _ _ _) as [tr [[c|]|msg|]]; cbn [fst snd] in *;
      unfold max_attempts in *; lia.
  - intros provider df file prompt_text encoded_images temperature. cbn zeta.
    unfold analyze_images_with_claude_vision.
    pose proof (claude_attempts_trace provider df file prompt_text temperature
                  max_attempts 0 _ encoded_images eq_refl) as [(H1 & H2 & _) _].
    pose proof (claude_attempts_outcome pil provider df file prompt_text temperature
                  max_attempts 0 encoded_images eq_refl) as (_ & H).
    cbn zeta in *. split; [exact H1|]. split; [|exact H2].
    destruct (claude_attempts _ _ _ _ _ _ _ _ _) as [tr [[c|]|msg|]];
      cbn [fst snd] in *; unfold max_attempts in *; try lia.
    destruct H as (tr' & -> & _ & H). rewrite sends_saved. lia.
Qed.

(** The factor 0.7 is never used: in all three clients every re-encoding
    is made with the factor 0.9. *)
Theorem client_resize_factor :
  (forall provider prompt_text encoded_images temperature,
      Forall (resized_with (9 # 10))
        (analyze_images_with_gpt4_vision pil (Time := Time) provider
           prompt_text encoded_images temperature).1)
  /\ (forall provider prompt_text encoded_images temperature,
        Forall (resized_with (9 # 10))
          (analyze_images_with_gemini_vision pil (Time := Time) provider
             prompt_text encoded_images temperature).1)
  /\ (forall provider (df : list (Row Time)) file prompt_text encoded_images temperature,
        Forall (resized_with (9 # 10))
          (analyze_images_with_claude_vision pil provider df file
             prompt_text encoded_images temperature).1).
Proof.
  split; [|split].
  - intros provider prompt_text encoded_images temperature.
    pose proof (gpt4_attempts_trace provider prompt_text temperature max_attempts 0
                  _ encoded_images eq_refl) as [(_ & _ & H) _].
    exact H.
  - intros provider prompt_text encoded_images temperature.
    pose proof (gemini_attempts_trace provider prompt_text temperature max_attempts 0
                  _ encoded_images eq_refl) as [(_ & _ & H) _].
    exact H.
  - intros provider df file prompt_text encoded_images temperature.
    pose proof (claude_attempts_trace provider df file prompt_text temperature
                  max_attempts 0 _ encoded_images eq_refl) as [(_ & _ & H) _].
    exact H.
Qed.

(** The Gemini client always returns: no exception leaves the call and
    the process is never ended.  The only exception that leaves the
    GPT-4o and the Claude client is the error of the encoder. *)
Theorem client_exceptions :
  (forall provider prompt_text encoded_images temperature,
      match (analyze_images_with_gemini_vision pil (Time := Time) provider
               prompt_text encoded_images temperature).2 with
      | Ret _ => True
      | _ => False
      end)
  /\ (forall provider prompt_text encoded_images temperature,
        match (analyze_images_with_gpt4_vision pil (Time := Time) provider
                 prompt_text encoded_images temperature).2 with
        | Exc msg => msg = "Unable to reduce image size within 5 attempts"
        | Exit => False
        | Ret _ => True
        end)
  /\ (forall provider (df : list (Row Time)) file prompt_text encoded_images temperature,
        match (analyze_images_with_claude_vision pil provider df file
                 prompt_text encoded_images temperature).2 with
        | Exc msg => msg = "Unable to reduce image size within 5 attempts"
        | _ => True
        end).
Proof.
  split; [|split].
  - intros provider prompt_text encoded_images temperature.
    pose proof (gemini_attempts_trace provider prompt_text temperature max_attempts 0
                  _ encoded_images eq_refl) as [_ [result H]].
    cbn zeta in H. unfold analyze_images_with_gemini_vision. now rewrite H.
  - intros provider prompt_text encoded_images temperature.
    pose proof (gpt4_attempts_trace provider prompt_text temperature max_attempts 0
                  _ encoded_images eq_refl) as [_ H].
    pose proof (gpt4_attempts_outcome pil (Time := Time) provider prompt_text temperature
                  max_attempts 0 encoded_images eq_refl) as (_ & _ & Hout).
    cbn zeta in *. unfold analyze_images_with_gpt4_vision.
    destruct (gpt4_attempts _ _ _ _ _ _ _).2 as [res|msg|]; [exact I| |exact Hout].
    now apply H.
  - intros provider df file prompt_text encoded_images temperature.
    pose proof (claude_attempts_trace provider df file prompt_text temperature
                  max_attempts 0 _ encoded_images eq_refl) as [_ H].
    cbn zeta in *. unfold analyze_images_with_claude_vision.
    destruct (claude_attempts _ _ _ _ _ _ _ _ _).2 as [res|msg|]; [exact I| |exact I].
    now apply H.
Qed.

(** What is returned was answered to the last request. *)
Lemma after_returned {A : Type} (P : Event Time -> A -> Prop)
    (evs : list (Event Time)) (r : run (Time := Time) (option A)) :
  match r.2 with
  | Ret (Some x) => exists ev, last r.1 = Some ev /\ P ev x
  | _ => True
  end ->
  match (after evs r).2 with
  | Ret (Some x) => exists ev, last (after evs r).1 = Some ev /\ P ev x
  | _ => True
  end.
Proof.
  rewrite after_fst, after_snd. destruct r.2 as [[x|]|msg|]; try exact id.
  intros (ev & Hlast & Hev). exists ev. split; [|exact Hev].
  now rewrite last_app, Hlast.
Qed.

(** A text that a client returns is, unchanged, the response to the last
    request of the call. *)
Theorem client_returns_last_response :
  (forall provider prompt_text encoded_images temperature,
      let r := analyze_images_with_gpt4_vision pil (Time := Time) provider
                 prompt_text encoded_images temperature in
      match r.2 with
      | Ret (Some choice) =>
          exists ev, last r.1 = Some ev
            /\ exists attempt images,
                 ev = Send attempt prompt_text images temperature
                 /\ provider attempt prompt_text images temperature = Response choice
      | _ => True
      end)
  /\ (forall provider prompt_text encoded_images temperature,
        let r := analyze_images_with_gemini_vision pil (Time := Time) provider
                   prompt_text encoded_images temperature in
        match r.2 with
        | Ret (Some content) =>
            exists ev, last r.1 = Some ev
              /\ exists attempt images,
                   ev = Send attempt prompt_text images temperature
                   /\ provider attempt prompt_text images temperature = Response content
        | _ => True
        end)
  /\ (forall provider (df : list (Row Time)) file prompt_text encoded_images temperature,
        let r := analyze_images_with_claude_vision pil provider df file
                   prompt_text encoded_images temperature in
        match r.2 with
        | Ret (Some text) =>
            exists ev, last r.1 = Some ev
              /\ exists attempt images,
                   ev = Send attempt prompt_text images temperature
                   /\ provider attempt prompt_text images temperature = Response text
        | _ => True
        end).
Proof.
  split; [|split].
  - intros provider prompt_text encoded_images temperature. cbn zeta.
    unfold analyze_images_with_gpt4_vision. generalize 0 as attempt.
    generalize max_attempts as remaining. intros remaining. revert encoded_images.
    induction remaining as [|remaining IH]; intros encoded_images attempt; [exact I|].
    cbn [gpt4_attempts].
    destruct (provider attempt prompt_text encoded_images temperature)
      as [choice|e] eqn:Hp.
    + destruct (startswith (message_content choice) "I'm sorry, but").
      * apply (after_returned
                 (fun ev x => exists a images,
                    ev = Send a prompt_text images temperature
                    /\ provider a prompt_text images temperature = Response x)), IH.
      * cbn [fst snd]. eexists. split; [reflexivity|]. eauto.
    + destruct (contains "image_parse_error" (lower e) && (attempt <? max_attempts - 1)).
      * destruct (resize_images pil (9 # 10) encoded_images); try exact I.
        apply (after_returned
                 (fun ev x => exists a images,
                    ev = Send a prompt_text images temperature
                    /\ provider a prompt_text images temperature = Response x)), IH.
      * apply (after_returned
                 (fun ev x => exists a images,
                    ev = Send a prompt_text images temperature
                    /\ provider a prompt_text images temperature = Response x)), IH.
  - intros provider prompt_text encoded_images temperature. cbn zeta.
    unfold analyze_images_with_gemini_vision. generalize 0 as attempt.
    generalize max_attempts as remaining. intros remaining. revert encoded_images.
    induction remaining as [|remaining IH]; intros encoded_images attempt; [exact I|].
    cbn [gemini_attempts].
    destruct (provider attempt prompt_text encoded_images temperature)
      as [content|e] eqn:Hp.
    + destruct (too_short content).
      * destruct (resize_images pil (9 # 10) encoded_images); try exact I.
        -- apply (after_returned
                    (fun ev x => exists a images,
                       ev = Send a prompt_text images temperature
                       /\ provider a prompt_text images temperature = Response x)), IH.
        -- rewrite contains_SAFETY_lower. cbn [andb].
           apply (after_returned
                    (fun ev x => exists a images,
                       ev = Send a prompt_text images temperature
                       /\ provider a prompt_text images temperature = Response x)), IH.
      * cbn [fst snd]. eexists. split; [reflexivity|]. eauto.
    + rewrite contains_SAFETY_lower. cbn [andb].
      apply (after_returned
               (fun ev x => exists a images,
                  ev = Send a prompt_text images temperature
                  /\ provider a prompt_text images temperature = Response x)), IH.
  - intros provider df file prompt_text encoded_images temperature. cbn zeta.
    unfold analyze_images_with_claude_vision. generalize 0 as attempt.
    generalize max_attempts as remaining. intros remaining. revert encoded_images.
    induction remaining as [|remaining IH]; intros encoded_images attempt; [exact I|].
    cbn [claude_attempts].
    destruct (provider attempt prompt_text encoded_images temperature)
      as [text|e] eqn:Hp.
    + destruct (startswith text "I'm sorry, but").
      * apply (after_returned
                 (fun ev x => exists a images,
                    ev = Send a prompt_text images temperature
                    /\ provider a prompt_text images temperature = Response x)), IH.
      * cbn [fst snd]. eexists. split; [reflexivity|]. eauto.
    + destruct (contains "exceeded" (lower e)); [exact I|].
      destruct (contains "image_parse_error" (lower e) && (attempt <? max_attempts - 1)).
      * destruct (resize_images pil (9 # 10) encoded_images); try exact I.
        apply (after_returned
                 (fun ev x => exists a images,
                    ev = Send a prompt_text images temperature
                    /\ provider a prompt_text images temperature = Response x)), IH.
      * apply (after_returned
                 (fun ev x => exists a images,
                    ev = Send a prompt_text images temperature
                    /\ provider a prompt_text images temperature = Response x)), IH.
Qed.

End MoreClientFacts.

(** ** What a run of the main loop changes *)

Import Changes.

Section MoreRunnerFacts.
Context (pil : Imaging) {Time : Type}.
Context (cases : list Case).
Context (prompt_template : string -> string -> string).
Context (provider : Temperature -> nat ->
                    nat -> string -> list string -> Temperature -> Outcome Choice).
Context (clock : Temperature -> nat -> Time).

(** A relation that holds from each world to the next holds across a loop. *)
Lemma for_each_invariant {A : Type} (R : World Time -> World Time -> Prop)
    (body : World Time -> A -> World Time * py unit) (l : list A) :
  (forall w, R w w) -> (forall a b c, R a b -> R b c -> R a c) ->
  (forall w x, x ∈ l -> R w (body w x).1) ->
  forall w, R w (for_each body w l).1.
Proof.
  intros Hrefl Htrans. induction l as [|x l IH]; intros Hbody w; [apply Hrefl|].
  cbn [for_each]. pose proof (Hbody w x ltac:(left)) as Hx.
  destruct (body w x) as [w' [[]|msg|]]; cbn [fst] in *; try exact Hx.
  apply (Htrans _ w'); [exact Hx|]. apply IH. intros w0 y Hy. apply Hbody. now right.
Qed.

(** The same for the three loops of the script. *)
Lemma loops_invariant (R : World Time -> World Time -> Prop) :
  (forall w, R w w) -> (forall a b c, R a b -> R b c -> R a c) ->
  (forall temperature index row w,
      temperature ∈ temperatures -> row ∈ cases ->
      R w (run_case pil prompt_template provider clock temperature 1
             (create_result_folder base_result_folder temperature 1) w (index, row)).1) ->
  forall w, R w (for_each (run_temperature pil cases prompt_template provider clock)
                   w temperatures).1.
Proof.
  intros Hrefl Htrans Hcase.
  apply for_each_invariant; [exact Hrefl|exact Htrans|].
  intros w temperature Ht. unfold run_temperature.
  apply for_each_invariant; [exact Hrefl|exact Htrans|].
  intros w1 try_number Hy.
  assert (try_number = 1) as ->.
  { cbn in Hy. now apply list_elem_of_singleton in Hy. }
  unfold run_try. apply for_each_invariant; [exact Hrefl|exact Htrans|].
  intros w2 [index row] Hrow. apply Hcase; [exact Ht|].
  now apply in_iterrows in Hrow.
Qed.

Lemma only_adds_refl (w : World Time) : only_adds w w.
Proof. repeat split; auto. Qed.

Lemma only_adds_trans (a b c : World Time) :
  only_adds a b -> only_adds b c -> only_adds a c.
Proof.
  intros (F1 & L1 & E1) (F2 & L2 & E2). repeat split.
  - auto.
  - etransitivity; eassumption.
  - etransitivity; eassumption.
Qed.

Lemma run_case_only_adds temperature try_number result_folder (w : World Time)
    (indexed_row : nat * Case) :
  only_adds w (run_case pil prompt_template provider clock temperature try_number
                 result_folder w indexed_row).1.
Proof.
  destruct indexed_row as [index row]. unfold run_case.
  destruct (files w !! result_file_path result_folder row) as [text|] eqn:Hfile.
  { cbn. repeat split; auto. now apply prefix_app_r. }
  destruct (encode_images_from_paths pil _) as [encoded_images|msg|];
    [|apply only_adds_refl..].
  destruct (analyze_images_with_gpt4_vision _ _ _ _ _) as [tr [[choice|]|msg|]];
    unfold only_adds;
    cbn [fst files log_file events write_file log_message set_df add_events].
  - repeat split; auto; [|now apply prefix_app_r].
    intros path text Hpath. rewrite lookup_insert_ne; [exact Hpath|congruence].
  - repeat split; auto; now apply prefix_app_r.
  - repeat split; auto. now apply prefix_app_r.
  - repeat split; auto. now apply prefix_app_r.
Qed.

(** A run never changes or removes a result file that exists, and only
    appends to the log and to the trace, however it ends. *)
Theorem main_only_adds (w : World Time) :
  let w' := (main pil cases prompt_template provider clock w).1 in
  (forall path text, files w !! path = Some text -> files w' !! path = Some text)
  /\ log_file w `prefix_of` log_file w'
  /\ events w `prefix_of` events w'.
Proof.
  cbn zeta. change (only_adds w (main pil cases prompt_template provider clock w).1).
  unfold main.
  pose proof (loops_invariant only_adds only_adds_refl only_adds_trans
                (fun t i r w0 _ _ => run_case_only_adds t 1 _ w0 (i, r)) w) as H.
  destruct (for_each _ w temperatures) as [w' [[]|msg|]]; cbn [fst] in *; try exact H.
  apply (only_adds_trans _ w'); [exact H|].
  cbn. repeat split; auto. now apply prefix_app_r.
Qed.

Lemma upsert_keys (df : list (Row Time)) n t y (x : Time) k :
  k ∈ map key df -> k ∈ map key (upsert df n t y x).
Proof.
  intros Hk. unfold upsert. destruct (existsb (mask n t y) df).
  - now rewrite keys_set_time.
  - rewrite map_app. apply elem_of_app. now left.
Qed.

Lemma table_grows_refl (w : World Time) : table_grows w w.
Proof. split; auto. Qed.

Lemma table_grows_trans (a b c : World Time) :
  table_grows a b -> table_grows b c -> table_grows a c.
Proof. intros [N1 K1] [N2 K2]. split; auto. Qed.

Lemma run_case_table_grows temperature try_number result_folder (w : World Time)
    (indexed_row : nat * Case) :
  table_grows w (run_case pil prompt_template provider clock temperature try_number
                   result_folder w indexed_row).1.
Proof.
  destruct indexed_row as [index row]. unfold run_case.
  destruct (files w !! result_file_path result_folder row) as [text|];
    [split; auto|].
  destruct (encode_images_from_paths pil _) as [encoded_images|msg|];
    [|apply table_grows_refl..].
  destruct (analyze_images_with_gpt4_vision _ _ _ _ _) as [tr [[choice|]|msg|]];
    unfold table_grows;
    cbn [fst df_execution_times write_file log_message set_df add_events];
    (split; [try apply upsert_NoDup|intros k; try apply upsert_keys]); auto.
Qed.

(** A run keeps every key of the timing table, and keeps the keys
    distinct when they were. *)
Theorem main_timing_table (w : World Time) :
  let w' := (main pil cases prompt_template provider clock w).1 in
  (NoDup (map key (df_execution_times w)) -> NoDup (map key (df_execution_times w')))
  /\ (forall k, k ∈ map key (df_execution_times w) ->
                k ∈ map key (df_execution_times w')).
Proof.
  cbn zeta. change (table_grows w (main pil cases prompt_template provider clock w).1).
  unfold main.
  pose proof (loops_invariant table_grows table_grows_refl table_grows_trans
                (fun t i r w0 _ _ => run_case_table_grows t 1 _ w0 (i, r)) w) as H.
  destruct (for_each _ w temperatures) as [w' [[]|msg|]]; cbn [fst] in *; exact H.
Qed.

(** The paths of the result files of the case list. *)
Lemma writes_within_refl (allowed : string -> Prop) (w : World Time) :
  writes_within allowed w w.
Proof. intros path Hnone [text Hsome]. congruence. Qed.

Lemma writes_within_trans (allowed : string -> Prop) (a b c : World Time) :
  writes_within allowed a b -> writes_within allowed b c -> writes_within allowed a c.
Proof.
  intros Hab Hbc path Hnone Hsome.
  destruct (files b !! path) as [text|] eqn:Hb.
  - apply Hab; [exact Hnone|]. rewrite Hb. eauto.
  - now apply Hbc.
Qed.

Lemma run_case_writes_within temperature try_number result_folder (w : World Time)
    (index : nat) (row : Case) :
  writes_within (fun path => path = result_file_path result_folder row) w
    (run_case pil prompt_template provider clock temperature try_number
       result_folder w (index, row)).1.
Proof.
  unfold run_case.
  destruct (files w !! result_file_path result_folder row) as [text|];
    [intros path Hnone [text' Hsome]; cbn in Hsome; congruence|].
  destruct (encode_images_from_paths pil _) as [encoded_images|msg|];
    [|apply writes_within_refl..].
  destruct (analyze_images_with_gpt4_vision _ _ _ _ _) as [tr [[choice|]|msg|]];
    unfold writes_within;
    cbn [fst files write_file log_message set_df add_events];
    intros path Hnone [text Hsome]; try congruence.
  destruct (decide (result_file_path result_folder row = path)) as [<-|Hne];
    [reflexivity|].
  rewrite lookup_insert_ne in Hsome by exact Hne. congruence.
Qed.

(** A run creates files only at the result paths of the cases of the
    list, in the folders of the three temperatures. *)
Theorem main_writes_case_files (w : World Time) (path : string) :
  files w !! path = None ->
  is_Some (files (main pil cases prompt_template provider clock w).1 !! path) ->
  exists temperature row,
    temperature ∈ temperatures /\ row ∈ cases
    /\ path = result_file_path
                (create_result_folder base_result_folder temperature 1) row.
Proof.
  set (allowed := fun path => exists temperature row,
         temperature ∈ temperatures /\ row ∈ cases
         /\ path = result_file_path
                     (create_result_folder base_result_folder temperature 1) row).
  assert (H : writes_within allowed w
                (main pil cases prompt_template provider clock w).1).
  { unfold main.
    pose proof (loops_invariant (writes_within allowed)
                  (writes_within_refl allowed) (writes_within_trans allowed)) as Hloop.
    specialize (Hloop ltac:(
      intros t i r w0 Ht Hr p Hnone Hsome;
      exists t, r; split; [exact Ht|]; split; [exact Hr|];
      exact (run_case_writes_within t 1 _ w0 i r p Hnone Hsome)) w).
    destruct (for_each _ w temperatures) as [w' [[]|msg|]]; cbn [fst] in *;
      exact Hloop. }
  intros Hnone Hsome. exact (H path Hnone Hsome).
Qed.

Lemma saves_nothing_refl (w : World Time) : saves_nothing w w.
Proof. exists []. split; [now rewrite app_nil_r|constructor]. Qed.

Lemma saves_nothing_trans (a b c : World Time) :
  saves_nothing a b -> saves_nothing b c -> saves_nothing a c.
Proof.
  intros (e1 & H1 & F1) (e2 & H2 & F2). exists (e1 ++ e2).
  split; [now rewrite H2, H1, app_assoc|]. apply Forall_app. now split.
Qed.

Lemma run_case_saves_nothing temperature try_number result_folder (w : World Time)
    (indexed_row : nat * Case) :
  saves_nothing w (run_case pil prompt_template provider clock temperature try_number
                     result_folder w indexed_row).1.
Proof.
  destruct indexed_row as [index row]. unfold run_case.
  destruct (files w !! result_file_path result_folder row) as [text|].
  { exists [Skipped (index + 1) temperature try_number]. split; [reflexivity|].
    repeat constructor. }
  destruct (encode_images_from_paths pil _) as [encoded_images|msg|];
    [|apply saves_nothing_refl..].
  match goal with
  | |- context [analyze_images_with_gpt4_vision pil ?p ?q ?i ?t] =>
      pose proof (gpt4_attempts_outcome pil (Time := Time) p q t
                    max_attempts 0 i eq_refl) as (_ & Hn & _)
  end.
  cbn zeta in Hn. unfold analyze_images_with_gpt4_vision.
  destruct (gpt4_attempts _ _ _ _ _ _ _) as [tr [[choice|]|msg|]];
    exists tr; (split; [reflexivity|exact Hn]).
Qed.

(** The timing table is written to its file only when the loop has run
    to its end, as the last thing, with the rows of the whole run: a run
    that an exception stops (a missing image, an error of the encoder)
    saves none of the times it has measured. *)
Theorem main_saves_on_completion (w : World Time) :
  let done := main pil cases prompt_template provider clock w in
  match done.2 with
  | Ret _ =>
      exists evs,
        events done.1
        = events w ++ evs ++ [SavedTimes (df_execution_times done.1) time_file_name]
        /\ Forall (fun ev => is_saved ev = false) evs
  | _ =>
      exists evs, events done.1 = events w ++ evs
                  /\ Forall (fun ev => is_saved ev = false) evs
  end.
Proof.
  cbn zeta. unfold main.
  pose proof (loops_invariant saves_nothing saves_nothing_refl saves_nothing_trans
                (fun t i r w0 _ _ => run_case_saves_nothing t 1 _ w0 (i, r)) w)
    as (evs & Hev & Hno).
  destruct (for_each _ w temperatures) as [w' [[]|msg|]]; cbn [fst snd] in *.
  - exists evs. split; [|exact Hno]. cbn. now rewrite Hev, app_assoc.
  - exists evs. split; assumption.
  - exists evs. split; assumption.
Qed.

End MoreRunnerFacts.

(** ** The paths of the result files *)

Section PathFacts.












End PathFacts.


(** ** A case whose image is filtered out *)

Section SmallImageFacts.
Context (pil : Imaging) {Time : Type}.
Context (prompt_template : string -> string -> string).
Context (provider : Temperature -> nat ->
                    nat -> string -> list string -> Temperature -> Outcome Choice).
Context (clock : Temperature -> nat -> Time).

(** Without images there is nothing to re-encode, so nothing can fail. *)
Lemma gpt4_attempts_no_images provider' prompt_text temperature
    (remaining attempt : nat) :
  exists result,
    (gpt4_attempts pil (Time := Time) provider' prompt_text temperature
       attempt remaining []).2 = Ret result.
Proof.
  revert attempt. induction remaining as [|remaining IH]; intros attempt.
  - cbn. eauto.
  - cbn [gpt4_attempts].
    destruct (provider' attempt prompt_text [] temperature) as [choice|e].
    + destruct (startswith (message_content choice) "I'm sorry, but");
        [rewrite after_snd; apply IH|cbn; eauto].
    + destruct (contains "image_parse_error" (lower e) && (attempt <? max_attempts - 1));
        cbn [resize_images]; rewrite after_snd; apply IH.
Qed.

(** A case without result file whose image is at most 150 pixels wide
    or high is still sent to the provider, at least once, and every
    request for it carries no image at all; the step cannot raise. *)
Theorem small_image_text_only (temperature : Temperature) (try_number : nat)
    (result_folder : string) (w : World Time) (index : nat) (row : Case)
    (img : Image pil) :
  files w !! result_file_path result_folder row = None ->
  open_path pil ("q401_image/" +:+ image_file_name row) = Some img ->
  large_enough pil img = false ->
  let done := run_case pil prompt_template provider clock temperature try_number
                result_folder w (index, row) in
  done.2 = Ret tt
  /\ exists evs, events done.1 = events w ++ evs
       /\ 1 <= sends evs
       /\ Forall (image_count_is 0) evs.
Proof.
  intros Hfile Hopen Hsmall. cbn zeta. unfold run_case. rewrite Hfile.
  cbn [encode_images_from_paths]. rewrite Hopen.
  unfold large_enough in Hsmall. destruct (size pil img) as [width height].
  cbn [fst snd] in Hsmall. rewrite Hsmall.
  match goal with
  | |- context [analyze_images_with_gpt4_vision pil ?p ?q ?i ?t] =>
      pose proof (gpt4_attempts_outcome pil (Time := Time) p q t
                    max_attempts 0 i eq_refl) as (_ & _ & Hout);
      pose proof (gpt4_attempts_trace pil (Time := Time) p q t max_attempts 0 0 i eq_refl)
        as [(_ & Hcount & _) _];
      destruct (gpt4_attempts_no_images p q t max_attempts 0) as [result Hret]
  end.
  cbn zeta in *. unfold analyze_images_with_gpt4_vision.
  destruct (gpt4_attempts _ _ _ _ _ _ _) as [tr res]. cbn [fst snd] in *. subst res.
  assert (Hsends : 1 <= sends tr).
  { destruct result; unfold max_attempts in *; lia. }
  destruct result as [choice|]; cbn [fst snd events write_file log_message set_df add_events];
    (split; [reflexivity|]); exists tr; auto.
Qed.

End SmallImageFacts.

(** ** More on the timing table *)

Section MoreRecorderFacts.
Context {Time : Type}.
Implicit Types (df : list (Row Time)) (r : Row Time).

Lemma rows_of_set_time_other df n t y (x : Time) n' t' y' :
  (n', t', y') <> (n, t, y) ->
  rows_of (map (set_time n t y x) df) n' t' y' = rows_of df n' t' y'.
Proof.
  intros Hne. unfold rows_of. induction df as [|r df IH]; [reflexivity|].
  cbn [map]. destruct (mask n' t' y' r) eqn:Hm.
  - assert (Hr : set_time n t y x r = r).
    { unfold set_time. destruct (mask n t y r) eqn:Hk; [|reflexivity].
      apply mask_key in Hm, Hk. congruence. }
    rewrite Hr, !filter_cons_True by exact Hm. now rewrite IH.
  - rewrite !filter_cons_False; [exact IH|congruence|].
    rewrite mask_key, key_set_time, <- mask_key. congruence.
Qed.

(** A call of the recorder changes no row of another key: the rows of
    every other key are the same, in the same order, after the call. *)
Theorem upsert_other_keys df n t y (x : Time) n' t' y' :
  (n', t', y') <> (n, t, y) ->
  rows_of (upsert df n t y x) n' t' y' = rows_of df n' t' y'.
Proof.
  intros Hne. unfold upsert. destruct (existsb (mask n t y) df).
  - now apply rows_of_set_time_other.
  - unfold rows_of. rewrite filter_app, filter_cons_False, filter_nil.
    + apply app_nil_r.
    + rewrite mask_key. unfold key. cbn. congruence.
Qed.

Lemma set_time_twice n t y (x : Time) r :
  set_time n t y x (set_time n t y x r) = set_time n t y x r.
Proof.
  unfold set_time. destruct (mask n t y r) eqn:Hm; [|now rewrite Hm].
  assert (Hm' : mask n t y {| number := number r; temperature := temperature r;
                              try_number := try_number r; time := x |} = true).
  { apply mask_key. apply mask_key in Hm. exact Hm. }
  now rewrite Hm'.
Qed.

(** Also in a table that holds a key several times: after a call every
    row of the key holds the new time and there is at least one; the
    table has as many rows as before or one more; and the same call made
    again changes nothing. *)
Theorem upsert_last_write df n t y (x : Time) :
  Forall (fun r => time r = x) (rows_of (upsert df n t y x) n t y)
  /\ rows_of (upsert df n t y x) n t y <> []
  /\ length df <= length (upsert df n t y x) <= S (length df)
  /\ upsert (upsert df n t y x) n t y x = upsert df n t y x.
Proof.
  assert (Hmapped : forall l : list (Row Time),
            Forall (fun r => time r = x) (rows_of (map (set_time n t y x) l) n t y)).
  { intros l. unfold rows_of. apply Forall_forall. intros r Hr.
    apply list_elem_of_filter in Hr as [Hm Hin].
    apply list_elem_of_fmap in Hin as (r0 & -> & _).
    rewrite mask_key, key_set_time, <- mask_key in Hm.
    unfold set_time. now rewrite Hm. }
  destruct (existsb (mask n t y) df) eqn:Hex.
  - assert (Heq : upsert df n t y x = map (set_time n t y x) df)
      by (unfold upsert; now rewrite Hex).
    rewrite !Heq. split; [apply Hmapped|]. split; [|split].
    + apply existsb_exists in Hex as (r & Hin & Hm). intros Hnil.
      assert (Hr : set_time n t y x r ∈ rows_of (map (set_time n t y x) df) n t y).
      { unfold rows_of. apply list_elem_of_filter. split.
        - rewrite mask_key, key_set_time, <- mask_key. exact Hm.
        - apply list_elem_of_fmap. exists r. split; [reflexivity|].
          now apply list_elem_of_In. }
      rewrite Hnil in Hr. now apply not_elem_of_nil in Hr.
    + rewrite length_map. lia.
    + unfold upsert.
      assert (Hex' : existsb (mask n t y) (map (set_time n t y x) df) = true).
      { apply existsb_mask_keys. rewrite keys_set_time. now apply existsb_mask_keys. }
      rewrite Hex', map_map. apply map_ext. intros r. apply set_time_twice.
  - assert (Heq : upsert df n t y x
                  = df ++ [ {| number := n; temperature := t;
                               try_number := y; time := x |} ])
      by (unfold upsert; now rewrite Hex).
    rewrite !Heq.
    assert (Hnot : (n, t, y) ∉ map key df).
    { intros Hin. apply existsb_mask_keys in Hin. congruence. }
    assert (Hrows : rows_of (df ++ [ {| number := n; temperature := t;
                                        try_number := y; time := x |} ]) n t y
                    = [ {| number := n; temperature := t;
                           try_number := y; time := x |} ]).
    { unfold rows_of. rewrite filter_app. fold (rows_of df n t y).
      rewrite (rows_of_absent _ _ _ _ Hnot).
      rewrite filter_cons_True by (apply mask_key; reflexivity). reflexivity. }
    rewrite Hrows. split; [repeat constructor|]. split; [discriminate|]. split.
    + rewrite length_app. cbn. lia.
    + unfold upsert.
      assert (Hex' : existsb (mask n t y)
                       (df ++ [ {| number := n; temperature := t;
                                   try_number := y; time := x |} ]) = true).
      { rewrite existsb_app. apply orb_true_iff. right. cbn.
        rewrite orb_false_r. apply mask_key. reflexivity. }
      rewrite Hex', map_app, (set_time_absent _ _ _ _ _ Hnot). cbn.
      f_equal. f_equal. unfold set_time.
      assert (Hm : mask n t y {| number := n; temperature := t;
                                 try_number := y; time := x |} = true)
        by (apply mask_key; reflexivity).
      now rewrite Hm.
Qed.

End MoreRecorderFacts.

Lemma upsert_other_keys_witness :
  (2, T_0, 1) <> (1, T_0, 1)
  /\ rows_of (upsert [ {| number := 2; temperature := T_0; try_number := 1; time := 7%Z |} ]
                1 T_0 1 9%Z) 2 T_0 1
     = [ {| number := 2; temperature := T_0; try_number := 1; time := 7%Z |} ].
Proof.
  assert (H : (2, T_0, 1) <> (1, T_0, 1)) by discriminate.
  split; [exact H|].
  exact (upsert_other_keys
           [ {| number := 2; temperature := T_0; try_number := 1; time := 7%Z |} ]
           1 T_0 1 9%Z 2 T_0 1 H).
Defined.

(** ** The main loop of the Claude script *)

Section ClaudeScriptFacts.
Context (pil : Imaging) {Time : Type}.
Context (cases : list ClaudeScript.Case).
Context (prompt_template : string -> string -> string).
Context (provider : Temperature -> nat ->
                    nat -> string -> list string -> Temperature -> Outcome string).
Context (clock : Temperature -> nat -> Time).

Lemma claude_for_each_stuck {A : Type} (w0 : World Time)
    (body : ClaudeScript.frame -> A -> ClaudeScript.frame * py unit) (l : list A) :
  (forall f x, x ∈ l -> claude_stuck w0 (f, Ret tt) -> claude_stuck w0 (body f x)) ->
  forall f, claude_stuck w0 (f, Ret tt) ->
            claude_stuck w0 (ClaudeScript.for_each body f l).
Proof.
  induction l as [|x l IH]; intros Hbody f Hf; [exact Hf|].
  cbn [ClaudeScript.for_each].
  pose proof (Hbody f x ltac:(left) Hf) as Hx.
  destruct (body f x) as [f' [[]|msg|]]; try exact Hx.
  apply IH; [|exact Hx]. intros g y Hy. apply Hbody. now right.
Qed.

Lemma claude_run_case_stuck (w0 : World Time) temperature try_number result_folder
    (f : ClaudeScript.frame) (indexed_row : nat * ClaudeScript.Case) :
  claude_stuck w0 (f, Ret tt) ->
  claude_stuck w0 (ClaudeScript.run_case pil prompt_template provider clock
                     temperature try_number result_folder f indexed_row).
Proof.
  destruct f as [w local_df]. destruct indexed_row as [index row].
  intros (Hlocal & Hfiles & Hlog & Hdf & evs & Hev & Hle & Hzero).
  cbn [fst snd] in *. subst local_df. specialize (Hzero eq_refl).
  unfold ClaudeScript.run_case.
  destruct (files w !! _) as [text|].
  { repeat split; cbn [fst snd files log_file df_execution_times events add_events];
      auto.
    exists (evs ++ [Skipped (index + 1) temperature try_number]).
    rewrite Hev, app_assoc, sends_app, Hzero.
    split; [reflexivity|].
    change (sends [Skipped (index + 1) temperature try_number]) with 0.
    unfold max_attempts. split; [lia|intros _; reflexivity]. }
  destruct (encode_images_from_paths pil _) as [encoded_images|msg|].
  2,3: repeat split; cbn [fst snd]; auto; exists evs; repeat split; auto; discriminate.
  match goal with
  | |- context [analyze_images_with_claude_vision pil ?p ?d ?fl ?q ?i ?t] =>
      pose proof (claude_attempts_outcome pil p d fl q t
                    max_attempts 0 i eq_refl) as (_ & Hout)
  end.
  cbn zeta in Hout. unfold analyze_images_with_claude_vision.
  destruct (claude_attempts _ _ _ _ _ _ _ _ _) as [tr res]. cbn [fst snd] in Hout.
  assert (Hsends : sends tr <= max_attempts).
  { destruct res as [[text|]|msg|]; try lia.
    destruct Hout as (tr' & -> & _ & H). rewrite sends_saved. lia. }
  assert (Hstuck : forall res' : py unit, res' <> Ret tt ->
            claude_stuck w0 ((add_events tr w, @None (list (Row Time))), res')).
  { intros res' Hres. repeat split;
      cbn [fst snd files log_file df_execution_times events add_events]; auto.
    exists (evs ++ tr). rewrite Hev, app_assoc, sends_app, Hzero.
    split; [reflexivity|]. split; [lia|]. intros H. congruence. }
  destruct res as [result|msg|]; apply Hstuck; discriminate.
Qed.

(** [main()] of the Claude script never runs to its end: it stops with
    an exception, or with the exit of the quota test, after the call for
    the first case that has no result file and at the latest where the
    timing table is to be saved.  It writes no result file, logs nothing
    and records no time, and it sends the requests of at most one call. *)
Theorem claude_main_never_completes (w : World Time) :
  let done := ClaudeScript.main pil cases prompt_template provider clock w in
  (done.2 = Exit \/ exists msg, done.2 = Exc msg)
  /\ files done.1.1 = files w
  /\ log_file done.1.1 = log_file w
  /\ df_execution_times done.1.1 = df_execution_times w
  /\ exists evs, events done.1.1 = events w ++ evs /\ sends evs <= max_attempts.
Proof.
  cbn zeta. unfold ClaudeScript.main.
  assert (Hstart : claude_stuck w ((w, @None (list (Row Time))), Ret tt)).
  { repeat split. exists []. rewrite app_nil_r. repeat split. cbn. lia. }
  assert (Hloop : claude_stuck w
            (ClaudeScript.for_each
               (ClaudeScript.run_temperature pil cases prompt_template provider clock)
               (w, None) ClaudeScript.temperatures)).
  { apply claude_for_each_stuck; [|exact Hstart].
    intros f temperature _ Hf. unfold ClaudeScript.run_temperature.
    apply claude_for_each_stuck; [|exact Hf].
    intros f1 try_number _ Hf1. unfold ClaudeScript.run_try.
    apply claude_for_each_stuck; [|exact Hf1].
    intros f2 x _ Hf2. now apply claude_run_case_stuck. }
  destruct (ClaudeScript.for_each _ _ _) as [[w' local_df] res].
  destruct Hloop as (Hlocal & Hfiles & Hlog & Hdf & evs & Hev & Hle & _).
  cbn [fst snd] in *. subst local_df.
  destruct res as [[]|msg|]; cbn [fst snd];
    (split; [eauto|]); repeat split; auto; exists evs; auto.
Qed.

End ClaudeScriptFacts.

(** ** The main loop of the Gemini script *)

Section GeminiScriptFacts.
Context (pil : Imaging) {Time : Type}.
Context (prompt_template : string -> string -> string).
Context (provider : Temperature -> nat ->
                    nat -> string -> list string -> Temperature -> Outcome Content).
Context (clock : Temperature -> nat -> Time).

(** A result file that a step of the Gemini loop creates holds at least
    10 characters; the one exception is a content that is a list with an
    element, which leaves an empty file and stops the run with the
    TypeError of [write]. *)
Theorem gemini_result_file (temperature : Temperature) (try_number : nat)
    (result_folder : string) (w : World Time) (index : nat) (row : Case) :
  files w !! result_file_path result_folder row = None ->
  let done := GeminiScript.run_case pil prompt_template provider clock temperature
                try_number result_folder w (index, row) in
  match files done.1 !! result_file_path result_folder row with
  | None => True
  | Some text =>
      (done.2 = Ret tt /\ 10 <= String.length text)
      \/ (text = "" /\ done.2 = Exc GeminiScript.write_type_error)
  end.
Proof.
  intros Hfile. cbn zeta. unfold GeminiScript.run_case. rewrite Hfile.
  destruct (encode_images_from_paths pil _) as [encoded_images|msg|];
    [|cbn [fst]; now rewrite Hfile..].
  match goal with
  | |- context [analyze_images_with_gemini_vision pil ?p ?q ?i ?t] =>
      pose proof (gemini_attempts_outcome pil (Time := Time) p q t
                    max_attempts 0 i eq_refl) as (_ & _ & Hout)
  end.
  cbn zeta in Hout. unfold analyze_images_with_gemini_vision.
  destruct (gemini_attempts _ _ _ _ _ _ _) as [tr res]. cbn [fst snd] in Hout.
  destruct res as [[[s|l]|]|msg|];
    cbn [GeminiScript.truthy fst snd files write_file set_df add_events];
    try (now rewrite Hfile).
  - destruct Hout as [_ Hlong]. cbn [too_short] in Hlong.
    apply Nat.ltb_ge in Hlong.
    assert (Hs : String.eqb s "" = false) by (destruct s; [cbn in Hlong; lia|reflexivity]).
    rewrite Hs. cbn [negb fst snd files write_file].
    rewrite lookup_insert_eq. left. split; [reflexivity|exact Hlong].
  - destruct l as [|x l].
    + cbn. now rewrite Hfile.
    + rewrite bool_decide_eq_false_2 by discriminate.
      cbn [negb fst snd files write_file].
      rewrite lookup_insert_eq. right. split; reflexivity.
Qed.

End GeminiScriptFacts.

Lemma gemini_result_file_witness :
  let path := result_file_path
                (create_result_folder GeminiScript.base_result_folder T_0 1)
                Sample.case_1 in
  let done := GeminiScript.run_case Sample.imaging Sample.prompt_template
                (fun _ _ _ _ _ _ => Response (Text Sample.answer)) Sample.clock T_0 1
                (create_result_folder GeminiScript.base_result_folder T_0 1)
                Sample.fresh (0, Sample.case_1) in
  files Sample.fresh !! path = None
  /\ files done.1 !! path = Some Sample.answer
  /\ 10 <= String.length Sample.answer.
Proof.
  cbn zeta.
  assert (H : files Sample.fresh
              !! result_file_path
                   (create_result_folder GeminiScript.base_result_folder T_0 1)
                   Sample.case_1 = None) by (vm_compute; reflexivity).
  split; [exact H|].
  pose proof (gemini_result_file Sample.imaging Sample.prompt_template
                (fun _ _ _ _ _ _ => Response (Text Sample.answer)) Sample.clock T_0 1
                (create_result_folder GeminiScript.base_result_folder T_0 1)
                Sample.fresh 0 Sample.case_1 H) as Hfile.
  cbn zeta in Hfile.
  assert (Hdone : files (GeminiScript.run_case Sample.imaging Sample.prompt_template
                           (fun _ _ _ _ _ _ => Response (Text Sample.answer))
                           Sample.clock T_0 1
                           (create_result_folder GeminiScript.base_result_folder T_0 1)
                           Sample.fresh (0, Sample.case_1)).1
                  !! result_file_path
                       (create_result_folder GeminiScript.base_result_folder T_0 1)
                       Sample.case_1 = Some Sample.answer) by (vm_compute; reflexivity).
  split; [exact Hdone|]. rewrite Hdone in Hfile.
  destruct Hfile as [[_ Hlong]|[Hempty _]]; [exact Hlong|discriminate].
Defined.

(** ** From the main loop to the summarizer *)

(** The summarizer looks for the files where the main loop writes them,
    and, when its loop runs to its end, has found what the main loop
    wrote: the result file of a case whose identifier is the decimal
    numeral of a number from 1 to 401 has its path in the folder, and is
    read by [process_folder] as the row of that number. *)
Theorem summarizer_reads_runner_files (cell_error : string -> option string)
    (fs : gmap string string) (result_folder : string) (row : Case) (i : nat)
    (text : string) (rows : list (nat * list string)) :
  no row = str_of_nat i -> 1 <= i <= 401 ->
  fs !! result_file_path result_folder row = Some text ->
  Summarizer.process_folder cell_error fs result_folder = Ret rows ->
  Summarizer.file_path result_folder i = result_file_path result_folder row
  /\ (i, Summarizer.split_file text) ∈ rows.
Proof.
  intros Hno Hi Hfile Hrows.
  assert (Hpath : Summarizer.file_path result_folder i
                  = result_file_path result_folder row).
  { unfold Summarizer.file_path, result_file_path, image_file_name.
    rewrite Hno, append_assoc'. reflexivity. }
  split; [exact Hpath|].
  apply (process_folder_row cell_error fs result_folder rows i text Hrows Hi).
  now rewrite Hpath.
Qed.

Lemma summarizer_reads_runner_files_witness :
  no Sample.case_1 = str_of_nat 1 /\ 1 <= 1 <= 401
  /\ files Sample.finished
       !! result_file_path "gpt4o_result/gpt4o_result_temp_0_5_try1" Sample.case_1
     = Some Sample.answer
  /\ Summarizer.process_folder Sample2.cell_error (files Sample.finished)
       "gpt4o_result/gpt4o_result_temp_0_5_try1"
     = Ret [(1, Summarizer.split_file Sample.answer)]
  /\ (1, Summarizer.split_file Sample.answer)
       ∈ [(1, Summarizer.split_file Sample.answer)].
Proof.
  assert (H1 : no Sample.case_1 = str_of_nat 1) by reflexivity.
  assert (H2 : 1 <= 1 <= 401) by lia.
  assert (H3 : files Sample.finished
               !! result_file_path "gpt4o_result/gpt4o_result_temp_0_5_try1"
                    Sample.case_1 = Some Sample.answer) by (vm_compute; reflexivity).
  assert (H4 : Summarizer.process_folder Sample2.cell_error (files Sample.finished)
                 "gpt4o_result/gpt4o_result_temp_0_5_try1"
               = Ret [(1, Summarizer.split_file Sample.answer)])
    by (vm_compute; reflexivity).
  split; [exact H1|]. split; [exact H2|]. split; [exact H3|]. split; [exact H4|].
  exact (proj2 (summarizer_reads_runner_files _ _ _ _ _ _ _ H1 H2 H3 H4)).
Defined.

(** ** The further properties on the sample world *)

Lemma readlines_lines_witness :
  readlines ("1. MR" +:+ nl +:+ "2. T1WI") !! 1 = Some "2. T1WI"
  /\ exists body, has_newline body = false
       /\ ("2. T1WI" = body +:+ nl
           \/ ("2. T1WI" = body
               /\ 2 = length (readlines ("1. MR" +:+ nl +:+ "2. T1WI")))).
Proof.
  assert (H : readlines ("1. MR" +:+ nl +:+ "2. T1WI") !! 1 = Some "2. T1WI")
    by (vm_compute; reflexivity).
  split; [exact H|].
  destruct (readlines_lines ("1. MR" +:+ nl +:+ "2. T1WI")) as (_ & _ & Hbody).
  exact (Hbody 1 "2. T1WI" H).
Defined.


Lemma main_only_adds_witness :
  files Sample.finished !! "gpt4o_result/gpt4o_result_temp_0_try1/1.png.txt" = Some ""
  /\ files (main Sample.imaging [Sample.case_1] Sample.prompt_template
              Sample.failures Sample.clock Sample.finished).1
       !! "gpt4o_result/gpt4o_result_temp_0_try1/1.png.txt" = Some "".
Proof.
  assert (H : files Sample.finished
              !! "gpt4o_result/gpt4o_result_temp_0_try1/1.png.txt" = Some "")
    by (vm_compute; reflexivity).
  split; [exact H|].
  destruct (main_only_adds Sample.imaging [Sample.case_1] Sample.prompt_template
              Sample.failures Sample.clock Sample.finished) as [Hfiles _].
  exact (Hfiles _ _ H).
Defined.

Lemma main_timing_table_witness :
  NoDup (map key (df_execution_times Sample.fresh))
  /\ NoDup (map key (df_execution_times
                       (main Sample.imaging [Sample.case_1] Sample.prompt_template
                          Sample.failures Sample.clock Sample.fresh).1)).
Proof.
  assert (H : NoDup (map key (df_execution_times Sample.fresh))) by constructor.
  split; [exact H|].
  destruct (main_timing_table Sample.imaging [Sample.case_1] Sample.prompt_template
              Sample.failures Sample.clock Sample.fresh) as [Hnd _].
  exact (Hnd H).
Defined.

Lemma main_writes_case_files_witness :
  files Sample.fresh !! "gpt4o_result/gpt4o_result_temp_0_try1/1.png.txt" = None
  /\ is_Some (files (main Sample.imaging [Sample.case_1] Sample.prompt_template
                       Sample.empty_answers Sample.clock Sample.fresh).1
                !! "gpt4o_result/gpt4o_result_temp_0_try1/1.png.txt")
  /\ exists temperature row,
       temperature ∈ temperatures /\ row ∈ [Sample.case_1]
       /\ "gpt4o_result/gpt4o_result_temp_0_try1/1.png.txt"
          = result_file_path
              (create_result_folder base_result_folder temperature 1) row.
Proof.
  assert (H1 : files Sample.fresh
               !! "gpt4o_result/gpt4o_result_temp_0_try1/1.png.txt" = None)
    by (vm_compute; reflexivity).
  assert (H2 : is_Some (files (main Sample.imaging [Sample.case_1]
                                 Sample.prompt_template Sample.empty_answers
                                 Sample.clock Sample.fresh).1
                          !! "gpt4o_result/gpt4o_result_temp_0_try1/1.png.txt"))
    by (vm_compute; eauto).
  split; [exact H1|]. split; [exact H2|].
  exact (main_writes_case_files Sample.imaging [Sample.case_1] Sample.prompt_template
           Sample.empty_answers Sample.clock Sample.fresh _ H1 H2).
Defined.

Lemma small_image_text_only_witness :
  let folder := create_result_folder base_result_folder T_0 1 in
  let done := run_case Sample2.small_imaging Sample.prompt_template
                Sample.empty_answers Sample.clock T_0 1 folder
                Sample.fresh (0, Sample.case_1) in
  files Sample.fresh !! result_file_path folder Sample.case_1 = None
  /\ open_path Sample2.small_imaging ("q401_image/" +:+ image_file_name Sample.case_1)
     = Some (120, 90)%Z
  /\ large_enough Sample2.small_imaging (120, 90)%Z = false
  /\ done.2 = Ret tt
  /\ exists evs, events done.1 = events Sample.fresh ++ evs
       /\ 1 <= sends evs /\ Forall (image_count_is 0) evs.
Proof.
  cbn zeta.
  assert (H1 : files Sample.fresh
               !! result_file_path (create_result_folder base_result_folder T_0 1)
                    Sample.case_1 = None) by (vm_compute; reflexivity).
  assert (H2 : open_path Sample2.small_imaging
                 ("q401_image/" +:+ image_file_name Sample.case_1)
               = Some (120, 90)%Z) by reflexivity.
  assert (H3 : large_enough Sample2.small_imaging (120, 90)%Z = false)
    by (vm_compute; reflexivity).
  split; [exact H1|]. split; [exact H2|]. split; [exact H3|].
  exact (small_image_text_only Sample2.small_imaging Sample.prompt_template
           Sample.empty_answers Sample.clock T_0 1 _ Sample.fresh 0 Sample.case_1
           _ H1 H2 H3).
Defined.

(** ** A run that reaches its end *)

Section CompleteRunFacts.
Context (pil : Imaging) {Time : Type}.
Context (cases : list Case).
Context (prompt_template : string -> string -> string).
Context (provider : Temperature -> nat ->
                    nat -> string -> list string -> Temperature -> Outcome Choice).
Context (clock : Temperature -> nat -> Time).

(** What a step that returned has established for its element still
    holds at the end of a loop that returned, when later steps only add. *)
Lemma for_each_post {A : Type} (P : A -> World Time -> Prop)
    (body : World Time -> A -> World Time * py unit) (l : list A) :
  (forall w x, x ∈ l -> only_adds w (body w x).1) ->
  (forall x a b, P x a -> only_adds a b -> P x b) ->
  (forall w x, x ∈ l -> (body w x).2 = Ret tt -> P x (body w x).1) ->
  forall w, (for_each body w l).2 = Ret tt ->
            forall x, x ∈ l -> P x (for_each body w l).1.
Proof.
  intros Hadds Hmono. induction l as [|x l IH]; intros Hpost w Hret y Hy.
  - now apply not_elem_of_nil in Hy.
  - cbn [for_each] in *.
    pose proof (Hpost w x ltac:(left)) as Hx.
    destruct (body w x) as [w' [[]|msg|]] eqn:Hbody; cbn [fst snd] in *;
      try discriminate.
    apply elem_of_cons in Hy as [->|Hy].
    + apply (Hmono x w'); [now apply Hx|].
      apply (for_each_invariant only_adds body l only_adds_refl only_adds_trans).
      intros w0 z Hz. apply Hadds. now right.
    + apply IH; auto.
      * intros w0 z Hz. apply Hadds. now right.
      * intros w0 z Hz. apply Hpost. now right.
Qed.

(** When the main loop has run to its end, every case of every
    temperature is accounted for: its result file exists, or the log
    holds its line "No results found". *)
Theorem main_accounts_for_every_case (w : World Time) :
  let done := main pil cases prompt_template provider clock w in
  done.2 = Ret tt ->
  forall temperature index row,
    temperature ∈ temperatures -> (index, row) ∈ iterrows cases ->
    is_Some (files done.1
               !! result_file_path
                    (create_result_folder base_result_folder temperature 1) row)
    \/ no_result_message (index + 1) temperature 1 ∈ log_file done.1.
Proof.
  cbn zeta. intros Hret temperature index row Ht Hrow.
  set (Q := fun (t : Temperature) (ir : nat * Case) (w' : World Time) =>
         is_Some (files w' !! result_file_path
                                (create_result_folder base_result_folder t 1) ir.2)
         \/ no_result_message (ir.1 + 1) t 1 ∈ log_file w').
  assert (Hmono : forall t ir a b, Q t ir a -> only_adds a b -> Q t ir b).
  { intros t ir a b [[text Hf]|Hl] (Hfiles & Hlog & _).
    - left. exists text. now apply Hfiles.
    - right. destruct Hlog as [more ->]. apply elem_of_app. now left. }
  assert (Hcase : forall t w0 ir,
            (run_case pil prompt_template provider clock t 1
               (create_result_folder base_result_folder t 1) w0 ir).2 = Ret tt ->
            Q t ir (run_case pil prompt_template provider clock t 1
                      (create_result_folder base_result_folder t 1) w0 ir).1).
  { intros t w0 [i r]. unfold run_case, Q. cbn [fst snd].
    destruct (files w0 !! _) as [text|] eqn:Hf.
    { intros _. left. cbn. rewrite Hf. eauto. }
    destruct (encode_images_from_paths pil _) as [imgs|msg|]; try discriminate.
    destruct (analyze_images_with_gpt4_vision _ _ _ _ _) as [tr [[choice|]|msg|]];
      cbn [fst snd files log_file write_file log_message set_df add_events];
      try discriminate; intros _.
    - left. rewrite lookup_insert_eq. eauto.
    - right. apply elem_of_app. right. now left. }
  assert (Htry : forall t w0,
            (run_try pil cases prompt_template provider clock t w0 1).2 = Ret tt ->
            forall ir, ir ∈ iterrows cases ->
              Q t ir (run_try pil cases prompt_template provider clock t w0 1).1).
  { intros t w0. unfold run_try.
    apply (for_each_post (Q t)).
    - intros w1 ir _. apply run_case_only_adds.
    - intros ir a b. apply Hmono.
    - intros w1 ir _. apply Hcase. }
  assert (Hadds_try : forall t w0 y,
            only_adds w0 (run_try pil cases prompt_template provider clock t w0 y).1).
  { intros t w0 y. unfold run_try.
    apply (for_each_invariant only_adds _ _ only_adds_refl only_adds_trans).
    intros w1 ir _. apply run_case_only_adds. }
  assert (Hadds_temp : forall w0 t,
            only_adds w0 (run_temperature pil cases prompt_template provider clock
                            w0 t).1).
  { intros w0 t. unfold run_temperature.
    apply (for_each_invariant only_adds _ _ only_adds_refl only_adds_trans).
    intros w1 y _. apply Hadds_try. }
  assert (Htemp : forall w0 t,
            (run_temperature pil cases prompt_template provider clock w0 t).2 = Ret tt ->
            forall ir, ir ∈ iterrows cases ->
              Q t ir (run_temperature pil cases prompt_template provider clock w0 t).1).
  { intros w0 t. unfold run_temperature. cbn [seq for_each].
    pose proof (Htry t w0) as H1.
    destruct (run_try pil cases prompt_template provider clock t w0 1)
      as [w1 [[]|msg|]]; cbn [fst snd] in *; try discriminate.
    intros _. now apply H1. }
  unfold main in *.
  pose proof (for_each_post (fun t w' => forall ir, ir ∈ iterrows cases -> Q t ir w')
                (run_temperature pil cases prompt_template provider clock) temperatures
                (fun w0 t _ => Hadds_temp w0 t)
                (fun t a b Ha Hab ir Hir => Hmono t ir a b (Ha ir Hir) Hab)
                (fun w0 t _ => Htemp w0 t) w) as Hall.
  destruct (for_each _ w temperatures) as [w' [[]|msg|]]; cbn [fst snd] in *;
    try discriminate.
  specialize (Hall eq_refl temperature Ht (index, row) Hrow).
  destruct Hall as [Hf|Hl]; [left; exact Hf|right; exact Hl].
Qed.

End CompleteRunFacts.

Lemma main_accounts_for_every_case_witness :
  (main Sample.imaging [Sample.case_1] Sample.prompt_template
     Sample.failures Sample.clock Sample.fresh).2 = Ret tt
  /\ T_0_5 ∈ temperatures /\ (0, Sample.case_1) ∈ iterrows [Sample.case_1]
  /\ (is_Some (files (main Sample.imaging [Sample.case_1] Sample.prompt_template
                        Sample.failures Sample.clock Sample.fresh).1
                 !! result_file_path
                      (create_result_folder base_result_folder T_0_5 1) Sample.case_1)
      \/ no_result_message (0 + 1) T_0_5 1
           ∈ log_file (main Sample.imaging [Sample.case_1] Sample.prompt_template
                         Sample.failures Sample.clock Sample.fresh).1).
Proof.
  assert (H1 : (main Sample.imaging [Sample.case_1] Sample.prompt_template
                  Sample.failures Sample.clock Sample.fresh).2 = Ret tt)
    by (vm_compute; reflexivity).
  assert (H2 : T_0_5 ∈ temperatures) by (right; left).
  assert (H3 : (0, Sample.case_1) ∈ iterrows [Sample.case_1]) by left.
  split; [exact H1|]. split; [exact H2|]. split; [exact H3|].
  exact (main_accounts_for_every_case Sample.imaging [Sample.case_1]
           Sample.prompt_template Sample.failures Sample.clock Sample.fresh
           H1 T_0_5 0 Sample.case_1 H2 H3).
Defined.
